(** * Blackjack environments with Halves counting: a shallow embedding

    Two gym environments are embedded here:
      - [Single]: task01/blackjack_with_double_counting.py
                  (class BlackjackDoubleCountingEnv),
      - [Split]:  task01/blackjack_with_double_counting_split.py
                  (class BlackjackDoubleCountingSplitEnv).

    Conventions.
      - Card ranks, hand totals and action codes are Python ints: [Z].
      - The running count and the rewards are Python floats.  Every value the
        code ever stores in them is an integer multiple of 1/2 of small
        magnitude, for which IEEE arithmetic is exact; they are rationals [Q]
        here and compared with [==].  The normalised count of the observation
        is the exact quotient, of which the float is the correct rounding.
      - Methods run in a state and exception monad over the pair (state of
        the process-wide generator [np.random], attributes of [self]); the
        state reached when an exception propagates is kept.
      - [while] loops take fuel; running out of it is the outcome [OutOfFuel].
      - The records describe an instance on which [reset] has been called:
        before that the hands are unset ([Single]) or [None] ([Split]). *)

From Stdlib Require Import ZArith QArith List Bool Lia Lqa.
Import ListNotations.
Open Scope Z_scope.

(** ** Outcomes and the method monad *)

Inductive exn : Type :=
| AssertionError
| ValueError
| IndexError
| KeyError
| ZeroDivisionError.

Inductive Outcome (A : Type) : Type :=
| Ok (a : A)
| Raise (e : exn)
| OutOfFuel.

Arguments Ok {A} a.
Arguments Raise {A} e.
Arguments OutOfFuel {A}.

Definition M (S A : Type) : Type := S -> Outcome A * S.

Definition ret {S A} (a : A) : M S A := fun s => (Ok a, s).

Definition bind {S A B} (c : M S A) (k : A -> M S B) : M S B :=
  fun s =>
    match c s with
    | (Ok a, s') => k a s'
    | (Raise e, s') => (Raise e, s')
    | (OutOfFuel, s') => (OutOfFuel, s')
    end.

Definition raise {S A} (e : exn) : M S A := fun s => (Raise e, s).

Definition diverge {S A} : M S A := fun s => (OutOfFuel, s).

Definition lift {S A} (o : Outcome A) : M S A := fun s => (o, s).

Declare Scope py_scope.
Delimit Scope py_scope with py.
Notation "x <- c ;; k" := (bind c (fun x => k))
  (at level 61, c at next level, right associativity) : py_scope.
Notation "c ;; k" := (bind c (fun _ => k))
  (at level 61, right associativity) : py_scope.
Open Scope py_scope.

(** [for x in l: body x] *)
Fixpoint for_each {S A} (l : list A) (body : A -> M S unit) : M S unit :=
  match l with
  | [] => ret tt
  | x :: l' => body x ;; for_each l' body
  end.

(** ** Python list built-ins used by the environments *)

Module Py.

Definition len {A} (l : list A) : Z := Z.of_nat (length l).

(** [sum(l)] *)
Definition sum (l : list Z) : Z := fold_left Z.add l 0.

(** [x in l] *)
Definition contains (x : Z) (l : list Z) : bool := existsb (Z.eqb x) l.

(** [l.index(x)]: position of the first element equal to [x]. *)
Fixpoint index (x : Z) (l : list Z) : Outcome nat :=
  match l with
  | [] => Raise ValueError
  | y :: l' =>
      if y =? x then Ok O
      else match index x l' with
           | Ok i => Ok (S i)
           | o => o
           end
  end.

Fixpoint remove_nth {A} (i : nat) (l : list A) : list A :=
  match i, l with
  | _, [] => []
  | O, _ :: l' => l'
  | S j, y :: l' => y :: remove_nth j l'
  end.

(** [l.pop(i)]: the element taken out and the list left; a negative [i]
    counts from the end. *)
Definition pop {A} (i : Z) (l : list A) : Outcome (A * list A) :=
  let j := if i <? 0 then i + len l else i in
  if (j <? 0) || (len l <=? j) then Raise IndexError
  else match nth_error l (Z.to_nat j) with
       | Some x => Ok (x, remove_nth (Z.to_nat j) l)
       | None => Raise IndexError
       end.

(** [l[i]] for [i >= 0] *)
Definition item {A} (i : nat) (l : list A) : Outcome A :=
  match nth_error l i with
  | Some x => Ok x
  | None => Raise IndexError
  end.

(** [l[-1]] *)
Fixpoint last_item {A} (l : list A) : Outcome A :=
  match l with
  | [] => Raise IndexError
  | [x] => Ok x
  | _ :: l' => last_item l'
  end.

(** [l[:-1]] *)
Definition but_last {A} (l : list A) : list A := removelast l.

(** [l * n]: [n] copies of [l], none when [n <= 0]. *)
Definition mul {A} (l : list A) (n : Z) : list A :=
  concat (repeat l (Z.to_nat n)).

Fixpoint insert_sorted (x : Z) (l : list Z) : list Z :=
  match l with
  | [] => [x]
  | y :: l' => if x <=? y then x :: l else y :: insert_sorted x l'
  end.

(** [sorted(l)] *)
Definition sorted (l : list Z) : list Z := fold_right insert_sorted [] l.

Fixpoint list_eqb (l1 l2 : list Z) : bool :=
  match l1, l2 with
  | [], [] => true
  | x :: l1', y :: l2' => (x =? y) && list_eqb l1' l2'
  | _, _ => false
  end.

(** [float(b)] *)
Definition float_of_bool (b : bool) : Q := if b then 1%Q else 0%Q.

(** [x < y] on floats *)
Definition Qltb (x y : Q) : bool :=
  (Qnum x * Zpos (Qden y) <? Qnum y * Zpos (Qden x))%Z.

(** [math.ceil(n / 52)] for a length [n] *)
Definition ceil_div52 (n : Z) : Z := (n + 51) / 52.

End Py.

(** ** Module-level functions (the same in both files) *)

(** [cmp(a, b)] *)
Definition cmp (a b : Z) : Q :=
  (Py.float_of_bool (a >? b) - Py.float_of_bool (a <? b))%Q.

(** The three-way comparison in words: 1 for a win, -1 for a loss, 0 for a
    draw; [cmp] is proved equal to it below. *)
Definition three_way (a b : Z) : Q :=
  if a >? b then 1%Q else if a <? b then (-1)%Q else 0%Q.

Definition usable_ace (hand : list Z) : bool :=
  Py.contains 1 hand && (Py.sum hand + 10 <=? 21).

Definition sum_hand (hand : list Z) : Z :=
  if usable_ace hand then Py.sum hand + 10 else Py.sum hand.

Definition is_bust (hand : list Z) : bool := sum_hand hand >? 21.

Definition score (hand : list Z) : Z :=
  if is_bust hand then 0 else sum_hand hand.

Definition is_natural (hand : list Z) : bool :=
  Py.list_eqb (Py.sorted hand) [1; 10].

(** The [halves] property: the Halves weight table; a key outside it raises
    KeyError. *)
Definition halves (card : Z) : Outcome Q :=
  match card with
  | 1 => Ok (-1)%Q
  | 2 => Ok (1 # 2)%Q
  | 3 => Ok 1%Q
  | 4 => Ok 1%Q
  | 5 => Ok (3 # 2)%Q
  | 6 => Ok 1%Q
  | 7 => Ok (1 # 2)%Q
  | 8 => Ok 0%Q
  | 9 => Ok (-1 # 2)%Q
  | 10 => Ok (-1)%Q
  | _ => Raise KeyError
  end.

(** One suit, as in [deck] and in [reset_deck]. *)
Definition suit : list Z := [1; 2; 3; 4; 5; 6; 7; 8; 9; 10; 10; 10; 10].

(** [[1, ..., 10, 10, 10, 10] * 4 * num_decks] *)
Definition fresh_deck (num_decks : Z) : list Z :=
  Py.mul (Py.mul suit 4) num_decks.

(** Number of cards of a rank in a list of cards. *)
Definition cnt (cards : list Z) (rank : Z) : nat :=
  count_occ Z.eq_dec cards rank.

(** The Halves weight of a rank, 0 outside the table. *)
Definition weight (rank : Z) : Q :=
  match halves rank with
  | Ok h => h
  | _ => 0%Q
  end.

Definition ranks : list Z := [1; 2; 3; 4; 5; 6; 7; 8; 9; 10].

(** Sum over all ranks of (count of the rank in the shoe) x (its weight). *)
Definition shoe_weight (deck : list Z) : Q :=
  fold_right
    (fun rank acc =>
       (inject_Z (Z.of_nat (cnt deck rank)) * weight rank
        + acc)%Q)
    0%Q ranks.

(** [fits_shoe cards n]: the cards can all come out of one shoe of [n]
    decks, no rank being asked for more often than the shoe holds it. *)
Definition fits_shoe (cards : list Z) (num_decks : Z) : bool :=
  forallb (fun c => (cnt cards c <=? cnt (fresh_deck num_decks) c)%nat) cards.

(** Sum of the Halves weights of the cards of a hand. *)
Definition hand_weight (hand : list Z) : Q :=
  fold_right (fun card acc => (weight card + acc)%Q) 0%Q hand.

(** Weight of the last card of a hand, 0 for the empty hand. *)
Definition last_weight (hand : list Z) : Q :=
  match Py.last_item hand with
  | Ok card => weight card
  | _ => 0%Q
  end.

(** ** The random sources

    [np.random] is the generator of the numpy module, shared by the whole
    process; [seeding.np_random(seed)] makes a generator of the instance's
    own.  [rs_randint g low high] is what [randint(low, high)] returns in
    generator state [g] when [low < high], with the state it leaves. *)
Class RandomState (G : Type) : Type := {
  rs_randint : G -> Z -> Z -> Z * G;
  rs_of_seed : Z -> G
}.

(** [randint(low, high)] draws from [low <= x < high]. *)
Class RandomStateInRange (G : Type) `{RandomState G} : Prop :=
  rs_randint_range :
    forall g low high, low < high ->
      low <= fst (rs_randint g low high) < high.

(** A generator that replays a list of raw numbers, reduced into the range
    asked for; the exhausted list yields [low]. *)
#[export] Instance replay_RandomState : RandomState (list Z) := {
  rs_randint g low high := (low + (hd 0 g) mod (high - low), tl g);
  rs_of_seed s := [s]
}.


(** [spaces.Discrete(n).contains(x)] for an int [x] (gym is an external
    library): [0 <= x < n]. *)
Definition discrete_contains (n x : Z) : bool := (0 <=? x) && (x <? n).

(** ** The single-hand environment *)

Module Single.
Section WithRandomState.

Context {G : Type} `{RandomState G}.

(** Attributes of [self].  [np_random] is the instance's own generator,
    made by [seed]. *)
Record Env : Type := {
  natural : bool;
  num_decks : Z;
  shuffle_on : Z;
  deck : list Z;
  count : Q;
  done : bool;
  player : list Z;
  dealer : list Z;
  np_random : G
}.

Definition with_deck (d : list Z) (e : Env) : Env :=
  {| natural := natural e; num_decks := num_decks e;
     shuffle_on := shuffle_on e; deck := d; count := count e;
     done := done e; player := player e; dealer := dealer e;
     np_random := np_random e |}.

Definition with_count (c : Q) (e : Env) : Env :=
  {| natural := natural e; num_decks := num_decks e;
     shuffle_on := shuffle_on e; deck := deck e; count := c;
     done := done e; player := player e; dealer := dealer e;
     np_random := np_random e |}.

Definition with_done (b : bool) (e : Env) : Env :=
  {| natural := natural e; num_decks := num_decks e;
     shuffle_on := shuffle_on e; deck := deck e; count := count e;
     done := b; player := player e; dealer := dealer e;
     np_random := np_random e |}.

Definition with_player (h : list Z) (e : Env) : Env :=
  {| natural := natural e; num_decks := num_decks e;
     shuffle_on := shuffle_on e; deck := deck e; count := count e;
     done := done e; player := h; dealer := dealer e;
     np_random := np_random e |}.

Definition with_dealer (h : list Z) (e : Env) : Env :=
  {| natural := natural e; num_decks := num_decks e;
     shuffle_on := shuffle_on e; deck := deck e; count := count e;
     done := done e; player := player e; dealer := h;
     np_random := np_random e |}.

Definition with_np_random (r : G) (e : Env) : Env :=
  {| natural := natural e; num_decks := num_decks e;
     shuffle_on := shuffle_on e; deck := deck e; count := count e;
     done := done e; player := player e; dealer := dealer e;
     np_random := r |}.

(** The state a method runs in: the generator of [np.random] and [self]. *)
Definition World : Type := (G * Env)%type.

Definition get_self : M World Env := fun w => (Ok (snd w), w).

Definition modify_self (f : Env -> Env) : M World unit :=
  fun w => (Ok tt, (fst w, f (snd w))).

(** [np.random.randint(low, high)] *)
Definition np_random_randint (low high : Z) : M World Z :=
  fun w =>
    if low <? high then
      let r := rs_randint (fst w) low high in (Ok (fst r), (snd r, snd w))
    else (Raise ValueError, w).

(** [self.count += self.halves[card]] *)
Definition count_card (card : Z) : M World unit :=
  h <- lift (halves card) ;;
  modify_self (fun self => with_count (count self + h)%Q self).

(** [self.deck.pop(i)] *)
Definition deck_pop (i : Z) : M World Z :=
  self <- get_self ;;
  r <- lift (Py.pop i (deck self)) ;;
  modify_self (with_deck (snd r)) ;;
  ret (fst r).

(** [self.deck.pop(self.deck.index(card))] *)
Definition remove_card (card : Z) : M World unit :=
  self <- get_self ;;
  i <- lift (Py.index card (deck self)) ;;
  deck_pop (Z.of_nat i) ;;
  ret tt.

(** [self.count += self.halves[self.dealer[i]]] *)
Definition count_dealer_item (i : nat) : M World unit :=
  self <- get_self ;;
  card <- lift (Py.item i (dealer self)) ;;
  count_card card.

Definition reset_deck : M World unit :=
  modify_self (fun self => with_deck (fresh_deck (num_decks self)) self).

(** The body of [if len(self.deck) < self.shuffle_on:] in [draw_card]. *)
Definition reshuffle : M World unit :=
  reset_deck ;;
  modify_self (with_count 0%Q) ;;
  self <- get_self ;;
  for_each (player self) (fun card => remove_card card ;; count_card card) ;;
  self <- get_self ;;
  for_each (dealer self) remove_card ;;
  self <- get_self ;;
  for_each (Py.but_last (dealer self)) count_card ;;
  self <- get_self ;;
  if done self then
    self <- get_self ;;
    card <- lift (Py.last_item (dealer self)) ;;
    count_card card
  else ret tt.

(** The weighted content of the shoe plus the running counter. *)
Definition books (self : Env) : Q :=
  (shoe_weight (deck self) + count self)%Q.

(** The cards of the hands and of the shoe together fit one shoe. *)
Definition consistent (self : Env) : bool :=
  fits_shoe (player self ++ dealer self ++ deck self) (num_decks self).

(** [draw_card(self, np_random)]: the argument is not used, the index is
    drawn from [np.random]. *)
Definition draw_card (np_random : G) : M World Z :=
  self <- get_self ;;
  (if Py.len (deck self) <? shuffle_on self then reshuffle else ret tt) ;;
  self <- get_self ;;
  i <- np_random_randint 0 (Py.len (deck self)) ;;
  deck_pop i.

(** [[self.draw_card(np_random), self.draw_card(np.random)]] *)
Definition draw_hand (np_random : G) : M World (list Z) :=
  c1 <- draw_card np_random ;;
  c2 <- (fun w => draw_card (fst w) w) ;;
  ret [c1; c2].

(** [seed(self, seed)] with an int seed *)
Definition seed (s : Z) : M World (list Z) :=
  modify_self (with_np_random (rs_of_seed s)) ;;
  ret [s].

(** One [draw_card] of the play, counted and appended to the hand. *)
Definition hit_player : M World unit :=
  self <- get_self ;;
  player_card <- draw_card (np_random self) ;;
  count_card player_card ;;
  modify_self (fun self => with_player (player self ++ [player_card]) self).

(** [while sum_hand(self.dealer) < 17: ...] *)
Fixpoint dealer_play (fuel : nat) : M World unit :=
  self <- get_self ;;
  if sum_hand (dealer self) <? 17 then
    match fuel with
    | O => diverge
    | S fuel' =>
        dealer_card <- draw_card (np_random self) ;;
        count_card dealer_card ;;
        modify_self
          (fun self => with_dealer (dealer self ++ [dealer_card]) self) ;;
        dealer_play fuel'
    end
  else ret tt.

Definition Obs : Type := (Z * Z * bool * Q)%type.

Definition _get_obs : M World Obs :=
  self <- get_self ;;
  shown <- lift (Py.item 0 (dealer self)) ;;
  let decks_left := Py.ceil_div52 (Py.len (deck self)) in
  if decks_left =? 0 then raise ZeroDivisionError
  else ret (sum_hand (player self), shown, usable_ace (player self),
            (count self / inject_Z decks_left)%Q).

(** [step(self, action)]; the value returned is
    [(observation, reward, done)]. *)
Definition step (fuel : nat) (action : Z) : M World (Obs * Q * bool) :=
  if negb (discrete_contains 3 action) then raise AssertionError
  else
    reward <-
      (if action =? 1 then
         hit_player ;;
         self <- get_self ;;
         if is_bust (player self) then
           modify_self (with_done true) ;;
           count_dealer_item 1 ;;
           ret (-1)%Q
         else
           modify_self (with_done false) ;;
           ret 0%Q
       else if action =? 0 then
         modify_self (with_done true) ;;
         count_dealer_item 1 ;;
         dealer_play fuel ;;
         self <- get_self ;;
         let reward := cmp (score (player self)) (score (dealer self)) in
         if natural self && is_natural (player self) && Qeq_bool reward 1
         then ret (3 # 2)%Q
         else ret reward
       else
         hit_player ;;
         count_dealer_item 1 ;;
         modify_self (with_done true) ;;
         self <- get_self ;;
         if is_bust (player self) then
           count_dealer_item 1 ;;
           ret (-2)%Q
         else
           dealer_play fuel ;;
           self <- get_self ;;
           ret (2 * cmp (score (player self)) (score (dealer self)))%Q) ;;
    obs <- _get_obs ;;
    self <- get_self ;;
    ret (obs, reward, done self).

Definition reset : M World Obs :=
  modify_self (with_done false) ;;
  self <- get_self ;;
  (if Py.len (deck self) <? shuffle_on self then
     reset_deck ;; modify_self (with_count 0%Q)
   else ret tt) ;;
  self <- get_self ;;
  hand <- draw_hand (np_random self) ;;
  modify_self (with_dealer hand) ;;
  count_dealer_item 0 ;;
  self <- get_self ;;
  hand <- draw_hand (np_random self) ;;
  modify_self (with_player hand) ;;
  self <- get_self ;;
  c0 <- lift (Py.item 0 (player self)) ;;
  count_card c0 ;;
  self <- get_self ;;
  c1 <- lift (Py.item 1 (player self)) ;;
  count_card c1 ;;
  _get_obs.

(** [__init__(num_decks, shuffle_on, natural)]; [rng] is the generator
    that [self.seed()] makes from the system's entropy.  The hands are
    not set before the first [reset]: they are empty here. *)
Definition init (num_decks shuffle_on : Z) (natural : bool) (rng : G) : Env :=
  {| natural := natural; num_decks := num_decks; shuffle_on := shuffle_on;
     deck := fresh_deck num_decks; count := 0%Q; done := false;
     player := []; dealer := []; np_random := rng |}.

(** A driver: [step] for each action in turn, until one raises. *)
Fixpoint run (fuel : nat) (actions : list Z)
  : M World (list (Obs * Q * bool)) :=
  match actions with
  | [] => ret []
  | a :: rest =>
      r <- step fuel a ;;
      rs <- run fuel rest ;;
      ret (r :: rs)
  end.

(** A driver for several rounds: [reset], then the actions of the round. *)
Fixpoint play (fuel : nat) (rounds : list (list Z)) : M World unit :=
  match rounds with
  | [] => ret tt
  | actions :: rest =>
      reset ;; run fuel actions ;; play fuel rest
  end.

End WithRandomState.
Arguments Env G : clear implicits.
Arguments World G : clear implicits.
End Single.

(** ** The environment with a split *)

Module Split.
Section WithRandomState.

Context {G : Type} `{RandomState G}.

(** Attributes of [self]; [action_space_n] is [self.action_space.n]. *)
Record Env : Type := {
  natural : bool;
  num_decks : Z;
  shuffle_on : Z;
  deck : list Z;
  count : Q;
  player_left : list Z;
  done_left : bool;
  reward_left : Q;
  player_right : list Z;
  done_right : bool;
  reward_right : Q;
  dealer : list Z;
  split_possible : bool;
  action_space_n : Z;
  np_random : G
}.

Definition with_deck (x : list Z) (e : Env) : Env :=
  {| natural := natural e; num_decks := num_decks e;
     shuffle_on := shuffle_on e; deck := x; count := count e;
     player_left := player_left e; done_left := done_left e;
     reward_left := reward_left e; player_right := player_right e;
     done_right := done_right e; reward_right := reward_right e;
     dealer := dealer e; split_possible := split_possible e;
     action_space_n := action_space_n e; np_random := np_random e |}.

Definition with_count (x : Q) (e : Env) : Env :=
  {| natural := natural e; num_decks := num_decks e;
     shuffle_on := shuffle_on e; deck := deck e; count := x;
     player_left := player_left e; done_left := done_left e;
     reward_left := reward_left e; player_right := player_right e;
     done_right := done_right e; reward_right := reward_right e;
     dealer := dealer e; split_possible := split_possible e;
     action_space_n := action_space_n e; np_random := np_random e |}.

Definition with_player_left (x : list Z) (e : Env) : Env :=
  {| natural := natural e; num_decks := num_decks e;
     shuffle_on := shuffle_on e; deck := deck e; count := count e;
     player_left := x; done_left := done_left e;
     reward_left := reward_left e; player_right := player_right e;
     done_right := done_right e; reward_right := reward_right e;
     dealer := dealer e; split_possible := split_possible e;
     action_space_n := action_space_n e; np_random := np_random e |}.

Definition with_done_left (x : bool) (e : Env) : Env :=
  {| natural := natural e; num_decks := num_decks e;
     shuffle_on := shuffle_on e; deck := deck e; count := count e;
     player_left := player_left e; done_left := x;
     reward_left := reward_left e; player_right := player_right e;
     done_right := done_right e; reward_right := reward_right e;
     dealer := dealer e; split_possible := split_possible e;
     action_space_n := action_space_n e; np_random := np_random e |}.

Definition with_reward_left (x : Q) (e : Env) : Env :=
  {| natural := natural e; num_decks := num_decks e;
     shuffle_on := shuffle_on e; deck := deck e; count := count e;
     player_left := player_left e; done_left := done_left e;
     reward_left := x; player_right := player_right e;
     done_right := done_right e; reward_right := reward_right e;
     dealer := dealer e; split_possible := split_possible e;
     action_space_n := action_space_n e; np_random := np_random e |}.

Definition with_player_right (x : list Z) (e : Env) : Env :=
  {| natural := natural e; num_decks := num_decks e;
     shuffle_on := shuffle_on e; deck := deck e; count := count e;
     player_left := player_left e; done_left := done_left e;
     reward_left := reward_left e; player_right := x;
     done_right := done_right e; reward_right := reward_right e;
     dealer := dealer e; split_possible := split_possible e;
     action_space_n := action_space_n e; np_random := np_random e |}.

Definition with_done_right (x : bool) (e : Env) : Env :=
  {| natural := natural e; num_decks := num_decks e;
     shuffle_on := shuffle_on e; deck := deck e; count := count e;
     player_left := player_left e; done_left := done_left e;
     reward_left := reward_left e; player_right := player_right e;
     done_right := x; reward_right := reward_right e; dealer := dealer e;
     split_possible := split_possible e;
     action_space_n := action_space_n e; np_random := np_random e |}.

Definition with_reward_right (x : Q) (e : Env) : Env :=
  {| natural := natural e; num_decks := num_decks e;
     shuffle_on := shuffle_on e; deck := deck e; count := count e;
     player_left := player_left e; done_left := done_left e;
     reward_left := reward_left e; player_right := player_right e;
     done_right := done_right e; reward_right := x; dealer := dealer e;
     split_possible := split_possible e;
     action_space_n := action_space_n e; np_random := np_random e |}.

Definition with_dealer (x : list Z) (e : Env) : Env :=
  {| natural := natural e; num_decks := num_decks e;
     shuffle_on := shuffle_on e; deck := deck e; count := count e;
     player_left := player_left e; done_left := done_left e;
     reward_left := reward_left e; player_right := player_right e;
     done_right := done_right e; reward_right := reward_right e;
     dealer := x; split_possible := split_possible e;
     action_space_n := action_space_n e; np_random := np_random e |}.

Definition with_split_possible (x : bool) (e : Env) : Env :=
  {| natural := natural e; num_decks := num_decks e;
     shuffle_on := shuffle_on e; deck := deck e; count := count e;
     player_left := player_left e; done_left := done_left e;
     reward_left := reward_left e; player_right := player_right e;
     done_right := done_right e; reward_right := reward_right e;
     dealer := dealer e; split_possible := x;
     action_space_n := action_space_n e; np_random := np_random e |}.

Definition with_action_space_n (x : Z) (e : Env) : Env :=
  {| natural := natural e; num_decks := num_decks e;
     shuffle_on := shuffle_on e; deck := deck e; count := count e;
     player_left := player_left e; done_left := done_left e;
     reward_left := reward_left e; player_right := player_right e;
     done_right := done_right e; reward_right := reward_right e;
     dealer := dealer e; split_possible := split_possible e;
     action_space_n := x; np_random := np_random e |}.

Definition with_np_random (x : G) (e : Env) : Env :=
  {| natural := natural e; num_decks := num_decks e;
     shuffle_on := shuffle_on e; deck := deck e; count := count e;
     player_left := player_left e; done_left := done_left e;
     reward_left := reward_left e; player_right := player_right e;
     done_right := done_right e; reward_right := reward_right e;
     dealer := dealer e; split_possible := split_possible e;
     action_space_n := action_space_n e; np_random := x |}.
Definition World : Type := (G * Env)%type.

Definition get_self : M World Env := fun w => (Ok (snd w), w).

Definition modify_self (f : Env -> Env) : M World unit :=
  fun w => (Ok tt, (fst w, f (snd w))).

(** [np.random.randint(low, high)] *)
Definition np_random_randint (low high : Z) : M World Z :=
  fun w =>
    if low <? high then
      let r := rs_randint (fst w) low high in (Ok (fst r), (snd r, snd w))
    else (Raise ValueError, w).

(** [self.count += self.halves[card]] *)
Definition count_card (card : Z) : M World unit :=
  h <- lift (halves card) ;;
  modify_self (fun self => with_count (count self + h)%Q self).

(** [self.deck.pop(i)] *)
Definition deck_pop (i : Z) : M World Z :=
  self <- get_self ;;
  r <- lift (Py.pop i (deck self)) ;;
  modify_self (with_deck (snd r)) ;;
  ret (fst r).

(** [self.deck.pop(self.deck.index(card))] *)
Definition remove_card (card : Z) : M World unit :=
  self <- get_self ;;
  i <- lift (Py.index card (deck self)) ;;
  deck_pop (Z.of_nat i) ;;
  ret tt.

(** [self.count += self.halves[self.dealer[i]]] *)
Definition count_dealer_item (i : nat) : M World unit :=
  self <- get_self ;;
  card <- lift (Py.item i (dealer self)) ;;
  count_card card.

Definition reset_deck : M World unit :=
  modify_self (fun self => with_deck (fresh_deck (num_decks self)) self).

(** The body of [if len(self.deck) < self.shuffle_on:] in [draw_card]. *)
Definition reshuffle : M World unit :=
  reset_deck ;;
  modify_self (with_count 0%Q) ;;
  self <- get_self ;;
  for_each (player_left self)
    (fun card => remove_card card ;; count_card card) ;;
  self <- get_self ;;
  for_each (player_right self)
    (fun card => remove_card card ;; count_card card) ;;
  self <- get_self ;;
  for_each (dealer self) remove_card ;;
  self <- get_self ;;
  for_each (Py.but_last (dealer self)) count_card ;;
  self <- get_self ;;
  if done_left self && done_right self then
    self <- get_self ;;
    card <- lift (Py.last_item (dealer self)) ;;
    count_card card
  else ret tt.

(** The weighted content of the shoe plus the running counter. *)
Definition books (self : Env) : Q :=
  (shoe_weight (deck self) + count self)%Q.

(** The cards of the hands and of the shoe together fit one shoe. *)
Definition consistent (self : Env) : bool :=
  fits_shoe
    (player_left self ++ player_right self ++ dealer self ++ deck self)
    (num_decks self).

(** [draw_card(self, np_random)]: the argument is not used, the index is
    drawn from [np.random]. *)
Definition draw_card (np_random : G) : M World Z :=
  self <- get_self ;;
  (if Py.len (deck self) <? shuffle_on self then reshuffle else ret tt) ;;
  self <- get_self ;;
  i <- np_random_randint 0 (Py.len (deck self)) ;;
  deck_pop i.

(** [[self.draw_card(np_random), self.draw_card(np.random)]] *)
Definition draw_hand (np_random : G) : M World (list Z) :=
  c1 <- draw_card np_random ;;
  c2 <- (fun w => draw_card (fst w) w) ;;
  ret [c1; c2].

(** [seed(self, seed)] with an int seed *)
Definition seed (s : Z) : M World (list Z) :=
  modify_self (with_np_random (rs_of_seed s)) ;;
  ret [s].

(** One [draw_card] of the play, counted and appended to the left hand. *)
Definition hit_left : M World unit :=
  self <- get_self ;;
  player_card <- draw_card (np_random self) ;;
  count_card player_card ;;
  modify_self
    (fun self => with_player_left (player_left self ++ [player_card]) self).

(** The same for the right hand. *)
Definition hit_right : M World unit :=
  self <- get_self ;;
  player_card <- draw_card (np_random self) ;;
  count_card player_card ;;
  modify_self
    (fun self => with_player_right (player_right self ++ [player_card]) self).

(** [while sum_hand(self.dealer) < 17: ...] *)
Fixpoint dealer_play (fuel : nat) : M World unit :=
  self <- get_self ;;
  if sum_hand (dealer self) <? 17 then
    match fuel with
    | O => diverge
    | S fuel' =>
        dealer_card <- draw_card (np_random self) ;;
        count_card dealer_card ;;
        modify_self
          (fun self => with_dealer (dealer self ++ [dealer_card]) self) ;;
        dealer_play fuel'
    end
  else ret tt.

(** [self.reward_left = cmp(score(self.player_left), score(self.dealer))]
    and the same for the right hand. *)
Definition settle_left : M World unit :=
  modify_self (fun self =>
    with_reward_left
      (cmp (score (player_left self)) (score (dealer self))) self).

Definition settle_right : M World unit :=
  modify_self (fun self =>
    with_reward_right
      (cmp (score (player_right self)) (score (dealer self))) self).

(** [self.reward_left = 2 * cmp(score(self.player_left), score(self.dealer))]
    and the same for the right hand. *)
Definition settle_left_doubled : M World unit :=
  modify_self (fun self =>
    with_reward_left
      (2 * cmp (score (player_left self)) (score (dealer self)))%Q self).

Definition settle_right_doubled : M World unit :=
  modify_self (fun self =>
    with_reward_right
      (2 * cmp (score (player_right self)) (score (dealer self)))%Q self).

(** [if self.natural and is_natural(hand) and reward == 1.: reward = 1.5],
    for the left and for the right hand. *)
Definition natural_bonus_left : M World unit :=
  self <- get_self ;;
  if natural self && is_natural (player_left self)
     && Qeq_bool (reward_left self) 1
  then modify_self (with_reward_left (3 # 2)%Q)
  else ret tt.

Definition natural_bonus_right : M World unit :=
  self <- get_self ;;
  if natural self && is_natural (player_right self)
     && Qeq_bool (reward_right self) 1
  then modify_self (with_reward_right (3 # 2)%Q)
  else ret tt.

Definition Obs : Type := (Z * bool * Z * bool * Z * bool * Q)%type.

Definition _get_obs : M World Obs :=
  self <- get_self ;;
  shown <- lift (Py.item 0 (dealer self)) ;;
  let decks_left := Py.ceil_div52 (Py.len (deck self)) in
  if decks_left =? 0 then raise ZeroDivisionError
  else ret (sum_hand (player_left self), usable_ace (player_left self),
            sum_hand (player_right self), usable_ace (player_right self),
            shown, split_possible self,
            (count self / inject_Z decks_left)%Q).

(** The branch [action == 1]. *)
Definition step_hit (fuel : nat) : M World unit :=
  self <- get_self ;;
  if negb (done_left self) then
    hit_left ;;
    self <- get_self ;;
    if is_bust (player_left self) then
      modify_self (with_done_left true) ;;
      modify_self (with_reward_left (-1)%Q) ;;
      self <- get_self ;;
      if done_right self then count_dealer_item 1 else ret tt
    else
      modify_self (with_done_left false) ;;
      modify_self (with_reward_left 0%Q)
  else if negb (done_right self) then
    hit_right ;;
    self <- get_self ;;
    if is_bust (player_right self) then
      modify_self (with_done_right true) ;;
      modify_self (with_reward_right (-1)%Q) ;;
      count_dealer_item 1 ;;
      self <- get_self ;;
      if Py.Qltb (reward_left self) (-1 # 100000)%Q then
        dealer_play fuel ;;
        settle_left
      else ret tt
    else
      modify_self (with_done_right false) ;;
      modify_self (with_reward_right 0%Q)
  else ret tt.

(** The branch [action == 0]. *)
Definition step_stand (fuel : nat) : M World unit :=
  self <- get_self ;;
  if negb (done_left self) then
    modify_self (with_done_left true) ;;
    self <- get_self ;;
    if done_right self then
      count_dealer_item 1 ;;
      dealer_play fuel ;;
      settle_left ;;
      natural_bonus_left
    else ret tt
  else if negb (done_right self) then
    modify_self (with_done_right true) ;;
    count_dealer_item 1 ;;
    dealer_play fuel ;;
    settle_left ;;
    natural_bonus_left ;;
    settle_right ;;
    natural_bonus_right
  else ret tt.

(** The branch [action == 2]. *)
Definition step_double (fuel : nat) : M World unit :=
  self <- get_self ;;
  if negb (done_left self) then
    hit_left ;;
    modify_self (with_done_left true) ;;
    self <- get_self ;;
    (if is_bust (player_left self)
     then modify_self (with_reward_left (-2)%Q) else ret tt) ;;
    self <- get_self ;;
    if done_right self then
      count_dealer_item 1 ;;
      dealer_play fuel ;;
      settle_left_doubled
    else ret tt
  else if negb (done_right self) then
    hit_right ;;
    modify_self (with_done_right true) ;;
    self <- get_self ;;
    (if is_bust (player_right self)
     then modify_self (with_reward_right (-2)%Q) else ret tt) ;;
    count_dealer_item 1 ;;
    dealer_play fuel ;;
    settle_left_doubled ;;
    settle_right_doubled
  else ret tt.

(** The branch [action == 3]. *)
Definition step_split : M World unit :=
  self <- get_self ;;
  r <- lift (Py.pop 1 (player_left self)) ;;
  modify_self (with_player_left (snd r)) ;;
  modify_self
    (fun self => with_player_right (player_right self ++ [fst r]) self) ;;
  hit_left ;;
  hit_right ;;
  modify_self (with_action_space_n 3) ;;
  modify_self (with_split_possible false) ;;
  modify_self (with_done_right false).

(** [step(self, action)]; the value returned is
    [(observation, reward_left + reward_right, done_left & done_right)]. *)
Definition step (fuel : nat) (action : Z) : M World (Obs * Q * bool) :=
  self <- get_self ;;
  if negb (discrete_contains (action_space_n self) action)
  then raise AssertionError
  else
    (if action =? 1 then step_hit fuel
     else if action =? 0 then step_stand fuel
     else if action =? 2 then step_double fuel
     else if action =? 3 then step_split
     else ret tt) ;;
    obs <- _get_obs ;;
    self <- get_self ;;
    ret (obs, (reward_left self + reward_right self)%Q,
         done_left self && done_right self).

Definition reset : M World Obs :=
  self <- get_self ;;
  (if Py.len (deck self) <? shuffle_on self then
     reset_deck ;; modify_self (with_count 0%Q)
   else ret tt) ;;
  self <- get_self ;;
  hand <- draw_hand (np_random self) ;;
  modify_self (with_dealer hand) ;;
  count_dealer_item 0 ;;
  self <- get_self ;;
  hand <- draw_hand (np_random self) ;;
  modify_self (with_player_left hand) ;;
  modify_self (with_player_right []) ;;
  self <- get_self ;;
  c0 <- lift (Py.item 0 (player_left self)) ;;
  count_card c0 ;;
  self <- get_self ;;
  c1 <- lift (Py.item 1 (player_left self)) ;;
  count_card c1 ;;
  modify_self (with_done_left false) ;;
  modify_self (with_done_right true) ;;
  modify_self (with_reward_left 0%Q) ;;
  modify_self (with_reward_right 0%Q) ;;
  self <- get_self ;;
  c0 <- lift (Py.item 0 (player_left self)) ;;
  c1 <- lift (Py.item 1 (player_left self)) ;;
  (if c0 =? c1 then
     modify_self (with_action_space_n 4) ;;
     modify_self (with_split_possible true)
   else
     modify_self (with_action_space_n 3) ;;
     modify_self (with_split_possible false)) ;;
  _get_obs.

(** [__init__(num_decks, shuffle_on, natural)]; [rng] is the generator
    that [self.seed()] makes from the system's entropy.  The hands are
    [None] before the first [reset]: they are empty here. *)
Definition init (num_decks shuffle_on : Z) (natural : bool) (rng : G) : Env :=
  {| natural := natural; num_decks := num_decks; shuffle_on := shuffle_on;
     deck := fresh_deck num_decks; count := 0%Q;
     player_left := []; done_left := false; reward_left := 0%Q;
     player_right := []; done_right := true; reward_right := 0%Q;
     dealer := []; split_possible := false; action_space_n := 4;
     np_random := rng |}.

(** A driver: [step] for each action in turn, until one raises. *)
Fixpoint run (fuel : nat) (actions : list Z)
  : M World (list (Obs * Q * bool)) :=
  match actions with
  | [] => ret []
  | a :: rest =>
      r <- step fuel a ;;
      rs <- run fuel rest ;;
      ret (r :: rs)
  end.

(** A driver for several rounds: [reset], then the actions of the round. *)
Fixpoint play (fuel : nat) (rounds : list (list Z)) : M World unit :=
  match rounds with
  | [] => ret tt
  | actions :: rest =>
      reset ;; run fuel actions ;; play fuel rest
  end.

End WithRandomState.
Arguments Env G : clear implicits.
Arguments World G : clear implicits.
End Split.

(** ** What only [__init__] and [seed] assign

    The configuration of an environment and its seeded generator. *)
Definition single_config {G} (self : Single.Env G) : bool * Z * Z * G :=
  (Single.natural self, Single.num_decks self, Single.shuffle_on self,
   Single.np_random self).

Definition split_config {G} (self : Split.Env G) : bool * Z * Z * G :=
  (Split.natural self, Split.num_decks self, Split.shuffle_on self,
   Split.np_random self).

(** ** The split environment seen as the single-hand one

    The left hand and its flag stand for the player's hand and [done]; the
    right hand, the rewards and the SPLIT flags are dropped. *)
Definition single_of_split {G} (self : Split.Env G) : Single.Env G :=
  {| Single.natural := Split.natural self;
     Single.num_decks := Split.num_decks self;
     Single.shuffle_on := Split.shuffle_on self;
     Single.deck := Split.deck self;
     Single.count := Split.count self;
     Single.done := Split.done_left self;
     Single.player := Split.player_left self;
     Single.dealer := Split.dealer self;
     Single.np_random := Split.np_random self |}.

Definition single_obs_of_split (obs : Split.Obs) : Single.Obs :=
  let '(total, usable, _, _, shown, _, true_count) := obs in
  (total, shown, usable, true_count).

(** ** A frame predicate for methods

    [preserves f c]: whatever [c] does, also when it raises, the part [f]
    of the state is the same afterwards. *)
Definition preserves {S A X : Type} (f : S -> X) (c : M S A) : Prop :=
  forall s, f (snd (c s)) = f s.

(** ** Triples for methods

    [hoare P c Q]: from a state in [P], when [c] returns a value normally,
    the value and the state reached are in [Q].  [total P c Q]: from a state
    in [P], [c] does return normally, and in [Q]. *)
Definition hoare {S A : Type}
    (P : S -> Prop) (c : M S A) (Q : A -> S -> Prop) : Prop :=
  forall s a s', P s -> c s = (Ok a, s') -> Q a s'.

Definition total {S A : Type}
    (P : S -> Prop) (c : M S A) (Q : A -> S -> Prop) : Prop :=
  forall s, P s -> exists a s', c s = (Ok a, s') /\ Q a s'.

(** [terminates c]: [c] never runs out of fuel; it returns or raises. *)
Definition terminates {S A : Type} (c : M S A) : Prop :=
  forall s, fst (c s) <> OutOfFuel.

(** ** Concrete worlds

    The generator below is the replaying one: the list gives the raw numbers
    of the successive [np.random.randint] calls. *)

Module Examples.

(** Fuel that is enough for every play-out of the dealer. *)
Definition fuel : nat := 17%nat.

Definition single_new : Single.Env (list Z) := Single.init 6 15 false [].
Definition split_new : Split.Env (list Z) := Split.init 6 15 false [].

(** After [reset]: dealer [1, 2], player [3, 4]. *)
Definition single_dealt : Single.World (list Z) :=
  Eval vm_compute in snd (Single.reset ([], single_new)).

(** After [reset]: dealer [9, 5], player [10, 6]; the next draw is a 10. *)
Definition single_sixteen : Single.World (list Z) :=
  Eval vm_compute in snd (Single.reset ([8; 4; 7; 4; 6], single_new)).

(** After [reset]: dealer [1, 2], left hand [8, 8]. *)
Definition split_pair : Split.World (list Z) :=
  Eval vm_compute in snd (Split.reset ([0; 0; 5; 17; 0], split_new)).

(** After [reset] (dealer [10, 6], left hand [8, 8]), SPLIT (left [8, 10],
    right [8, 10]) and STAND on the left hand: the left hand is done with
    18, the right hand is to act; the next draw is a 10. *)
Definition split_left_stood : Split.World (list Z) :=
  Eval vm_compute in
    snd ((Split.reset ;; Split.run fuel [3; 0])
           ([9; 5; 6; 17; 7; 7; 7], split_new)).

(** The same deal and SPLIT, then HIT on the left hand, which busts with
    [8, 10, 10]; the next two draws are 10s. *)
Definition split_left_bust : Split.World (list Z) :=
  Eval vm_compute in
    snd ((Split.reset ;; Split.run fuel [3; 1])
           ([9; 5; 6; 17; 7; 7; 7; 15; 15], split_new)).

(** [split_left_stood] after a HIT that busts the right hand: both hands
    are done. *)
Definition split_finished : Split.World (list Z) :=
  Eval vm_compute in snd (Split.step fuel 1 split_left_stood).

(** Two instances seeded alike, in one process whose [np.random] will
    return these raw numbers. *)
Definition shared_np_random : list Z := [0; 1; 2; 3; 4; 5; 6; 7].
Definition single_a : Single.Env (list Z) := Single.init 6 15 false [11].
Definition single_b : Single.Env (list Z) := Single.init 6 15 false [22].
Definition split_a : Split.Env (list Z) := Split.init 6 15 false [11].
Definition split_b : Split.Env (list Z) := Split.init 6 15 false [22].

(** Six rounds on a one-deck shoe with the default threshold 15, every
    draw taking the first card of the shoe: 37 cards are drawn and 15 are
    left.  The draw after them takes the card at index 3. *)
Definition six_rounds : list (list Z) :=
  [[1; 0]; [0]; [1; 1; 1; 1; 0]; [0]; [1; 1; 1; 1; 0]; [0]].

Definition six_rounds_np_random : list Z := repeat 0 37 ++ [3].

Definition single_fifteen_left : Single.World (list Z) :=
  Eval vm_compute in
    snd (Single.play fuel six_rounds
           (six_rounds_np_random, Single.init 1 15 false [])).

Definition split_fifteen_left : Split.World (list Z) :=
  Eval vm_compute in
    snd (Split.play fuel six_rounds
           (six_rounds_np_random, Split.init 1 15 false [])).

(** The state in which the next [reset] enters [draw_card] for the second
    time: [reset] has drawn the dealer's first card, which is held in a
    local list and in none of the hands. *)
Definition single_second_draw : Single.World (list Z) :=
  Eval vm_compute in
    snd ((Single.modify_self (Single.with_done false) ;;
          Single.draw_card [])
           single_fifteen_left).

Definition split_second_draw : Split.World (list Z) :=
  Eval vm_compute in snd (Split.draw_card [] split_fifteen_left).

(** [split_pair] after SPLIT: left [8, 3], right [8, 4], both hands open. *)
Definition split_both_open : Split.World (list Z) :=
  Eval vm_compute in snd (Split.step fuel 3 split_pair).

(** Environments built for no deck at all, never to reshuffle: the shoe is
    empty. *)
Definition single_empty : Single.Env (list Z) := Single.init 0 0 false [].
Definition split_empty : Split.Env (list Z) := Split.init 0 0 false [].

End Examples.

(** * Facts *)

(** The replaying generator draws in range. *)
#[export] Instance replay_in_range : RandomStateInRange (list Z).
Proof.
  intros g low high Hlt; cbn.
  pose proof (Z.mod_pos_bound (hd 0 g) (high - low)); lia.
Qed.

(** ** The monad *)

Lemma bind_Ok {S A B} (c : M S A) (k : A -> M S B) s a s' :
  c s = (Ok a, s') -> bind c k s = k a s'.
Proof. intros E; unfold bind; rewrite E; reflexivity. Qed.

Lemma bind_Raise {S A B} (c : M S A) (k : A -> M S B) s e s' :
  c s = (Raise e, s') -> bind c k s = (Raise e, s').
Proof. intros E; unfold bind; rewrite E; reflexivity. Qed.

Lemma bind_inv_Ok {S A B} (c : M S A) (k : A -> M S B) s b s2 :
  bind c k s = (Ok b, s2) ->
  exists a s1, c s = (Ok a, s1) /\ k a s1 = (Ok b, s2).
Proof.
  unfold bind; destruct (c s) as [[a | e |] s1]; intros E;
    try discriminate; eauto.
Qed.

Lemma preserves_ret {S A X} (f : S -> X) (a : A) : preserves f (ret a).
Proof. intros s; reflexivity. Qed.

Lemma preserves_raise {S A X} (f : S -> X) e : preserves f (@raise S A e).
Proof. intros s; reflexivity. Qed.

Lemma preserves_diverge {S A X} (f : S -> X) : preserves f (@diverge S A).
Proof. intros s; reflexivity. Qed.

Lemma preserves_lift {S A X} (f : S -> X) (o : Outcome A) :
  preserves f (lift o).
Proof. intros s; reflexivity. Qed.

Lemma preserves_bind {S A B X} (f : S -> X) (c : M S A) (k : A -> M S B) :
  preserves f c -> (forall a, preserves f (k a)) -> preserves f (bind c k).
Proof.
  intros Hc Hk s; unfold bind.
  specialize (Hc s); destruct (c s) as [[a | e |] s1]; cbn in *;
    try assumption.
  rewrite Hk; assumption.
Qed.

Lemma preserves_for_each {S A X} (f : S -> X) (l : list A) body :
  (forall a, preserves f (body a)) -> preserves f (for_each l body).
Proof.
  intros Hb; induction l as [| x l IH]; cbn [for_each].
  - apply preserves_ret.
  - apply preserves_bind; auto.
Qed.

Lemma preserves_if {S A X} (f : S -> X) (b : bool) (c1 c2 : M S A) :
  preserves f c1 -> preserves f c2 -> preserves f (if b then c1 else c2).
Proof. destruct b; auto. Qed.

Lemma hoare_bind {S A B} (P : S -> Prop) (c : M S A) (Q : A -> S -> Prop)
    (k : A -> M S B) (R : B -> S -> Prop) :
  hoare P c Q -> (forall a, hoare (Q a) (k a) R) -> hoare P (bind c k) R.
Proof.
  intros Hc Hk s b s2 HP E.
  apply bind_inv_Ok in E; destruct E as (a & s1 & E1 & E2).
  eapply Hk; [eapply Hc |]; eassumption.
Qed.

Lemma hoare_weaken {S A} (P P' : S -> Prop) (c : M S A)
    (Q Q' : A -> S -> Prop) :
  hoare P' c Q' -> (forall s, P s -> P' s) ->
  (forall a s, Q' a s -> Q a s) -> hoare P c Q.
Proof. intros Hc HP HQ s a s' Hs E; eapply HQ, Hc; eauto. Qed.

Lemma hoare_ret {S A} (P : S -> Prop) (a : A) :
  hoare P (ret a) (fun x s => x = a /\ P s).
Proof. intros s x s' HP E; inversion E; subst; auto. Qed.

Lemma hoare_lift {S A} (P : S -> Prop) (o : Outcome A) :
  hoare P (lift o) (fun x s => o = Ok x /\ P s).
Proof. intros s x s' HP E; inversion E; subst; auto. Qed.

Lemma hoare_preserves {S A X} (f : S -> X) (c : M S A) (x : X) :
  preserves f c -> hoare (fun s => f s = x) c (fun _ s => f s = x).
Proof.
  intros Hc s a s' Hs E; specialize (Hc s); rewrite E in Hc; cbn in Hc.
  congruence.
Qed.

Lemma hoare_last {S A B} (P : S -> Prop) (c : M S A) (k : A -> M S B)
    (R : B -> S -> Prop) :
  (forall a, hoare (fun _ => True) (k a) R) -> hoare P (bind c k) R.
Proof.
  intros Hk; eapply hoare_bind with (Q := fun _ _ => True); [| exact Hk].
  intros s a s' _ _; exact I.
Qed.

Lemma total_bind {S A B} (P : S -> Prop) (c : M S A) (Q : A -> S -> Prop)
    (k : A -> M S B) (R : B -> S -> Prop) :
  total P c Q -> (forall a, total (Q a) (k a) R) -> total P (bind c k) R.
Proof.
  intros Hc Hk s HP.
  destruct (Hc s HP) as (a & s1 & E1 & HQ).
  destruct (Hk a s1 HQ) as (b & s2 & E2 & HR).
  exists b, s2; split; [| assumption].
  rewrite (bind_Ok _ _ _ _ _ E1); assumption.
Qed.

Lemma total_weaken {S A} (P P' : S -> Prop) (c : M S A)
    (Q Q' : A -> S -> Prop) :
  total P' c Q' -> (forall s, P s -> P' s) ->
  (forall a s, Q' a s -> Q a s) -> total P c Q.
Proof.
  intros Hc HP HQ s Hs.
  destruct (Hc s (HP s Hs)) as (a & s' & E & Hq); eauto.
Qed.

Lemma total_ret {S A} (P : S -> Prop) (a : A) :
  total P (ret a) (fun x s => x = a /\ P s).
Proof. intros s HP; exists a, s; auto. Qed.

Lemma total_hoare {S A} (P : S -> Prop) (c : M S A) (Q : A -> S -> Prop) :
  total P c Q -> hoare P c Q.
Proof.
  intros Hc s a s' HP E.
  destruct (Hc s HP) as (a' & s'' & E' & HQ).
  rewrite E in E'; inversion E'; subst; assumption.
Qed.

Lemma bind_ends {S A B} (c : M S A) (k : A -> M S B) s :
  fst (c s) <> OutOfFuel ->
  (forall a s1, c s = (Ok a, s1) -> fst (k a s1) <> OutOfFuel) ->
  fst (bind c k s) <> OutOfFuel.
Proof.
  intros Hc Hk; unfold bind.
  destruct (c s) as [[a | e |] s1]; cbn in *.
  - apply Hk; reflexivity.
  - discriminate.
  - contradiction.
Qed.

Lemma preserves_eq {S A X} (f : S -> X) (c : M S A) s o s' :
  preserves f c -> c s = (o, s') -> f s' = f s.
Proof. intros Hc E; specialize (Hc s); rewrite E in Hc; exact Hc. Qed.

Lemma terminates_ret {S A} (a : A) : terminates (@ret S A a).
Proof. intros s; discriminate. Qed.

Lemma terminates_raise {S A} e : terminates (@raise S A e).
Proof. intros s; discriminate. Qed.

Lemma terminates_lift {S A} (o : Outcome A) :
  o <> OutOfFuel -> terminates (@lift S A o).
Proof. intros Ho s; exact Ho. Qed.

Lemma terminates_bind {S A B} (c : M S A) (k : A -> M S B) :
  terminates c -> (forall a, terminates (k a)) -> terminates (bind c k).
Proof.
  intros Hc Hk s; unfold bind.
  specialize (Hc s); destruct (c s) as [[a | e |] s1]; cbn in *.
  - apply Hk.
  - discriminate.
  - contradiction.
Qed.

Lemma terminates_for_each {S A} (l : list A) (body : A -> M S unit) :
  (forall a, terminates (body a)) -> terminates (for_each l body).
Proof.
  intros Hb; induction l as [| x l IH]; cbn [for_each].
  - apply terminates_ret.
  - apply terminates_bind; auto.
Qed.

Lemma terminates_if {S A} (b : bool) (c1 c2 : M S A) :
  terminates c1 -> terminates c2 -> terminates (if b then c1 else c2).
Proof. destruct b; auto. Qed.

Lemma halves_terminates card : halves card <> OutOfFuel.
Proof.
  unfold halves; destruct card as [| p | p]; try discriminate.
  do 4 (destruct p as [p | p |]; try discriminate).
Qed.

Lemma index_terminates x l : Py.index x l <> OutOfFuel.
Proof.
  induction l as [| y l IH]; cbn [Py.index]; [discriminate |].
  destruct (y =? x); [discriminate |].
  destruct (Py.index x l); [discriminate | discriminate | contradiction].
Qed.

Lemma pop_terminates {A} i (l : list A) : Py.pop i l <> OutOfFuel.
Proof.
  unfold Py.pop.
  destruct (_ || _); [discriminate |].
  destruct (nth_error _ _); discriminate.
Qed.

Lemma item_terminates {A} i (l : list A) : Py.item i l <> OutOfFuel.
Proof. unfold Py.item; destruct (nth_error l i); discriminate. Qed.

Lemma last_item_terminates {A} (l : list A) : Py.last_item l <> OutOfFuel.
Proof.
  induction l as [| x l IH]; cbn [Py.last_item]; [discriminate |].
  destruct l; [discriminate | exact IH].
Qed.

Create HintDb halt.
#[export] Hint Resolve terminates_ret terminates_raise terminates_lift
  terminates_for_each terminates_if halves_terminates index_terminates
  pop_terminates item_terminates last_item_terminates : halt.
#[export] Hint Extern 2 (terminates (bind _ _)) =>
  apply terminates_bind; [| intro] : halt.

Create HintDb frame.
#[export] Hint Resolve preserves_ret preserves_raise preserves_diverge
  preserves_lift preserves_for_each preserves_if : frame.
#[export] Hint Extern 2 (preserves _ (bind _ _)) =>
  apply preserves_bind; [| intro] : frame.

(** ** Hand evaluation *)

Lemma sum_fold_left (l : list Z) (a : Z) :
  fold_left Z.add l a = a + fold_left Z.add l 0.
Proof.
  revert a; induction l as [| x l IH]; intros a; cbn [fold_left].
  - lia.
  - rewrite IH, (IH (0 + x)); lia.
Qed.

Lemma sum_cons (x : Z) (l : list Z) : Py.sum (x :: l) = x + Py.sum l.
Proof. unfold Py.sum; cbn [fold_left]; rewrite sum_fold_left; lia. Qed.

Lemma sum_app (l1 l2 : list Z) : Py.sum (l1 ++ l2) = Py.sum l1 + Py.sum l2.
Proof.
  induction l1 as [| x l1 IH]; cbn [app].
  - reflexivity.
  - rewrite !sum_cons, IH; lia.
Qed.

Lemma contains_In (x : Z) (l : list Z) : Py.contains x l = true <-> In x l.
Proof.
  unfold Py.contains; rewrite existsb_exists; split.
  - intros [y [Hy E]]; apply Z.eqb_eq in E; subst; assumption.
  - intros Hin; exists x; split; [assumption | apply Z.eqb_refl].
Qed.

(** C8.  A hand has a usable ace exactly when it holds an ace (rank 1) and
    its plain sum plus 10 does not exceed 21; its total is the plain sum
    plus 10 when the ace is usable and the plain sum otherwise. *)
Theorem usable_ace_sum_hand_spec (hand : list Z) :
  (usable_ace hand = true <-> In 1 hand /\ Py.sum hand + 10 <= 21) /\
  (usable_ace hand = true -> sum_hand hand = Py.sum hand + 10) /\
  (usable_ace hand = false -> sum_hand hand = Py.sum hand).
Proof.
  split; [| split].
  - unfold usable_ace; rewrite andb_true_iff, contains_In, Z.leb_le; tauto.
  - intros E; unfold sum_hand; rewrite E; reflexivity.
  - intros E; unfold sum_hand; rewrite E; reflexivity.
Qed.

(** ** Rejected actions and steps after the end of a round *)

Section StepGuards.

Context {G : Type} `{RandomState G}.

Lemma single_step_rejected fuel (action : Z) (w : Single.World G) :
  discrete_contains 3 action = false ->
  Single.step fuel action w = (Raise AssertionError, w).
Proof. intros E; unfold Single.step; rewrite E; reflexivity. Qed.

Lemma split_step_rejected fuel (action : Z) (w : Split.World G) :
  discrete_contains (Split.action_space_n (snd w)) action = false ->
  Split.step fuel action w = (Raise AssertionError, w).
Proof.
  intros E; unfold Split.step, bind, Split.get_self; cbn.
  rewrite E; reflexivity.
Qed.

(** C7.  An action code outside the action space ([Discrete(3)] in the
    single-hand environment, [Discrete(action_space.n)] in the split one)
    makes [step] raise AssertionError at once, and the whole state (the
    shoe, the hands, the counter, the flags, the rewards, and the random
    generators) is what it was. *)
Theorem step_rejects_illegal_action
    fuel (a_single a_split : Z)
    (ws : Single.World G) (wp : Split.World G) :
  discrete_contains 3 a_single = false ->
  discrete_contains (Split.action_space_n (snd wp)) a_split = false ->
  Single.step fuel a_single ws = (Raise AssertionError, ws) /\
  Split.step fuel a_split wp = (Raise AssertionError, wp).
Proof.
  intros Hs Hp; split;
    [apply single_step_rejected | apply split_step_rejected]; assumption.
Qed.

Lemma split_get_obs_pure (w : Split.World G) :
  snd (Split._get_obs w) = w.
Proof.
  unfold Split._get_obs, bind, Split.get_self, lift, raise, ret; cbn.
  destruct (Py.item 0 (Split.dealer (snd w))); try reflexivity.
  destruct (Py.ceil_div52 (Py.len (Split.deck (snd w))) =? 0);
    reflexivity.
Qed.

(** C10.  In the split environment, when both hands are done, [step]
    with action 0, 1 or 2 changes nothing in the state, and what it
    returns is the observation of that same state, the sum of the two
    stored rewards, and the terminal flag true. *)
Theorem split_step_after_terminal
    fuel (action : Z) (w : Split.World G) :
  Split.done_left (snd w) = true ->
  Split.done_right (snd w) = true ->
  3 <= Split.action_space_n (snd w) ->
  0 <= action <= 2 ->
  snd (Split.step fuel action w) = w /\
  forall obs, fst (Split._get_obs w) = Ok obs ->
    fst (Split.step fuel action w)
    = Ok (obs,
          (Split.reward_left (snd w) + Split.reward_right (snd w))%Q,
          true).
Proof.
  intros Hl Hr Hn Ha.
  assert (Hc : discrete_contains (Split.action_space_n (snd w)) action
               = true).
  { unfold discrete_contains; apply andb_true_iff; split;
      [apply Z.leb_le | apply Z.ltb_lt]; lia. }
  assert (Hbranch :
    (if action =? 1 then Split.step_hit fuel
     else if action =? 0 then Split.step_stand fuel
     else if action =? 2 then Split.step_double fuel
     else if action =? 3 then Split.step_split
     else ret tt) w = (Ok tt, w)).
  { assert (Hcases : action = 0 \/ action = 1 \/ action = 2) by lia.
    destruct Hcases as [-> | [-> | ->]]; cbn [Z.eqb Pos.eqb];
      [unfold Split.step_stand | unfold Split.step_hit
       | unfold Split.step_double];
      unfold bind, Split.get_self; cbn; rewrite Hl, Hr; reflexivity. }
  assert (Hstep : Split.step fuel action w
    = (match fst (Split._get_obs w) with
       | Ok obs =>
           Ok (obs,
               (Split.reward_left (snd w) + Split.reward_right (snd w))%Q,
               true)
       | Raise x => Raise x
       | OutOfFuel => OutOfFuel
       end, w)).
  { pose proof (split_get_obs_pure w) as Hobs.
    unfold Split.step.
    rewrite (bind_Ok _ _ w (snd w) w) by reflexivity.
    rewrite Hc; cbn [negb].
    rewrite (bind_Ok _ _ w tt w Hbranch).
    unfold bind, Split.get_self, ret.
    destruct (Split._get_obs w) as [[obs | x |] w'];
      cbn [snd fst] in *; subst w'; rewrite ?Hl, ?Hr; reflexivity. }
  rewrite Hstep; cbn [fst snd]; split; [reflexivity |].
  intros obs E; rewrite E; reflexivity.
Qed.

End StepGuards.

(** ** Frame facts of the split environment

    [f] is any part of [self] that the setters used by a method leave
    alone. *)

Section SplitFrame.

Context {G : Type} `{RandomState G}.
Context {X : Type} (f : Split.Env G -> X).

Let fw : Split.World G -> X := fun w => f (snd w).

Lemma split_get_self_frame : preserves fw Split.get_self.
Proof. intros w; reflexivity. Qed.

Lemma split_modify_self_frame (h : Split.Env G -> Split.Env G) :
  (forall e, f (h e) = f e) -> preserves fw (Split.modify_self h).
Proof. intros Hh w; unfold fw; cbn; apply Hh. Qed.

Hypothesis f_deck : forall d e, f (Split.with_deck d e) = f e.
Hypothesis f_count : forall c e, f (Split.with_count c e) = f e.

Lemma split_randint_frame low high :
  preserves fw (Split.np_random_randint low high).
Proof.
  intros w; unfold Split.np_random_randint.
  destruct (low <? high); reflexivity.
Qed.

Hint Resolve split_get_self_frame split_modify_self_frame
  split_randint_frame : frame.

Lemma split_count_card_frame card : preserves fw (Split.count_card card).
Proof. unfold Split.count_card; auto 6 with frame. Qed.

Lemma split_deck_pop_frame i : preserves fw (Split.deck_pop i).
Proof. unfold Split.deck_pop; auto 8 with frame. Qed.

Hint Resolve split_count_card_frame split_deck_pop_frame : frame.

Lemma split_remove_card_frame card : preserves fw (Split.remove_card card).
Proof. unfold Split.remove_card; auto 8 with frame. Qed.

Lemma split_count_dealer_item_frame i :
  preserves fw (Split.count_dealer_item i).
Proof. unfold Split.count_dealer_item; auto 8 with frame. Qed.

Hint Resolve split_remove_card_frame split_count_dealer_item_frame : frame.

Lemma split_reshuffle_frame : preserves fw Split.reshuffle.
Proof.
  unfold Split.reshuffle, Split.reset_deck.
  repeat (apply preserves_bind; [| intro]); auto 8 with frame.
Qed.

Hint Resolve split_reshuffle_frame : frame.

Lemma split_draw_card_frame r : preserves fw (Split.draw_card r).
Proof.
  unfold Split.draw_card.
  repeat (apply preserves_bind; [| intro]); auto 8 with frame.
Qed.

Hint Resolve split_draw_card_frame : frame.

Lemma split_draw_hand_frame r : preserves fw (Split.draw_hand r).
Proof.
  unfold Split.draw_hand.
  repeat (apply preserves_bind; [| intro]); auto 8 with frame.
Qed.

Hypothesis f_dealer : forall d e, f (Split.with_dealer d e) = f e.

Lemma split_dealer_play_frame fuel : preserves fw (Split.dealer_play fuel).
Proof.
  induction fuel as [| fuel IH]; cbn [Split.dealer_play];
    repeat (apply preserves_bind; [| intro]); auto 8 with frame.
Qed.

Hint Resolve split_dealer_play_frame : frame.

Hypothesis f_player_left : forall h e, f (Split.with_player_left h e) = f e.
Hypothesis f_player_right :
  forall h e, f (Split.with_player_right h e) = f e.
Hypothesis f_done_left : forall b e, f (Split.with_done_left b e) = f e.
Hypothesis f_done_right : forall b e, f (Split.with_done_right b e) = f e.
Hypothesis f_reward_left : forall r e, f (Split.with_reward_left r e) = f e.
Hypothesis f_reward_right :
  forall r e, f (Split.with_reward_right r e) = f e.

Ltac frame_steps :=
  repeat (apply preserves_bind; [| intro]); auto 8 with frame.

Lemma split_hit_left_frame : preserves fw Split.hit_left.
Proof. unfold Split.hit_left; frame_steps. Qed.

Lemma split_hit_right_frame : preserves fw Split.hit_right.
Proof. unfold Split.hit_right; frame_steps. Qed.

Lemma split_settle_frame :
  preserves fw Split.settle_left /\ preserves fw Split.settle_right /\
  preserves fw Split.settle_left_doubled /\
  preserves fw Split.settle_right_doubled /\
  preserves fw Split.natural_bonus_left /\
  preserves fw Split.natural_bonus_right.
Proof.
  unfold Split.settle_left, Split.settle_right, Split.settle_left_doubled,
    Split.settle_right_doubled, Split.natural_bonus_left,
    Split.natural_bonus_right.
  repeat split; frame_steps.
Qed.

Hint Resolve split_hit_left_frame split_hit_right_frame : frame.

Lemma split_step_hit_frame fuel : preserves fw (Split.step_hit fuel).
Proof.
  destruct split_settle_frame as (? & ? & ? & ? & ? & ?).
  unfold Split.step_hit; frame_steps.
  repeat (apply preserves_if; frame_steps).
Qed.

Lemma split_step_stand_frame fuel : preserves fw (Split.step_stand fuel).
Proof.
  destruct split_settle_frame as (? & ? & ? & ? & ? & ?).
  unfold Split.step_stand; frame_steps.
  repeat (apply preserves_if; frame_steps).
Qed.

Lemma split_step_double_frame fuel : preserves fw (Split.step_double fuel).
Proof.
  destruct split_settle_frame as (? & ? & ? & ? & ? & ?).
  unfold Split.step_double; frame_steps.
  repeat (apply preserves_if; frame_steps).
Qed.

Lemma split_get_obs_frame : preserves fw Split._get_obs.
Proof. intros w; unfold fw; rewrite split_get_obs_pure; reflexivity. Qed.

End SplitFrame.

(** ** Frame facts of the single-hand environment *)

Section SingleFrame.

Context {G : Type} `{RandomState G}.
Context {X : Type} (f : Single.Env G -> X).

Let fw : Single.World G -> X := fun w => f (snd w).

Lemma single_get_self_frame : preserves fw Single.get_self.
Proof. intros w; reflexivity. Qed.

Lemma single_modify_self_frame (h : Single.Env G -> Single.Env G) :
  (forall e, f (h e) = f e) -> preserves fw (Single.modify_self h).
Proof. intros Hh w; unfold fw; cbn; apply Hh. Qed.

Lemma single_get_obs_pure (w : Single.World G) :
  snd (Single._get_obs w) = w.
Proof.
  unfold Single._get_obs, bind, Single.get_self, lift, raise, ret; cbn.
  destruct (Py.item 0 (Single.dealer (snd w))); try reflexivity.
  destruct (Py.ceil_div52 (Py.len (Single.deck (snd w))) =? 0);
    reflexivity.
Qed.

Hypothesis f_deck : forall d e, f (Single.with_deck d e) = f e.
Hypothesis f_count : forall c e, f (Single.with_count c e) = f e.

Lemma single_randint_frame low high :
  preserves fw (Single.np_random_randint low high).
Proof.
  intros w; unfold Single.np_random_randint.
  destruct (low <? high); reflexivity.
Qed.

Hint Resolve single_get_self_frame single_modify_self_frame
  single_randint_frame : frame.

Ltac frame_steps :=
  repeat (apply preserves_bind; [| intro]); auto 8 with frame.

Lemma single_count_card_frame card : preserves fw (Single.count_card card).
Proof. unfold Single.count_card; frame_steps. Qed.

Lemma single_deck_pop_frame i : preserves fw (Single.deck_pop i).
Proof. unfold Single.deck_pop; frame_steps. Qed.

Hint Resolve single_count_card_frame single_deck_pop_frame : frame.

Lemma single_remove_card_frame card :
  preserves fw (Single.remove_card card).
Proof. unfold Single.remove_card; frame_steps. Qed.

Lemma single_count_dealer_item_frame i :
  preserves fw (Single.count_dealer_item i).
Proof. unfold Single.count_dealer_item; frame_steps. Qed.

Hint Resolve single_remove_card_frame single_count_dealer_item_frame
  : frame.

Lemma single_reshuffle_frame : preserves fw Single.reshuffle.
Proof. unfold Single.reshuffle, Single.reset_deck; frame_steps. Qed.

Hint Resolve single_reshuffle_frame : frame.

Lemma single_draw_card_frame r : preserves fw (Single.draw_card r).
Proof. unfold Single.draw_card; frame_steps. Qed.

Hint Resolve single_draw_card_frame : frame.

Lemma single_dealer_play_frame fuel :
  (forall d e, f (Single.with_dealer d e) = f e) ->
  preserves fw (Single.dealer_play fuel).
Proof.
  intros f_dealer.
  induction fuel as [| fuel IH]; cbn [Single.dealer_play]; frame_steps.
Qed.

Lemma single_hit_player_frame :
  (forall h e, f (Single.with_player h e) = f e) ->
  preserves fw Single.hit_player.
Proof. intros f_player; unfold Single.hit_player; frame_steps. Qed.

End SingleFrame.

(** ** No method but the dealer's loop needs fuel *)

Section Termination.

Context {G : Type} `{RandomState G}.

Ltac halt_steps :=
  repeat (apply terminates_bind; [| intro]); auto 8 with halt.

Lemma single_get_self_terminates : terminates (@Single.get_self G).
Proof. intros w; discriminate. Qed.

Lemma single_modify_self_terminates h :
  terminates (@Single.modify_self G h).
Proof. intros w; discriminate. Qed.

Lemma single_randint_terminates low high :
  terminates (@Single.np_random_randint G _ low high).
Proof.
  intros w; unfold Single.np_random_randint.
  destruct (low <? high); discriminate.
Qed.

Hint Resolve single_get_self_terminates single_modify_self_terminates
  single_randint_terminates : halt.

Lemma single_count_card_terminates card :
  terminates (@Single.count_card G card).
Proof. unfold Single.count_card; halt_steps. Qed.

Lemma single_deck_pop_terminates i : terminates (@Single.deck_pop G i).
Proof. unfold Single.deck_pop; halt_steps. Qed.

Hint Resolve single_count_card_terminates single_deck_pop_terminates : halt.

Lemma single_remove_card_terminates card :
  terminates (@Single.remove_card G card).
Proof. unfold Single.remove_card; halt_steps. Qed.

Lemma single_count_dealer_item_terminates i :
  terminates (@Single.count_dealer_item G i).
Proof. unfold Single.count_dealer_item; halt_steps. Qed.

Hint Resolve single_remove_card_terminates
  single_count_dealer_item_terminates : halt.

Lemma single_reshuffle_terminates : terminates (@Single.reshuffle G).
Proof. unfold Single.reshuffle, Single.reset_deck; halt_steps. Qed.

Hint Resolve single_reshuffle_terminates : halt.

Lemma single_draw_card_terminates r : terminates (Single.draw_card r).
Proof. unfold Single.draw_card; halt_steps. Qed.

Lemma single_get_obs_terminates : terminates (@Single._get_obs G).
Proof.
  unfold Single._get_obs; halt_steps.
Qed.

Lemma split_get_self_terminates : terminates (@Split.get_self G).
Proof. intros w; discriminate. Qed.

Lemma split_modify_self_terminates h : terminates (@Split.modify_self G h).
Proof. intros w; discriminate. Qed.

Lemma split_randint_terminates low high :
  terminates (@Split.np_random_randint G _ low high).
Proof.
  intros w; unfold Split.np_random_randint.
  destruct (low <? high); discriminate.
Qed.

Hint Resolve split_get_self_terminates split_modify_self_terminates
  split_randint_terminates : halt.

Lemma split_count_card_terminates card :
  terminates (@Split.count_card G card).
Proof. unfold Split.count_card; halt_steps. Qed.

Lemma split_deck_pop_terminates i : terminates (@Split.deck_pop G i).
Proof. unfold Split.deck_pop; halt_steps. Qed.

Hint Resolve split_count_card_terminates split_deck_pop_terminates : halt.

Lemma split_remove_card_terminates card :
  terminates (@Split.remove_card G card).
Proof. unfold Split.remove_card; halt_steps. Qed.

Lemma split_count_dealer_item_terminates i :
  terminates (@Split.count_dealer_item G i).
Proof. unfold Split.count_dealer_item; halt_steps. Qed.

Hint Resolve split_remove_card_terminates
  split_count_dealer_item_terminates : halt.

Lemma split_reshuffle_terminates : terminates (@Split.reshuffle G).
Proof. unfold Split.reshuffle, Split.reset_deck; halt_steps. Qed.

Hint Resolve split_reshuffle_terminates : halt.

Lemma split_draw_card_terminates r : terminates (Split.draw_card r).
Proof. unfold Split.draw_card; halt_steps. Qed.

Lemma split_hit_right_terminates : terminates (@Split.hit_right G _).
Proof.
  unfold Split.hit_right; halt_steps; apply split_draw_card_terminates.
Qed.

Lemma split_get_obs_terminates : terminates (@Split._get_obs G).
Proof.
  unfold Split._get_obs; halt_steps.
Qed.

End Termination.

(** ** The [split_possible] flag *)

Section SplitPossible.

Context {G : Type} `{RandomState G}.

Let flag : Split.World G -> bool := fun w => Split.split_possible (snd w).

Lemma split_step_keeps_flag fuel (action : Z) :
  action <> 3 -> preserves flag (Split.step fuel action).
Proof.
  intros Ha.
  assert (Hb : preserves flag
    (if action =? 1 then Split.step_hit fuel
     else if action =? 0 then Split.step_stand fuel
     else if action =? 2 then Split.step_double fuel
     else if action =? 3 then Split.step_split
     else ret tt)).
  { destruct (action =? 1);
      [apply (split_step_hit_frame Split.split_possible); reflexivity |].
    destruct (action =? 0);
      [apply (split_step_stand_frame Split.split_possible); reflexivity |].
    destruct (action =? 2);
      [apply (split_step_double_frame Split.split_possible); reflexivity |].
    destruct (Z.eqb_spec action 3); [contradiction |].
    apply preserves_ret. }
  unfold Split.step.
  apply preserves_bind; [intros w; reflexivity | intros self].
  apply preserves_if; [apply preserves_raise |].
  apply preserves_bind; [exact Hb | intros _].
  apply preserves_bind;
    [apply (split_get_obs_frame Split.split_possible) | intros obs].
  apply preserves_bind; [intros w; reflexivity | intros self'].
  apply preserves_ret.
Qed.

Lemma split_step_split_clears :
  hoare (fun _ => True) (@Split.step_split G _)
    (fun _ w => flag w = false).
Proof.
  unfold Split.step_split.
  do 7 (apply hoare_last; intros ?).
  intros s x s' _ E.
  unfold bind, Split.modify_self in E; cbn in E.
  inversion E; reflexivity.
Qed.

Lemma split_step_3_clears fuel :
  hoare (fun _ => True) (Split.step fuel 3) (fun _ w => flag w = false).
Proof.
  unfold Split.step.
  apply hoare_last; intros self.
  destruct (negb (discrete_contains (Split.action_space_n self) 3)).
  { intros s a s' _ E; discriminate. }
  cbn [Z.eqb Pos.eqb].
  eapply hoare_bind; [apply split_step_split_clears | intros u].
  intros s x s' Hs E.
  assert (Hs' : s' = s).
  { apply bind_inv_Ok in E; destruct E as (obs & s1 & E1 & E2).
    pose proof (split_get_obs_pure s) as Hp; rewrite E1 in Hp.
    cbn in Hp; subst s1.
    unfold bind, Split.get_self, ret in E2; inversion E2; reflexivity. }
  subst s'; assumption.
Qed.

Lemma split_run_flag fuel (actions : list Z) :
  forall w rs w',
    Split.run fuel actions w = (Ok rs, w') ->
    flag w' = flag w && negb (existsb (Z.eqb 3) actions).
Proof.
  induction actions as [| a rest IH]; intros w rs w' E.
  - inversion E; subst; cbn; rewrite andb_true_r; reflexivity.
  - cbn [Split.run] in E.
    apply bind_inv_Ok in E; destruct E as (r & w1 & E1 & E).
    apply bind_inv_Ok in E; destruct E as (rs' & w2 & E2 & E).
    inversion E; subst; clear E.
    rewrite (IH _ _ _ E2); cbn [existsb].
    destruct (Z.eqb_spec 3 a) as [<- | Hne].
    + rewrite (split_step_3_clears fuel w r w1 I E1).
      cbn; rewrite andb_false_r; reflexivity.
    + pose proof (split_step_keeps_flag fuel a (not_eq_sym Hne) w) as Hk.
      rewrite E1 in Hk; cbn [snd] in Hk; rewrite Hk; reflexivity.
Qed.

Lemma split_draw_hand_pair r :
  hoare (fun _ => True) (@Split.draw_hand G _ r)
    (fun hand _ => exists c1 c2, hand = [c1; c2]).
Proof.
  unfold Split.draw_hand.
  apply hoare_last; intros c1. apply hoare_last; intros c2.
  intros s x s' _ E; inversion E; eauto.
Qed.

Lemma split_count_card_left card (w w' : Split.World G) u :
  Split.count_card card w = (Ok u, w') ->
  Split.player_left (snd w') = Split.player_left (snd w).
Proof.
  intros E.
  pose proof (split_count_card_frame Split.player_left
                (fun _ _ => eq_refl) card w) as Hf.
  rewrite E in Hf; exact Hf.
Qed.

Lemma split_reset_flag :
  hoare (fun _ => True) (@Split.reset G _)
    (fun _ w => exists c1 c2,
       Split.player_left (snd w) = [c1; c2] /\ flag w = (c1 =? c2)).
Proof.
  unfold Split.reset.
  do 7 (apply hoare_last; intros ?).
  eapply hoare_bind; [apply split_draw_hand_pair |].
  intros hand s x s' (c1 & c2 & ->) E.
  exists c1, c2.
  repeat (apply bind_inv_Ok in E; destruct E as (? & ? & ? & E)).
  repeat match goal with
  | H : Split.modify_self _ _ = (Ok _, _) |- _ =>
      unfold Split.modify_self in H; inversion H; subst; clear H
  | H : Split.get_self _ = (Ok _, _) |- _ =>
      unfold Split.get_self in H; inversion H; subst; clear H
  | H : lift _ _ = (Ok _, _) |- _ =>
      unfold lift in H; inversion H; subst; clear H
  | H : Split.count_card _ _ = (Ok _, _) |- _ =>
      apply split_count_card_left in H
  end.
  cbn [snd Split.player_left Split.with_player_right
       Split.with_player_left] in *.
  match goal with
  | Hl : Split.player_left (snd ?w) = Split.player_left (snd ?v),
    Hv : Split.player_left (snd ?v) = [_; _] |- _ =>
      rewrite Hv in Hl
  end.
  match goal with
  | Hl : Split.player_left (snd ?w) = [_; _],
    H0 : Py.item 0 (Split.player_left (snd ?w)) = Ok _,
    H1 : Py.item 1 (Split.player_left (snd ?w)) = Ok _ |- _ =>
      rewrite Hl in H0, H1; cbn in H0, H1;
      inversion H0; inversion H1; subst
  end.
  match goal with
  | E : _ ?w = (Ok _, s') |- _ =>
      assert (Hs' : s' = w)
        by (cbv zeta in E;
            destruct (Py.ceil_div52 (Py.len (Split.deck (snd w))) =? 0);
            inversion E; reflexivity);
      subst s'
  end.
  unfold flag.
  match goal with
  | Hb : (if ?a =? ?b then _ else _) _ = _ |- _ =>
      destruct (a =? b); unfold bind, Split.modify_self in Hb;
      cbn in Hb; inversion Hb; subst; cbn; auto
  end.
Qed.

(** C5 (amended).  In a round, that is after a [reset] that returned and
    any actions whose [step]s all returned, [split_possible] is true
    exactly when that [reset] dealt the left hand two cards of equal rank
    and no action of the round so far was SPLIT (3): HIT, STAND and DOUBLE
    leave the flag as it is, SPLIT clears it for the rest of the round. *)
Theorem split_possible_until_split
    fuel (actions : list Z) (w w0 w' : Split.World G) obs rs :
  Split.reset w = (Ok obs, w0) ->
  Split.run fuel actions w0 = (Ok rs, w') ->
  (Split.split_possible (snd w') = true <->
   (exists c, Split.player_left (snd w0) = [c; c]) /\ ~ In 3 actions).
Proof.
  intros Hreset Hrun.
  destruct (split_reset_flag w obs w0 I Hreset) as (c1 & c2 & Hl & Hf).
  pose proof (split_run_flag fuel actions w0 rs w' Hrun) as Hr.
  unfold flag in *; rewrite Hr, Hf, Hl, andb_true_iff, negb_true_iff.
  rewrite Z.eqb_eq.
  assert (Hin : existsb (Z.eqb 3) actions = false <-> ~ In 3 actions).
  { rewrite <- not_true_iff_false, existsb_exists; split.
    - intros Hn Hi; apply Hn; exists 3; split; [assumption | reflexivity].
    - intros Hn (y & Hy & E); apply Z.eqb_eq in E; subst; auto. }
  rewrite Hin; split.
  - intros [-> Hn]; split; [exists c2; reflexivity | assumption].
  - intros [[c E] Hn]; inversion E; subst; auto.
Qed.

End SplitPossible.

(** ** Lists of cards *)

Section CardLists.

Lemma cnt_cons (x : Z) (l : list Z) (r : Z) :
  cnt (x :: l) r = ((if Z.eq_dec x r then 1 else 0) + cnt l r)%nat.
Proof. unfold cnt; cbn; destruct (Z.eq_dec x r); reflexivity. Qed.

Lemma cnt_app (l1 l2 : list Z) (r : Z) :
  cnt (l1 ++ l2) r = (cnt l1 r + cnt l2 r)%nat.
Proof. apply count_occ_app. Qed.

Lemma cnt_In (l : list Z) (r : Z) : In r l <-> (0 < cnt l r)%nat.
Proof. apply count_occ_In. Qed.

Lemma fits_shoe_spec (cards : list Z) (n : Z) :
  fits_shoe cards n = true <->
  forall r, (cnt cards r <= cnt (fresh_deck n) r)%nat.
Proof.
  unfold fits_shoe; rewrite forallb_forall; split.
  - intros Hall r.
    destruct (in_dec Z.eq_dec r cards) as [Hin | Hnot].
    + apply Nat.leb_le, Hall, Hin.
    + apply (count_occ_not_In Z.eq_dec) in Hnot.
      unfold cnt at 1; rewrite Hnot; apply Nat.le_0_l.
  - intros Hall r _; apply Nat.leb_le, Hall.
Qed.

Lemma index_In (x : Z) (l : list Z) :
  In x l -> exists i, Py.index x l = Ok i /\ nth_error l i = Some x.
Proof.
  induction l as [| y l IH]; intros Hin; [destruct Hin |].
  cbn [Py.index]; destruct (Z.eqb_spec y x) as [-> | Hne].
  - exists O; split; reflexivity.
  - destruct Hin as [E | Hin]; [contradiction |].
    destruct (IH Hin) as (i & Ei & Hi).
    exists (S i); rewrite Ei; split; [reflexivity | assumption].
Qed.

Lemma pop_nth {A} (l : list A) (i : nat) (x : A) :
  nth_error l i = Some x ->
  Py.pop (Z.of_nat i) l = Ok (x, Py.remove_nth i l).
Proof.
  intros Hn.
  assert (Hlt : (i < length l)%nat)
    by (apply nth_error_Some; congruence).
  unfold Py.pop, Py.len.
  destruct (Z.ltb_spec (Z.of_nat i) 0); [lia |].
  destruct (Z.ltb_spec (Z.of_nat i) 0); [lia |].
  destruct (Z.leb_spec (Z.of_nat (length l)) (Z.of_nat i)); [lia |].
  cbn [orb]; rewrite Nat2Z.id, Hn; reflexivity.
Qed.

Lemma pop_in_range {A} (l : list A) (i : Z) :
  0 <= i < Py.len l ->
  exists x, Py.pop i l = Ok (x, Py.remove_nth (Z.to_nat i) l) /\
            nth_error l (Z.to_nat i) = Some x.
Proof.
  unfold Py.len; intros Hi.
  destruct (nth_error l (Z.to_nat i)) as [x |] eqn:Hn.
  - exists x; split; [| reflexivity].
    rewrite <- (Z2Nat.id i) at 1 by lia.
    apply pop_nth; assumption.
  - apply nth_error_None in Hn; lia.
Qed.

Lemma remove_nth_cnt (l : list Z) (i : nat) (x : Z) :
  nth_error l i = Some x ->
  forall r,
    ((if Z.eq_dec x r then 1 else 0) + cnt (Py.remove_nth i l) r
     = cnt l r)%nat.
Proof.
  revert i; induction l as [| y l IH]; intros i Hn r.
  - destruct i; discriminate.
  - destruct i as [| i]; cbn in Hn.
    + inversion Hn; subst; cbn [Py.remove_nth].
      rewrite cnt_cons; reflexivity.
    + cbn [Py.remove_nth]; rewrite !cnt_cons.
      specialize (IH i Hn r); lia.
Qed.

Lemma remove_nth_length {A} (l : list A) (i : nat) (x : A) :
  nth_error l i = Some x ->
  S (length (Py.remove_nth i l)) = length l.
Proof.
  revert i; induction l as [| y l IH]; intros i Hn.
  - destruct i; discriminate.
  - destruct i as [| i]; cbn in Hn; cbn [Py.remove_nth length].
    + reflexivity.
    + rewrite (IH i Hn); reflexivity.
Qed.

Lemma suit_ranks (x : Z) : In x (Py.mul suit 4) -> 1 <= x <= 10.
Proof. cbn; intros Hin; repeat (destruct Hin as [<- | Hin]; [lia |]);
  destruct Hin. Qed.

Lemma fresh_deck_ranks (n x : Z) : In x (fresh_deck n) -> 1 <= x <= 10.
Proof.
  unfold fresh_deck, Py.mul at 1; intros Hin.
  apply in_concat in Hin; destruct Hin as (l & Hl & Hx).
  apply repeat_spec in Hl; subst l; apply suit_ranks; assumption.
Qed.

Lemma halves_rank (x : Z) : 1 <= x <= 10 -> exists h, halves x = Ok h.
Proof.
  intros Hx.
  assert (Hc : x = 1 \/ x = 2 \/ x = 3 \/ x = 4 \/ x = 5 \/ x = 6 \/
               x = 7 \/ x = 8 \/ x = 9 \/ x = 10) by lia.
  repeat (destruct Hc as [-> | Hc]; [eexists; reflexivity |]).
  subst; eexists; reflexivity.
Qed.

Lemma halves_Ok_rank (x : Z) (h : Q) : halves x = Ok h -> 1 <= x <= 10.
Proof.
  unfold halves; destruct x as [| p | p]; try discriminate.
  do 4 (try (destruct p as [p | p |]); try discriminate); intros _; lia.
Qed.

Lemma fresh_deck_length (n : Z) :
  length (fresh_deck n) = (52 * Z.to_nat n)%nat.
Proof.
  unfold fresh_deck, Py.mul at 1.
  induction (Z.to_nat n) as [| k IH]; cbn [repeat concat].
  - reflexivity.
  - rewrite length_app, IH.
    change (length (Py.mul suit 4)) with 52%nat; lia.
Qed.

(** Cards that fit a shoe are ranks of the table. *)
Lemma fits_shoe_ranks (cards : list Z) (n x : Z) :
  fits_shoe cards n = true -> In x cards -> 1 <= x <= 10.
Proof.
  intros Hf Hin; apply (fresh_deck_ranks n), cnt_In.
  apply cnt_In in Hin.
  pose proof (proj1 (fits_shoe_spec cards n) Hf x); lia.
Qed.

Lemma sum_ge_length (l : list Z) :
  (forall x, In x l -> 1 <= x) -> Py.len l <= Py.sum l.
Proof.
  unfold Py.len; induction l as [| y l IH]; intros Hall.
  - cbn; lia.
  - rewrite sum_cons; cbn [length].
    pose proof (Hall y (or_introl eq_refl)).
    assert (Z.of_nat (length l) <= Py.sum l)
      by (apply IH; intros x Hx; apply Hall; right; assumption).
    lia.
Qed.

Lemma sum_hand_ge_sum (l : list Z) : Py.sum l <= sum_hand l.
Proof. unfold sum_hand; destruct (usable_ace l); lia. Qed.

Lemma last_item_In {A} (l : list A) :
  l <> [] -> exists x, Py.last_item l = Ok x /\ In x l.
Proof.
  induction l as [| y l IH]; intros Hne; [contradiction |].
  destruct l as [| z l].
  - exists y; split; [reflexivity | left; reflexivity].
  - destruct IH as (x & Ex & Hx); [discriminate |].
    exists x; split; [exact Ex | right; assumption].
Qed.

Lemma but_last_In {A} (l : list A) (x : A) :
  In x (Py.but_last l) -> In x l.
Proof.
  unfold Py.but_last; induction l as [| y l IH]; [intros [] |].
  destruct l as [| z l]; [intros [] |].
  intros [-> | Hin]; [left; reflexivity | right; apply IH, Hin].
Qed.

Lemma cmp_three_way (a b : Z) : (cmp a b == three_way a b)%Q.
Proof.
  unfold cmp, three_way.
  destruct (Z.gtb_spec a b), (Z.ltb_spec a b); try lia; reflexivity.
Qed.

Lemma cmp_win (a b : Z) : Qeq_bool (cmp a b) 1 = (a >? b).
Proof.
  unfold cmp.
  destruct (Z.gtb_spec a b), (Z.ltb_spec a b); try lia; reflexivity.
Qed.

Lemma ceil_div52_pos {A} (l : list A) :
  l <> [] -> (Py.ceil_div52 (Py.len l) =? 0) = false.
Proof.
  intros Hne; apply Z.eqb_neq; unfold Py.ceil_div52, Py.len.
  destruct l as [| x l]; [contradiction |]; cbn [length].
  assert (1 <= (Z.of_nat (S (length l)) + 51) / 52); [| lia].
  apply Z.div_le_lower_bound; lia.
Qed.

End CardLists.

(** ** The shoe of the single-hand environment *)

Section SingleShoe.

Context {G : Type} `{RandomState G}.

Lemma single_count_card_eq card h (g : G) e :
  halves card = Ok h ->
  Single.count_card card (g, e)
  = (Ok tt, (g, Single.with_count (Single.count e + h)%Q e)).
Proof.
  intros Hh; unfold Single.count_card, bind, lift; rewrite Hh; reflexivity.
Qed.

Lemma single_remove_card_eq card (g : G) e :
  In card (Single.deck e) ->
  exists d',
    Single.remove_card card (g, e) = (Ok tt, (g, Single.with_deck d' e)) /\
    S (length d') = length (Single.deck e) /\
    forall r, ((if Z.eq_dec card r then 1 else 0) + cnt d' r
               = cnt (Single.deck e) r)%nat.
Proof.
  intros Hin.
  destruct (index_In card (Single.deck e) Hin) as (i & Ei & Hi).
  exists (Py.remove_nth i (Single.deck e)); split; [| split].
  - unfold Single.remove_card, Single.deck_pop, bind, Single.get_self, lift.
    cbn [snd fst]; rewrite Ei, (pop_nth _ _ _ Hi); reflexivity.
  - apply (remove_nth_length _ _ _ Hi).
  - apply remove_nth_cnt; assumption.
Qed.

Lemma single_eta (e : Single.Env G) :
  Single.with_count (Single.count e) (Single.with_deck (Single.deck e) e)
  = e.
Proof. destruct e; reflexivity. Qed.

Lemma single_remove_count_loop (hand : list Z) :
  forall (g : G) e,
    (forall r, (cnt hand r <= cnt (Single.deck e) r)%nat) ->
    (forall x, In x hand -> 1 <= x <= 10) ->
    exists d' c',
      for_each hand
        (fun card => Single.remove_card card ;; Single.count_card card)
        (g, e)
      = (Ok tt, (g, Single.with_count c' (Single.with_deck d' e))) /\
      (length hand + length d' = length (Single.deck e))%nat /\
      forall r, (cnt hand r + cnt d' r = cnt (Single.deck e) r)%nat.
Proof.
  induction hand as [| x hand IH]; intros g e Hfit Hranks.
  - exists (Single.deck e), (Single.count e); split; [| split].
    + cbn; rewrite single_eta; reflexivity.
    + reflexivity.
    + intros r; reflexivity.
  - assert (Hin : In x (Single.deck e)).
    { apply cnt_In; specialize (Hfit x); rewrite cnt_cons in Hfit.
      destruct (Z.eq_dec x x); [lia | contradiction]. }
    destruct (single_remove_card_eq x g e Hin) as (d1 & E1 & Hl1 & Hd1).
    destruct (halves_rank x (Hranks x (or_introl eq_refl))) as (h & Hh).
    set (e1 := Single.with_count (Single.count e + h)%Q
                 (Single.with_deck d1 e)).
    destruct (IH g e1) as (d' & c' & E & Hl' & Hd').
    { intros r; change (Single.deck e1) with d1.
      specialize (Hfit r); specialize (Hd1 r).
      rewrite cnt_cons in Hfit; lia. }
    { intros y Hy; apply Hranks; right; assumption. }
    exists d', c'; split; [| split].
    + cbn [for_each].
      rewrite (bind_Ok _ _ (g, e) tt (g, e1)).
      * rewrite E; reflexivity.
      * rewrite (bind_Ok _ _ _ _ _ E1).
        apply (single_count_card_eq x h g (Single.with_deck d1 e) Hh).
    + change (Single.deck e1) with d1 in Hl'; cbn [length]; lia.
    + intros r; specialize (Hd' r); specialize (Hd1 r).
      change (Single.deck e1) with d1 in Hd'.
      rewrite cnt_cons; lia.
Qed.

Lemma single_remove_loop (hand : list Z) :
  forall (g : G) e,
    (forall r, (cnt hand r <= cnt (Single.deck e) r)%nat) ->
    exists d',
      for_each hand Single.remove_card (g, e)
      = (Ok tt, (g, Single.with_deck d' e)) /\
      (length hand + length d' = length (Single.deck e))%nat /\
      forall r, (cnt hand r + cnt d' r = cnt (Single.deck e) r)%nat.
Proof.
  induction hand as [| x hand IH]; intros g e Hfit.
  - exists (Single.deck e); split; [| split].
    + cbn; destruct e; reflexivity.
    + reflexivity.
    + intros r; reflexivity.
  - assert (Hin : In x (Single.deck e)).
    { apply cnt_In; specialize (Hfit x); rewrite cnt_cons in Hfit.
      destruct (Z.eq_dec x x); [lia | contradiction]. }
    destruct (single_remove_card_eq x g e Hin) as (d1 & E1 & Hl1 & Hd1).
    destruct (IH g (Single.with_deck d1 e)) as (d' & E & Hl' & Hd').
    { intros r; cbn [Single.deck Single.with_deck].
      specialize (Hfit r); specialize (Hd1 r).
      rewrite cnt_cons in Hfit; lia. }
    exists d'; split; [| split].
    + cbn [for_each]; rewrite (bind_Ok _ _ _ _ _ E1), E; reflexivity.
    + cbn [Single.deck Single.with_deck] in Hl'; cbn [length]; lia.
    + intros r; specialize (Hd' r); specialize (Hd1 r).
      cbn [Single.deck Single.with_deck] in Hd'.
      rewrite cnt_cons; lia.
Qed.

Lemma single_count_loop (hand : list Z) :
  forall (g : G) e,
    (forall x, In x hand -> 1 <= x <= 10) ->
    exists c',
      for_each hand Single.count_card (g, e)
      = (Ok tt, (g, Single.with_count c' e)).
Proof.
  induction hand as [| x hand IH]; intros g e Hranks.
  - exists (Single.count e); cbn; destruct e; reflexivity.
  - destruct (halves_rank x (Hranks x (or_introl eq_refl))) as (h & Hh).
    destruct (IH g (Single.with_count (Single.count e + h)%Q e))
      as (c' & E).
    { intros y Hy; apply Hranks; right; assumption. }
    exists c'; cbn [for_each].
    rewrite (bind_Ok _ _ _ _ _ (single_count_card_eq x h g e Hh)), E.
    reflexivity.
Qed.

(** The invariant of [Single.consistent], rank by rank. *)
Lemma single_consistent_spec (e : Single.Env G) :
  Single.consistent e = true <->
  forall r,
    (cnt (Single.player e) r + cnt (Single.dealer e) r
     + cnt (Single.deck e) r
     <= cnt (fresh_deck (Single.num_decks e)) r)%nat.
Proof.
  unfold Single.consistent; rewrite fits_shoe_spec.
  split; intros Hc r; specialize (Hc r); rewrite !cnt_app in *; lia.
Qed.

Lemma single_reshuffle_eq (g : G) e :
  (forall r, (cnt (Single.player e) r + cnt (Single.dealer e) r
              <= cnt (fresh_deck (Single.num_decks e)) r)%nat) ->
  Single.dealer e <> [] ->
  exists d' c',
    Single.reshuffle (g, e)
    = (Ok tt, (g, Single.with_count c' (Single.with_deck d' e))) /\
    (length (Single.player e) + length (Single.dealer e) + length d'
     = length (fresh_deck (Single.num_decks e)))%nat /\
    forall r, (cnt (Single.player e) r + cnt (Single.dealer e) r
               + cnt d' r
               = cnt (fresh_deck (Single.num_decks e)) r)%nat.
Proof.
  intros Hfit Hne.
  set (fresh := fresh_deck (Single.num_decks e)) in *.
  assert (Hranks : forall x,
            In x (Single.player e) \/ In x (Single.dealer e) ->
            1 <= x <= 10).
  { intros x Hx; apply (fresh_deck_ranks (Single.num_decks e)), cnt_In.
    specialize (Hfit x); fold fresh.
    destruct Hx as [Hx | Hx]; apply cnt_In in Hx; lia. }
  set (e1 := Single.with_count 0%Q (Single.with_deck fresh e)).
  destruct (single_remove_count_loop (Single.player e) g e1)
    as (d1 & c1 & E1 & L1 & C1).
  { intros r; specialize (Hfit r); change (Single.deck e1) with fresh; lia. }
  { intros x Hx; apply Hranks; left; assumption. }
  change (Single.deck e1) with fresh in L1, C1.
  set (e2 := Single.with_count c1 (Single.with_deck d1 e1)) in *.
  destruct (single_remove_loop (Single.dealer e) g e2)
    as (d2 & E2 & L2 & C2).
  { intros r; specialize (Hfit r); specialize (C1 r).
    change (Single.deck e2) with d1; lia. }
  change (Single.deck e2) with d1 in L2, C2.
  set (e3 := Single.with_deck d2 e2) in *.
  destruct (single_count_loop (Py.but_last (Single.dealer e)) g e3)
    as (c3 & E3).
  { intros x Hx; apply Hranks; right; apply but_last_In; assumption. }
  set (e4 := Single.with_count c3 e3) in *.
  destruct (last_item_In (Single.dealer e) Hne) as (hole & Ehole & Hhole).
  destruct (halves_rank hole (Hranks hole (or_intror Hhole))) as (h & Hh).
  exists d2, (if Single.done e then (c3 + h)%Q else c3).
  split; [| split].
  - unfold Single.reshuffle.
    rewrite (bind_Ok _ _ (g, e) tt (g, Single.with_deck fresh e))
      by reflexivity.
    rewrite (bind_Ok _ _ _ tt (g, e1)) by reflexivity.
    rewrite (bind_Ok _ _ (g, e1) e1 (g, e1)) by reflexivity.
    rewrite (bind_Ok _ _ _ _ _ E1).
    rewrite (bind_Ok _ _ (g, e2) e2 (g, e2)) by reflexivity.
    rewrite (bind_Ok _ _ _ _ _ E2).
    rewrite (bind_Ok _ _ (g, e3) e3 (g, e3)) by reflexivity.
    rewrite (bind_Ok _ _ _ _ _ E3).
    rewrite (bind_Ok _ _ (g, e4) e4 (g, e4)) by reflexivity.
    change (Single.done e4) with (Single.done e).
    destruct (Single.done e); [| reflexivity].
    rewrite (bind_Ok _ _ (g, e4) e4 (g, e4)) by reflexivity.
    change (Single.dealer e4) with (Single.dealer e).
    rewrite (bind_Ok _ _ (g, e4) hole (g, e4))
      by (unfold lift; rewrite Ehole; reflexivity).
    rewrite (single_count_card_eq hole h g e4 Hh); reflexivity.
  - lia.
  - intros r; specialize (C1 r); specialize (C2 r); lia.
Qed.

End SingleShoe.

(** ** Drawing and the dealer's play-out, single-hand environment *)

Section SinglePlay.

Context {G : Type} `{RandomState G} `{!RandomStateInRange G}.

(** A draw from a consistent state returns a card of the table and leaves
    a consistent state with the card out of the shoe. *)
Lemma single_draw_card_eq (rng g : G) e :
  Single.consistent e = true ->
  Single.dealer e <> [] ->
  (length (Single.player e) + length (Single.dealer e) + 2
   <= length (fresh_deck (Single.num_decks e)))%nat ->
  2 <= Single.shuffle_on e ->
  exists card g' d' c',
    Single.draw_card rng (g, e)
    = (Ok card, (g', Single.with_count c' (Single.with_deck d' e))) /\
    1 <= card <= 10 /\
    d' <> [] /\
    forall r,
      (cnt (Single.player e) r + cnt (Single.dealer e) r
       + (if Z.eq_dec card r then 1 else 0) + cnt d' r
       <= cnt (fresh_deck (Single.num_decks e)) r)%nat.
Proof.
  intros Hcons Hne Hlen Hshuf.
  pose proof (proj1 (single_consistent_spec e) Hcons) as Hc.
  (* the state in which the index is drawn *)
  assert (Hpre : exists d1 c1,
    (self <- Single.get_self ;;
     if Py.len (Single.deck self) <? Single.shuffle_on self
     then Single.reshuffle else ret tt) (g, e)
    = (Ok tt, (g, Single.with_count c1 (Single.with_deck d1 e))) /\
    (2 <= length d1)%nat /\
    forall r,
      (cnt (Single.player e) r + cnt (Single.dealer e) r + cnt d1 r
       <= cnt (fresh_deck (Single.num_decks e)) r)%nat).
  { rewrite (bind_Ok _ _ (g, e) e (g, e)) by reflexivity.
    destruct (Z.ltb_spec (Py.len (Single.deck e)) (Single.shuffle_on e))
      as [Hlt | Hge].
    - destruct (single_reshuffle_eq g e) as (d1 & c1 & E & L & C);
        [intros r; specialize (Hc r); lia | assumption |].
      exists d1, c1; split; [exact E | split; [lia |]].
      intros r; specialize (C r); lia.
    - exists (Single.deck e), (Single.count e); split; [| split].
      + rewrite single_eta; reflexivity.
      + unfold Py.len in Hge; lia.
      + exact Hc. }
  destruct Hpre as (d1 & c1 & Epre & Hl1 & Hc1).
  set (e1 := Single.with_count c1 (Single.with_deck d1 e)) in *.
  assert (Hpos : 0 < Py.len d1) by (unfold Py.len; lia).
  pose proof (rs_randint_range g 0 (Py.len d1) Hpos) as Hi.
  destruct (pop_in_range d1 _ Hi) as (card & Epop & Hnth).
  set (i := fst (rs_randint g 0 (Py.len d1))) in *.
  exists card, (snd (rs_randint g 0 (Py.len d1))),
    (Py.remove_nth (Z.to_nat i) d1), c1.
  split; [| split; [| split]].
  - unfold Single.draw_card.
    rewrite (bind_Ok _ _ (g, e) e (g, e)) by reflexivity.
    rewrite (bind_Ok _ _ (g, e) e (g, e)) in Epre by reflexivity.
    rewrite (bind_Ok _ _ _ _ _ Epre).
    rewrite (bind_Ok _ _ (g, e1) e1 (g, e1)) by reflexivity.
    change (Single.deck e1) with d1.
    rewrite (bind_Ok _ _ (g, e1) i
               (snd (rs_randint g 0 (Py.len d1)), e1)).
    + unfold Single.deck_pop.
      rewrite (bind_Ok _ _ _ e1 _) by reflexivity.
      change (Single.deck e1) with d1.
      unfold bind, lift; rewrite Epop; reflexivity.
    + unfold Single.np_random_randint; cbn [fst snd].
      destruct (Z.ltb_spec 0 (Py.len d1)); [reflexivity | lia].
  - apply nth_error_In in Hnth.
    apply (fresh_deck_ranks (Single.num_decks e)), cnt_In.
    apply cnt_In in Hnth; specialize (Hc1 card); lia.
  - pose proof (remove_nth_length _ _ _ Hnth) as Hl.
    intros Hnil; rewrite Hnil in Hl; cbn in Hl; lia.
  - intros r; specialize (Hc1 r).
    pose proof (remove_nth_cnt _ _ _ Hnth r); lia.
Qed.

Lemma single_eta_dealer (e : Single.Env G) :
  Single.with_dealer (Single.dealer e ++ [])
    (Single.with_count (Single.count e) (Single.with_deck (Single.deck e) e))
  = e.
Proof. rewrite app_nil_r; destruct e; reflexivity. Qed.

(** The play-out of the dealer returns: at most [17 - sum(dealer)] cards
    are drawn, each while the total was below 17, and the total is 17 or
    more at the end. *)
Lemma single_dealer_play_eq (fuel : nat) :
  forall (g : G) e,
    Single.consistent e = true ->
    Single.dealer e <> [] ->
    (length (Single.player e) + 18
     <= length (fresh_deck (Single.num_decks e)))%nat ->
    2 <= Single.shuffle_on e ->
    Single.deck e <> [] ->
    (Z.to_nat (17 - Py.sum (Single.dealer e)) <= fuel)%nat ->
    exists g' drawn d' c',
      Single.dealer_play fuel (g, e)
      = (Ok tt,
         (g', Single.with_dealer (Single.dealer e ++ drawn)
                (Single.with_count c' (Single.with_deck d' e)))) /\
      d' <> [] /\
      17 <= sum_hand (Single.dealer e ++ drawn) /\
      (forall k, (k < length drawn)%nat ->
         sum_hand (Single.dealer e ++ firstn k drawn) < 17) /\
      (length drawn <= Z.to_nat (17 - Py.sum (Single.dealer e)))%nat.
Proof.
  induction fuel as [| fuel IH]; intros g e Hcons Hne Hlen Hshuf Hdeck Hfuel.
  - (* no fuel is needed: the total is 17 already *)
    assert (Hsum : 17 <= sum_hand (Single.dealer e)).
    { pose proof (sum_hand_ge_sum (Single.dealer e)); lia. }
    exists g, [], (Single.deck e), (Single.count e).
    rewrite single_eta_dealer, app_nil_r.
    split; [| split; [| split; [| split]]]; try assumption.
    + cbn [Single.dealer_play].
      rewrite (bind_Ok _ _ (g, e) e (g, e)) by reflexivity.
      destruct (Z.ltb_spec (sum_hand (Single.dealer e)) 17);
        [lia | reflexivity].
    + intros k Hk; cbn in Hk; lia.
    + cbn; lia.
  - cbn [Single.dealer_play].
    rewrite (bind_Ok _ _ (g, e) e (g, e)) by reflexivity.
    destruct (Z.ltb_spec (sum_hand (Single.dealer e)) 17) as [Hlt | Hge].
    2:{ exists g, [], (Single.deck e), (Single.count e).
        rewrite single_eta_dealer, app_nil_r.
        split; [reflexivity |].
        split; [assumption |]. split; [assumption |].
        split; [intros k Hk; cbn in Hk; lia | cbn; lia]. }
    pose proof (proj1 (single_consistent_spec e) Hcons) as Hc.
    assert (Hranks : forall x, In x (Single.dealer e) -> 1 <= x).
    { intros x Hx.
      apply (fits_shoe_ranks _ (Single.num_decks e) x Hcons).
      apply in_or_app; right; apply in_or_app; left; assumption. }
    pose proof (sum_ge_length _ Hranks) as Hsl.
    pose proof (sum_hand_ge_sum (Single.dealer e)) as Hss.
    unfold Py.len in Hsl.
    destruct (single_draw_card_eq (Single.np_random e) g e)
      as (card & g1 & d1 & c1 & Edraw & Hcard & Hd1 & Hc1);
      try assumption; [lia |].
    destruct (halves_rank card Hcard) as (h & Hh).
    set (e1 := Single.with_count c1 (Single.with_deck d1 e)) in *.
    set (e2 := Single.with_count (Single.count e1 + h)%Q e1).
    set (e3 := Single.with_dealer (Single.dealer e2 ++ [card]) e2).
    destruct (IH g1 e3) as (g' & drawn & d' & c' & E & Hd' & H17 & Hpre & Hn).
    { apply single_consistent_spec; intros r; specialize (Hc1 r).
      change (Single.player e3) with (Single.player e).
      change (Single.dealer e3) with (Single.dealer e ++ [card]).
      change (Single.deck e3) with d1.
      change (Single.num_decks e3) with (Single.num_decks e).
      rewrite cnt_app, cnt_cons; unfold cnt at 3; cbn [count_occ]; lia. }
    { change (Single.dealer e3) with (Single.dealer e ++ [card]).
      intros Hnil; apply app_eq_nil in Hnil; destruct Hnil; discriminate. }
    { assumption. }
    { assumption. }
    { assumption. }
    { change (Single.dealer e3) with (Single.dealer e ++ [card]).
      rewrite sum_app, sum_cons; change (Py.sum []) with 0; lia. }
    change (Single.dealer e3) with (Single.dealer e ++ [card]) in *.
    rewrite <- app_assoc in E, H17; cbn [app] in E, H17.
    exists g', (card :: drawn), d', c'.
    split; [| split; [| split; [| split]]]; try assumption.
    + rewrite (bind_Ok _ _ _ _ _ Edraw).
      rewrite (bind_Ok _ _ _ _ _ (single_count_card_eq card h g1 e1 Hh)).
      rewrite (bind_Ok _ _ (g1, e2) tt (g1, e3)) by reflexivity.
      exact E.
    + intros [| k] Hk.
      * cbn [firstn]; rewrite app_nil_r; assumption.
      * cbn [firstn]; cbn [length] in Hk.
        specialize (Hpre k ltac:(lia)).
        rewrite <- app_assoc in Hpre; exact Hpre.
    + cbn [length].
      rewrite sum_app, sum_cons in Hn; change (Py.sum []) with 0 in Hn.
      lia.
Qed.

(** STAND from a state whose cards fit the shoe returns, with these
    results. *)
Lemma single_stand_returns (fuel : nat) (g : G) (e : Single.Env G) :
  Single.consistent e = true ->
  (2 <= length (Single.dealer e))%nat ->
  (length (Single.player e) + 18
   <= length (fresh_deck (Single.num_decks e)))%nat ->
  2 <= Single.shuffle_on e ->
  Single.deck e <> [] ->
  (Z.to_nat (17 - Py.sum (Single.dealer e)) <= fuel)%nat ->
  exists obs reward g' e' drawn,
    Single.step fuel 0 (g, e) = (Ok (obs, reward, true), (g', e')) /\
    Single.done e' = true /\
    Single.player e' = Single.player e /\
    Single.dealer e' = Single.dealer e ++ drawn /\
    (length drawn <= 17)%nat /\
    (forall k, (k < length drawn)%nat ->
       sum_hand (Single.dealer e ++ firstn k drawn) < 17) /\
    17 <= sum_hand (Single.dealer e') /\
    (reward ==
     if Single.natural e && is_natural (Single.player e)
        && (score (Single.player e) >? score (Single.dealer e'))
     then 3 # 2
     else three_way (score (Single.player e)) (score (Single.dealer e')))%Q.
Proof.
  intros Hcons Hdealer Hlen Hshuf Hdeck Hfuel.
  destruct (Single.dealer e) as [| shown [| hole rest]] eqn:Edealer;
    try (cbn in Hdealer; lia).
  assert (Hhole : 1 <= hole <= 10).
  { apply (fits_shoe_ranks _ (Single.num_decks e) hole Hcons).
    apply in_or_app; right; apply in_or_app; left.
    rewrite Edealer; right; left; reflexivity. }
  destruct (halves_rank hole Hhole) as (h & Hh).
  set (e1 := Single.with_done true e).
  set (e2 := Single.with_count (Single.count e1 + h)%Q e1).
  assert (Hsum : 0 <= Py.sum (Single.dealer e2)).
  { assert (Hr : forall x, In x (Single.dealer e) -> 1 <= x).
    { intros x Hx.
      apply (fits_shoe_ranks _ (Single.num_decks e) x Hcons).
      apply in_or_app; right; apply in_or_app; left; assumption. }
    pose proof (sum_ge_length _ Hr) as Hs; unfold Py.len in Hs.
    change (Single.dealer e2) with (Single.dealer e); lia. }
  destruct (single_dealer_play_eq fuel g e2)
    as (g' & drawn & d' & c' & Eplay & Hd' & H17 & Hpre & Hn);
    try assumption.
  { change (Single.dealer e2) with (Single.dealer e).
    rewrite Edealer; discriminate. }
  { change (Single.dealer e2) with (Single.dealer e).
    rewrite Edealer; exact Hfuel. }
  change (Single.dealer e2) with (Single.dealer e) in *.
  set (e3 := Single.with_dealer (Single.dealer e ++ drawn)
               (Single.with_count c' (Single.with_deck d' e2))) in *.
  set (reward := cmp (score (Single.player e3)) (score (Single.dealer e3))).
  set (obs := (sum_hand (Single.player e3), shown,
               usable_ace (Single.player e3),
               (Single.count e3
                / inject_Z (Py.ceil_div52 (Py.len (Single.deck e3))))%Q)).
  exists obs,
    (if Single.natural e3 && is_natural (Single.player e3)
        && Qeq_bool reward 1
     then (3 # 2)%Q else reward),
    g', e3, drawn.
  split; [| split; [| split; [| split; [| split; [| split; [| split]]]]]].
  - unfold Single.step; cbn [discrete_contains Z.leb Z.ltb Z.compare andb
                              negb Z.eqb].
    rewrite (bind_Ok _ _ (g, e)
               (if Single.natural e3 && is_natural (Single.player e3)
                   && Qeq_bool reward 1
                then (3 # 2)%Q else reward) (g', e3)).
    + rewrite (bind_Ok _ _ (g', e3) obs (g', e3)); [reflexivity |].
      unfold Single._get_obs.
      rewrite (bind_Ok _ _ (g', e3) e3 (g', e3)) by reflexivity.
      rewrite (bind_Ok _ _ (g', e3) shown (g', e3)).
      * change (Single.deck e3) with d'.
        cbv zeta; rewrite (ceil_div52_pos d' Hd'); reflexivity.
      * change (Single.dealer e3) with (Single.dealer e ++ drawn).
        rewrite Edealer; reflexivity.
    + rewrite (bind_Ok _ _ (g, e) tt (g, e1)) by reflexivity.
      rewrite (bind_Ok _ _ (g, e1) tt (g, e2)).
      * rewrite (bind_Ok _ _ _ _ _ Eplay).
        rewrite (bind_Ok _ _ (g', e3) e3 (g', e3)) by reflexivity.
        fold reward.
        destruct (Single.natural e3 && is_natural (Single.player e3)
                  && Qeq_bool reward 1); reflexivity.
      * unfold Single.count_dealer_item.
        rewrite (bind_Ok _ _ (g, e1) e1 (g, e1)) by reflexivity.
        rewrite (bind_Ok _ _ (g, e1) hole (g, e1)).
        -- apply (single_count_card_eq hole h g e1 Hh).
        -- change (Single.dealer e1) with (Single.dealer e).
           rewrite Edealer; reflexivity.
  - reflexivity.
  - reflexivity.
  - rewrite <- Edealer; reflexivity.
  - lia.
  - rewrite <- Edealer; exact Hpre.
  - exact H17.
  - change (Single.natural e3) with (Single.natural e).
    change (Single.player e3) with (Single.player e).
    unfold reward; rewrite cmp_win.
    change (Single.player e3) with (Single.player e).
    destruct (Single.natural e && is_natural (Single.player e)
              && (score (Single.player e) >? score (Single.dealer e3)));
      [reflexivity | apply cmp_three_way].
Qed.

(** One pass of the dealer's loop, in any state: the card drawn is a rank
    of the table, and the dealer's hand is as before until it is appended. *)
Lemma single_loop_body rng card (w w1 w2 : Single.World G) u :
  Single.draw_card rng w = (Ok card, w1) ->
  Single.count_card card w1 = (Ok u, w2) ->
  1 <= card <= 10 /\ Single.dealer (snd w2) = Single.dealer (snd w).
Proof.
  intros Ed Ec; split.
  - unfold Single.count_card, bind, lift in Ec.
    destruct (halves card) as [h | x |] eqn:Hh; try discriminate.
    apply (halves_Ok_rank card h Hh).
  - rewrite (preserves_eq _ _ _ _ _
               (single_count_card_frame Single.dealer
                  (fun _ _ => eq_refl) card) Ec).
    apply (preserves_eq _ _ _ _ _
             (single_draw_card_frame Single.dealer
                (fun _ _ => eq_refl) (fun _ _ => eq_refl) rng) Ed).
Qed.

(** In any state the dealer's loop ends, by a return or by an exception,
    within [17 - sum(dealer)] passes. *)
Lemma single_dealer_play_terminates (fuel : nat) :
  forall w : Single.World G,
    (Z.to_nat (17 - Py.sum (Single.dealer (snd w))) <= fuel)%nat ->
    fst (Single.dealer_play fuel w) <> OutOfFuel.
Proof.
  induction fuel as [| fuel IH]; intros w Hfuel.
  - cbn [Single.dealer_play]; unfold bind, Single.get_self; cbn [fst snd].
    pose proof (sum_hand_ge_sum (Single.dealer (snd w))).
    destruct (Z.ltb_spec (sum_hand (Single.dealer (snd w))) 17);
      [lia | discriminate].
  - cbn [Single.dealer_play]; unfold bind at 1, Single.get_self;
      cbn [fst snd].
    pose proof (sum_hand_ge_sum (Single.dealer (snd w))).
    destruct (Z.ltb_spec (sum_hand (Single.dealer (snd w))) 17);
      [| discriminate].
    unfold bind at 1.
    pose proof (single_draw_card_terminates
                  (Single.np_random (snd w)) w) as Hd.
    destruct (Single.draw_card (Single.np_random (snd w)) w)
      as [[card | x |] w1] eqn:Ed; [| discriminate | contradiction].
    unfold bind at 1.
    pose proof (single_count_card_terminates card w1) as Hc.
    destruct (Single.count_card card w1) as [[u | x |] w2] eqn:Ec;
      [| discriminate | contradiction].
    destruct (single_loop_body _ _ _ _ _ _ Ed Ec) as [Hcard Hdealer].
    unfold bind at 1, Single.modify_self; cbn [fst snd].
    apply IH; cbn [snd Single.with_dealer Single.dealer].
    rewrite Hdealer, sum_app, sum_cons; change (Py.sum []) with 0; lia.
Qed.

(** In any state, when the dealer's loop returns: cards were appended to
    the dealer's hand, each while its total was below 17, and the total is
    17 or more. *)
Lemma single_dealer_play_post (fuel : nat) :
  forall (w w' : Single.World G) u,
    Single.dealer_play fuel w = (Ok u, w') ->
    exists drawn,
      Single.dealer (snd w') = Single.dealer (snd w) ++ drawn /\
      17 <= sum_hand (Single.dealer (snd w')) /\
      (forall k, (k < length drawn)%nat ->
         sum_hand (Single.dealer (snd w) ++ firstn k drawn) < 17) /\
      (length drawn <= fuel)%nat.
Proof.
  induction fuel as [| fuel IH]; intros w w' u E.
  - cbn [Single.dealer_play] in E; unfold bind, Single.get_self in E;
      cbn [fst snd] in E.
    destruct (Z.ltb_spec (sum_hand (Single.dealer (snd w))) 17);
      [discriminate |].
    inversion E; subst; exists []; rewrite app_nil_r.
    split; [reflexivity | split; [assumption | split; [| cbn; lia]]].
    intros k Hk; cbn in Hk; lia.
  - cbn [Single.dealer_play] in E; unfold bind at 1, Single.get_self in E;
      cbn [fst snd] in E.
    destruct (Z.ltb_spec (sum_hand (Single.dealer (snd w))) 17) as [Hlt | Hge].
    2:{ inversion E; subst; exists []; rewrite app_nil_r.
        split; [reflexivity | split; [assumption | split; [| cbn; lia]]].
        intros k Hk; cbn in Hk; lia. }
    apply bind_inv_Ok in E; destruct E as (card & w1 & Ed & E).
    apply bind_inv_Ok in E; destruct E as (u1 & w2 & Ec & E).
    apply bind_inv_Ok in E; destruct E as (u2 & w3 & Em & E).
    destruct (single_loop_body _ _ _ _ _ _ Ed Ec) as [Hcard Hdealer].
    unfold Single.modify_self in Em; inversion Em; subst w3; clear Em.
    destruct (IH _ _ _ E) as (drawn & Hd & H17 & Hpre & Hlen).
    cbn [snd Single.with_dealer Single.dealer] in Hd, Hpre.
    rewrite Hdealer in Hd, Hpre.
    exists (card :: drawn); split; [| split; [| split]].
    + rewrite Hd, <- app_assoc; reflexivity.
    + exact H17.
    + intros [| k] Hk.
      * cbn [firstn]; rewrite app_nil_r; assumption.
      * cbn [firstn]; cbn [length] in Hk.
        specialize (Hpre k ltac:(lia)).
        rewrite <- app_assoc in Hpre; exact Hpre.
    + cbn [length]; lia.
Qed.

(** C9.  STAND in the single-hand environment, with fuel for
    [17 - sum(dealer)] passes of the dealer's loop.  In every state the
    step ends (it returns or raises).  In every state, when it returns, the
    dealer has drawn finitely many cards, each while the dealer's total was
    below 17, the total is 17 or more, the round is terminal, and the
    reward is the three-way comparison of the player's score with the
    dealer's, replaced by 1.5 when the natural flag is set, the player holds
    a natural and the comparison is a win.  From every state whose cards
    fit the shoe, it does return. *)
Theorem single_stand_plays_out (fuel : nat) (g : G) (e : Single.Env G) :
  (Z.to_nat (17 - Py.sum (Single.dealer e)) <= fuel)%nat ->
  fst (Single.step fuel 0 (g, e)) <> OutOfFuel /\
  (forall obs reward terminal w',
     Single.step fuel 0 (g, e) = (Ok (obs, reward, terminal), w') ->
     terminal = true /\
     Single.done (snd w') = true /\
     Single.player (snd w') = Single.player e /\
     (exists drawn,
        Single.dealer (snd w') = Single.dealer e ++ drawn /\
        (length drawn <= fuel)%nat /\
        forall k, (k < length drawn)%nat ->
          sum_hand (Single.dealer e ++ firstn k drawn) < 17) /\
     17 <= sum_hand (Single.dealer (snd w')) /\
     (reward ==
      if Single.natural e && is_natural (Single.player e)
         && (score (Single.player e) >? score (Single.dealer (snd w')))
      then 3 # 2
      else three_way (score (Single.player e))
             (score (Single.dealer (snd w'))))%Q) /\
  (Single.consistent e = true ->
   (2 <= length (Single.dealer e))%nat ->
   (length (Single.player e) + 18
    <= length (fresh_deck (Single.num_decks e)))%nat ->
   2 <= Single.shuffle_on e ->
   Single.deck e <> [] ->
   exists result w', Single.step fuel 0 (g, e) = (Ok result, w')).
Proof.
  intros Hfuel; split; [| split].
  - (* the step ends *)
    unfold Single.step; cbn [discrete_contains Z.leb Z.ltb Z.compare andb
                             negb Z.eqb].
    apply bind_ends.
    + apply bind_ends; [discriminate | intros u1 w1 E1].
      unfold Single.modify_self in E1; inversion E1; subst; clear E1.
      apply bind_ends;
        [apply single_count_dealer_item_terminates | intros u2 w2 E2].
      apply bind_ends.
      * apply single_dealer_play_terminates.
        rewrite (preserves_eq _ _ _ _ _
                   (single_count_dealer_item_frame Single.dealer
                      (fun _ _ => eq_refl) 1) E2).
        exact Hfuel.
      * intros u3 w3 E3.
        unfold bind, Single.get_self; cbn [fst snd].
        destruct (_ && _ && _); discriminate.
    + intros reward w1 _.
      apply terminates_bind; [apply single_get_obs_terminates | intros obs].
      intros w; discriminate.
  - (* what it returns *)
    intros obs reward terminal w' E.
    unfold Single.step in E;
      cbn [discrete_contains Z.leb Z.ltb Z.compare andb negb Z.eqb] in E.
    apply bind_inv_Ok in E; destruct E as (r & w4 & Er & E).
    apply bind_inv_Ok in Er; destruct Er as (u1 & w1 & E1 & Er).
    apply bind_inv_Ok in Er; destruct Er as (u2 & w2 & E2 & Er).
    apply bind_inv_Ok in Er; destruct Er as (u3 & w3 & E3 & Er).
    apply bind_inv_Ok in E; destruct E as (obs' & w5 & Eo & E).
    unfold Single.modify_self in E1; inversion E1; subst w1; clear E1.
    pose proof (single_get_obs_pure w4) as Hpure.
    rewrite Eo in Hpure; cbn [snd] in Hpure; subst w5.
    unfold bind, Single.get_self, ret in E; cbn [fst snd] in E.
    inversion E; subst obs' r terminal w'; clear E.
    (* the frame of the two methods in between *)
    assert (F2 : Single.dealer (snd w2) = Single.dealer e /\
                 Single.player (snd w2) = Single.player e /\
                 Single.natural (snd w2) = Single.natural e /\
                 Single.done (snd w2) = true).
    { repeat split;
        match goal with
        | |- ?f (snd w2) = _ =>
            rewrite (preserves_eq _ _ _ _ _
                       (single_count_dealer_item_frame f
                          (fun _ _ => eq_refl) 1) E2); reflexivity
        end. }
    destruct F2 as (F2d & F2p & F2n & F2done).
    assert (F3 : Single.player (snd w3) = Single.player e /\
                 Single.natural (snd w3) = Single.natural e /\
                 Single.done (snd w3) = true).
    { rewrite <- F2p, <- F2n, <- F2done; repeat split;
        match goal with
        | |- ?f (snd w3) = _ =>
            apply (preserves_eq _ _ _ _ _
                     (single_dealer_play_frame f
                        (fun _ _ => eq_refl) (fun _ _ => eq_refl) fuel
                        (fun _ _ => eq_refl)) E3)
        end. }
    destruct F3 as (F3p & F3n & F3done).
    destruct (single_dealer_play_post fuel _ _ _ E3)
      as (drawn & Hd & H17 & Hpre & Hlen).
    rewrite F2d in Hd, Hpre.
    set (c := cmp (score (Single.player e))
                (score (Single.dealer (snd w3)))) in *.
    set (win := Single.natural e && is_natural (Single.player e)
                && Qeq_bool c 1).
    assert (Hw4 : w4 = w3 /\ reward = if win then (3 # 2)%Q else c).
    { unfold bind, Single.get_self in Er; cbn [fst snd] in Er.
      rewrite F3p, F3n in Er; fold c win in Er.
      destruct win; inversion Er; subst; split; reflexivity. }
    destruct Hw4 as [-> ->].
    split; [exact F3done |].
    split; [exact F3done |].
    split; [exact F3p |].
    split; [exists drawn; repeat split; assumption |].
    split; [exact H17 |].
    unfold win, c; rewrite cmp_win.
    destruct (Single.natural e && is_natural (Single.player e)
              && (score (Single.player e)
                  >? score (Single.dealer (snd w3))));
      [reflexivity | apply cmp_three_way].
  - (* it returns *)
    intros Hcons Hdealer Hlen Hshuf Hdeck.
    destruct (single_stand_returns fuel g e Hcons Hdealer Hlen Hshuf Hdeck
                Hfuel)
      as (obs & reward & g' & e' & drawn & Hstep & _).
    exists (obs, reward, true), (g', e'); exact Hstep.
Qed.

End SinglePlay.

(** ** The shoe of the split environment *)

Section SplitShoe.

Context {G : Type} `{RandomState G}.

Lemma split_count_card_eq card h (g : G) e :
  halves card = Ok h ->
  Split.count_card card (g, e)
  = (Ok tt, (g, Split.with_count (Split.count e + h)%Q e)).
Proof.
  intros Hh; unfold Split.count_card, bind, lift; rewrite Hh; reflexivity.
Qed.

Lemma split_remove_card_eq card (g : G) e :
  In card (Split.deck e) ->
  exists d',
    Split.remove_card card (g, e) = (Ok tt, (g, Split.with_deck d' e)) /\
    S (length d') = length (Split.deck e) /\
    forall r, ((if Z.eq_dec card r then 1 else 0) + cnt d' r
               = cnt (Split.deck e) r)%nat.
Proof.
  intros Hin.
  destruct (index_In card (Split.deck e) Hin) as (i & Ei & Hi).
  exists (Py.remove_nth i (Split.deck e)); split; [| split].
  - unfold Split.remove_card, Split.deck_pop, bind, Split.get_self, lift.
    cbn [snd fst]; rewrite Ei, (pop_nth _ _ _ Hi); reflexivity.
  - apply (remove_nth_length _ _ _ Hi).
  - apply remove_nth_cnt; assumption.
Qed.

Lemma split_eta (e : Split.Env G) :
  Split.with_count (Split.count e) (Split.with_deck (Split.deck e) e)
  = e.
Proof. destruct e; reflexivity. Qed.

Lemma split_remove_count_loop (hand : list Z) :
  forall (g : G) e,
    (forall r, (cnt hand r <= cnt (Split.deck e) r)%nat) ->
    (forall x, In x hand -> 1 <= x <= 10) ->
    exists d' c',
      for_each hand
        (fun card => Split.remove_card card ;; Split.count_card card)
        (g, e)
      = (Ok tt, (g, Split.with_count c' (Split.with_deck d' e))) /\
      (length hand + length d' = length (Split.deck e))%nat /\
      forall r, (cnt hand r + cnt d' r = cnt (Split.deck e) r)%nat.
Proof.
  induction hand as [| x hand IH]; intros g e Hfit Hranks.
  - exists (Split.deck e), (Split.count e); split; [| split].
    + cbn; rewrite split_eta; reflexivity.
    + reflexivity.
    + intros r; reflexivity.
  - assert (Hin : In x (Split.deck e)).
    { apply cnt_In; specialize (Hfit x); rewrite cnt_cons in Hfit.
      destruct (Z.eq_dec x x); [lia | contradiction]. }
    destruct (split_remove_card_eq x g e Hin) as (d1 & E1 & Hl1 & Hd1).
    destruct (halves_rank x (Hranks x (or_introl eq_refl))) as (h & Hh).
    set (e1 := Split.with_count (Split.count e + h)%Q
                 (Split.with_deck d1 e)).
    destruct (IH g e1) as (d' & c' & E & Hl' & Hd').
    { intros r; change (Split.deck e1) with d1.
      specialize (Hfit r); specialize (Hd1 r).
      rewrite cnt_cons in Hfit; lia. }
    { intros y Hy; apply Hranks; right; assumption. }
    exists d', c'; split; [| split].
    + cbn [for_each].
      rewrite (bind_Ok _ _ (g, e) tt (g, e1)).
      * rewrite E; reflexivity.
      * rewrite (bind_Ok _ _ _ _ _ E1).
        apply (split_count_card_eq x h g (Split.with_deck d1 e) Hh).
    + change (Split.deck e1) with d1 in Hl'; cbn [length]; lia.
    + intros r; specialize (Hd' r); specialize (Hd1 r).
      change (Split.deck e1) with d1 in Hd'.
      rewrite cnt_cons; lia.
Qed.

Lemma split_remove_loop (hand : list Z) :
  forall (g : G) e,
    (forall r, (cnt hand r <= cnt (Split.deck e) r)%nat) ->
    exists d',
      for_each hand Split.remove_card (g, e)
      = (Ok tt, (g, Split.with_deck d' e)) /\
      (length hand + length d' = length (Split.deck e))%nat /\
      forall r, (cnt hand r + cnt d' r = cnt (Split.deck e) r)%nat.
Proof.
  induction hand as [| x hand IH]; intros g e Hfit.
  - exists (Split.deck e); split; [| split].
    + cbn; destruct e; reflexivity.
    + reflexivity.
    + intros r; reflexivity.
  - assert (Hin : In x (Split.deck e)).
    { apply cnt_In; specialize (Hfit x); rewrite cnt_cons in Hfit.
      destruct (Z.eq_dec x x); [lia | contradiction]. }
    destruct (split_remove_card_eq x g e Hin) as (d1 & E1 & Hl1 & Hd1).
    destruct (IH g (Split.with_deck d1 e)) as (d' & E & Hl' & Hd').
    { intros r; cbn [Split.deck Split.with_deck].
      specialize (Hfit r); specialize (Hd1 r).
      rewrite cnt_cons in Hfit; lia. }
    exists d'; split; [| split].
    + cbn [for_each]; rewrite (bind_Ok _ _ _ _ _ E1), E; reflexivity.
    + cbn [Split.deck Split.with_deck] in Hl'; cbn [length]; lia.
    + intros r; specialize (Hd' r); specialize (Hd1 r).
      cbn [Split.deck Split.with_deck] in Hd'.
      rewrite cnt_cons; lia.
Qed.

Lemma split_count_loop (hand : list Z) :
  forall (g : G) e,
    (forall x, In x hand -> 1 <= x <= 10) ->
    exists c',
      for_each hand Split.count_card (g, e)
      = (Ok tt, (g, Split.with_count c' e)).
Proof.
  induction hand as [| x hand IH]; intros g e Hranks.
  - exists (Split.count e); cbn; destruct e; reflexivity.
  - destruct (halves_rank x (Hranks x (or_introl eq_refl))) as (h & Hh).
    destruct (IH g (Split.with_count (Split.count e + h)%Q e))
      as (c' & E).
    { intros y Hy; apply Hranks; right; assumption. }
    exists c'; cbn [for_each].
    rewrite (bind_Ok _ _ _ _ _ (split_count_card_eq x h g e Hh)), E.
    reflexivity.
Qed.

(** The invariant of [Split.consistent], rank by rank. *)
Lemma split_consistent_spec (e : Split.Env G) :
  Split.consistent e = true <->
  forall r,
    (cnt (Split.player_left e ++ Split.player_right e) r + cnt (Split.dealer e) r
     + cnt (Split.deck e) r
     <= cnt (fresh_deck (Split.num_decks e)) r)%nat.
Proof.
  unfold Split.consistent; rewrite fits_shoe_spec.
  split; intros Hc r; specialize (Hc r); rewrite !cnt_app in *; lia.
Qed.

Lemma split_reshuffle_eq (g : G) e :
  (forall r, (cnt (Split.player_left e ++ Split.player_right e) r
              + cnt (Split.dealer e) r
              <= cnt (fresh_deck (Split.num_decks e)) r)%nat) ->
  Split.dealer e <> [] ->
  exists d' c',
    Split.reshuffle (g, e)
    = (Ok tt, (g, Split.with_count c' (Split.with_deck d' e))) /\
    (length (Split.player_left e ++ Split.player_right e)
     + length (Split.dealer e) + length d'
     = length (fresh_deck (Split.num_decks e)))%nat /\
    forall r, (cnt (Split.player_left e ++ Split.player_right e) r
               + cnt (Split.dealer e) r + cnt d' r
               = cnt (fresh_deck (Split.num_decks e)) r)%nat.
Proof.
  intros Hfit Hne.
  set (fresh := fresh_deck (Split.num_decks e)) in *.
  assert (Hranks : forall x,
            In x (Split.player_left e) \/ In x (Split.player_right e)
            \/ In x (Split.dealer e) ->
            1 <= x <= 10).
  { intros x Hx; apply (fresh_deck_ranks (Split.num_decks e)), cnt_In.
    specialize (Hfit x); fold fresh; rewrite cnt_app in Hfit.
    destruct Hx as [Hx | [Hx | Hx]]; apply cnt_In in Hx; lia. }
  set (e1 := Split.with_count 0%Q (Split.with_deck fresh e)).
  destruct (split_remove_count_loop (Split.player_left e) g e1)
    as (d1 & c1 & E1 & L1 & C1).
  { intros r; specialize (Hfit r); rewrite cnt_app in Hfit.
    change (Split.deck e1) with fresh; lia. }
  { intros x Hx; apply Hranks; left; assumption. }
  change (Split.deck e1) with fresh in L1, C1.
  set (e2 := Split.with_count c1 (Split.with_deck d1 e1)) in *.
  destruct (split_remove_count_loop (Split.player_right e) g e2)
    as (d1' & c1' & E1' & L1' & C1').
  { intros r; specialize (Hfit r); specialize (C1 r).
    rewrite cnt_app in Hfit; change (Split.deck e2) with d1; lia. }
  { intros x Hx; apply Hranks; right; left; assumption. }
  change (Split.deck e2) with d1 in L1', C1'.
  set (e2' := Split.with_count c1' (Split.with_deck d1' e2)) in *.
  destruct (split_remove_loop (Split.dealer e) g e2')
    as (d2 & E2 & L2 & C2).
  { intros r; specialize (Hfit r); specialize (C1 r); specialize (C1' r).
    rewrite cnt_app in Hfit; change (Split.deck e2') with d1'; lia. }
  change (Split.deck e2') with d1' in L2, C2.
  set (e3 := Split.with_deck d2 e2') in *.
  destruct (split_count_loop (Py.but_last (Split.dealer e)) g e3)
    as (c3 & E3).
  { intros x Hx; apply Hranks; right; right; apply but_last_In.
    assumption. }
  set (e4 := Split.with_count c3 e3) in *.
  destruct (last_item_In (Split.dealer e) Hne) as (hole & Ehole & Hhole).
  destruct (halves_rank hole (Hranks hole (or_intror (or_intror Hhole))))
    as (h & Hh).
  exists d2,
    (if Split.done_left e && Split.done_right e then (c3 + h)%Q else c3).
  split; [| split].
  - unfold Split.reshuffle.
    rewrite (bind_Ok _ _ (g, e) tt (g, Split.with_deck fresh e))
      by reflexivity.
    rewrite (bind_Ok _ _ _ tt (g, e1)) by reflexivity.
    rewrite (bind_Ok _ _ (g, e1) e1 (g, e1)) by reflexivity.
    rewrite (bind_Ok _ _ _ _ _ E1).
    rewrite (bind_Ok _ _ (g, e2) e2 (g, e2)) by reflexivity.
    rewrite (bind_Ok _ _ _ _ _ E1').
    rewrite (bind_Ok _ _ (g, e2') e2' (g, e2')) by reflexivity.
    rewrite (bind_Ok _ _ _ _ _ E2).
    rewrite (bind_Ok _ _ (g, e3) e3 (g, e3)) by reflexivity.
    rewrite (bind_Ok _ _ _ _ _ E3).
    rewrite (bind_Ok _ _ (g, e4) e4 (g, e4)) by reflexivity.
    change (Split.done_left e4) with (Split.done_left e).
    change (Split.done_right e4) with (Split.done_right e).
    destruct (Split.done_left e && Split.done_right e); [| reflexivity].
    rewrite (bind_Ok _ _ (g, e4) e4 (g, e4)) by reflexivity.
    change (Split.dealer e4) with (Split.dealer e).
    rewrite (bind_Ok _ _ (g, e4) hole (g, e4))
      by (unfold lift; rewrite Ehole; reflexivity).
    rewrite (split_count_card_eq hole h g e4 Hh); reflexivity.
  - rewrite length_app; lia.
  - intros r; specialize (C1 r); specialize (C1' r); specialize (C2 r).
    rewrite cnt_app; lia.
Qed.

End SplitShoe.

(** ** Drawing and the dealer's play-out, split environment *)

Section SplitPlay.

Context {G : Type} `{RandomState G} `{!RandomStateInRange G}.

(** A draw from a consistent state returns a card of the table and leaves
    a consistent state with the card out of the shoe. *)
Lemma split_draw_card_eq (rng g : G) e :
  Split.consistent e = true ->
  Split.dealer e <> [] ->
  (length (Split.player_left e ++ Split.player_right e) + length (Split.dealer e) + 2
   <= length (fresh_deck (Split.num_decks e)))%nat ->
  2 <= Split.shuffle_on e ->
  exists card g' d' c',
    Split.draw_card rng (g, e)
    = (Ok card, (g', Split.with_count c' (Split.with_deck d' e))) /\
    1 <= card <= 10 /\
    d' <> [] /\
    forall r,
      (cnt (Split.player_left e ++ Split.player_right e) r + cnt (Split.dealer e) r
       + (if Z.eq_dec card r then 1 else 0) + cnt d' r
       <= cnt (fresh_deck (Split.num_decks e)) r)%nat.
Proof.
  intros Hcons Hne Hlen Hshuf.
  pose proof (proj1 (split_consistent_spec e) Hcons) as Hc.
  (* the state in which the index is drawn *)
  assert (Hpre : exists d1 c1,
    (self <- Split.get_self ;;
     if Py.len (Split.deck self) <? Split.shuffle_on self
     then Split.reshuffle else ret tt) (g, e)
    = (Ok tt, (g, Split.with_count c1 (Split.with_deck d1 e))) /\
    (2 <= length d1)%nat /\
    forall r,
      (cnt (Split.player_left e ++ Split.player_right e) r + cnt (Split.dealer e) r + cnt d1 r
       <= cnt (fresh_deck (Split.num_decks e)) r)%nat).
  { rewrite (bind_Ok _ _ (g, e) e (g, e)) by reflexivity.
    destruct (Z.ltb_spec (Py.len (Split.deck e)) (Split.shuffle_on e))
      as [Hlt | Hge].
    - destruct (split_reshuffle_eq g e) as (d1 & c1 & E & L & C);
        [intros r; specialize (Hc r); lia | assumption |].
      exists d1, c1; split; [exact E | split; [lia |]].
      intros r; specialize (C r); lia.
    - exists (Split.deck e), (Split.count e); split; [| split].
      + rewrite split_eta; reflexivity.
      + unfold Py.len in Hge; lia.
      + exact Hc. }
  destruct Hpre as (d1 & c1 & Epre & Hl1 & Hc1).
  set (e1 := Split.with_count c1 (Split.with_deck d1 e)) in *.
  assert (Hpos : 0 < Py.len d1) by (unfold Py.len; lia).
  pose proof (rs_randint_range g 0 (Py.len d1) Hpos) as Hi.
  destruct (pop_in_range d1 _ Hi) as (card & Epop & Hnth).
  set (i := fst (rs_randint g 0 (Py.len d1))) in *.
  exists card, (snd (rs_randint g 0 (Py.len d1))),
    (Py.remove_nth (Z.to_nat i) d1), c1.
  split; [| split; [| split]].
  - unfold Split.draw_card.
    rewrite (bind_Ok _ _ (g, e) e (g, e)) by reflexivity.
    rewrite (bind_Ok _ _ (g, e) e (g, e)) in Epre by reflexivity.
    rewrite (bind_Ok _ _ _ _ _ Epre).
    rewrite (bind_Ok _ _ (g, e1) e1 (g, e1)) by reflexivity.
    change (Split.deck e1) with d1.
    rewrite (bind_Ok _ _ (g, e1) i
               (snd (rs_randint g 0 (Py.len d1)), e1)).
    + unfold Split.deck_pop.
      rewrite (bind_Ok _ _ _ e1 _) by reflexivity.
      change (Split.deck e1) with d1.
      unfold bind, lift; rewrite Epop; reflexivity.
    + unfold Split.np_random_randint; cbn [fst snd].
      destruct (Z.ltb_spec 0 (Py.len d1)); [reflexivity | lia].
  - apply nth_error_In in Hnth.
    apply (fresh_deck_ranks (Split.num_decks e)), cnt_In.
    apply cnt_In in Hnth; specialize (Hc1 card); lia.
  - pose proof (remove_nth_length _ _ _ Hnth) as Hl.
    intros Hnil; rewrite Hnil in Hl; cbn in Hl; lia.
  - intros r; specialize (Hc1 r).
    pose proof (remove_nth_cnt _ _ _ Hnth r); lia.
Qed.

Lemma split_eta_dealer (e : Split.Env G) :
  Split.with_dealer (Split.dealer e ++ [])
    (Split.with_count (Split.count e) (Split.with_deck (Split.deck e) e))
  = e.
Proof. rewrite app_nil_r; destruct e; reflexivity. Qed.

(** The play-out of the dealer returns: at most [17 - sum(dealer)] cards
    are drawn, each while the total was below 17, and the total is 17 or
    more at the end. *)
Lemma split_dealer_play_eq (fuel : nat) :
  forall (g : G) e,
    Split.consistent e = true ->
    Split.dealer e <> [] ->
    (length (Split.player_left e ++ Split.player_right e) + 18
     <= length (fresh_deck (Split.num_decks e)))%nat ->
    2 <= Split.shuffle_on e ->
    Split.deck e <> [] ->
    (Z.to_nat (17 - Py.sum (Split.dealer e)) <= fuel)%nat ->
    exists g' drawn d' c',
      Split.dealer_play fuel (g, e)
      = (Ok tt,
         (g', Split.with_dealer (Split.dealer e ++ drawn)
                (Split.with_count c' (Split.with_deck d' e)))) /\
      d' <> [] /\
      17 <= sum_hand (Split.dealer e ++ drawn) /\
      (forall k, (k < length drawn)%nat ->
         sum_hand (Split.dealer e ++ firstn k drawn) < 17) /\
      (length drawn <= Z.to_nat (17 - Py.sum (Split.dealer e)))%nat.
Proof.
  induction fuel as [| fuel IH]; intros g e Hcons Hne Hlen Hshuf Hdeck Hfuel.
  - (* no fuel is needed: the total is 17 already *)
    assert (Hsum : 17 <= sum_hand (Split.dealer e)).
    { pose proof (sum_hand_ge_sum (Split.dealer e)); lia. }
    exists g, [], (Split.deck e), (Split.count e).
    rewrite split_eta_dealer, app_nil_r.
    split; [| split; [| split; [| split]]]; try assumption.
    + cbn [Split.dealer_play].
      rewrite (bind_Ok _ _ (g, e) e (g, e)) by reflexivity.
      destruct (Z.ltb_spec (sum_hand (Split.dealer e)) 17);
        [lia | reflexivity].
    + intros k Hk; cbn in Hk; lia.
    + cbn; lia.
  - cbn [Split.dealer_play].
    rewrite (bind_Ok _ _ (g, e) e (g, e)) by reflexivity.
    destruct (Z.ltb_spec (sum_hand (Split.dealer e)) 17) as [Hlt | Hge].
    2:{ exists g, [], (Split.deck e), (Split.count e).
        rewrite split_eta_dealer, app_nil_r.
        split; [reflexivity |].
        split; [assumption |]. split; [assumption |].
        split; [intros k Hk; cbn in Hk; lia | cbn; lia]. }
    pose proof (proj1 (split_consistent_spec e) Hcons) as Hc.
    assert (Hranks : forall x, In x (Split.dealer e) -> 1 <= x).
    { intros x Hx.
      apply (fits_shoe_ranks _ (Split.num_decks e) x Hcons).
      apply in_or_app; right; apply in_or_app; right.
      apply in_or_app; left; assumption. }
    pose proof (sum_ge_length _ Hranks) as Hsl.
    pose proof (sum_hand_ge_sum (Split.dealer e)) as Hss.
    unfold Py.len in Hsl.
    destruct (split_draw_card_eq (Split.np_random e) g e)
      as (card & g1 & d1 & c1 & Edraw & Hcard & Hd1 & Hc1);
      try assumption; [lia |].
    destruct (halves_rank card Hcard) as (h & Hh).
    set (e1 := Split.with_count c1 (Split.with_deck d1 e)) in *.
    set (e2 := Split.with_count (Split.count e1 + h)%Q e1).
    set (e3 := Split.with_dealer (Split.dealer e2 ++ [card]) e2).
    destruct (IH g1 e3) as (g' & drawn & d' & c' & E & Hd' & H17 & Hpre & Hn).
    { apply split_consistent_spec; intros r; specialize (Hc1 r).
      change (Split.player_left e3) with (Split.player_left e).
      change (Split.player_right e3) with (Split.player_right e).
      change (Split.dealer e3) with (Split.dealer e ++ [card]).
      change (Split.deck e3) with d1.
      change (Split.num_decks e3) with (Split.num_decks e).
      rewrite !cnt_app, cnt_cons; rewrite ?cnt_app in Hc1.
      change (cnt [] r) with 0%nat; lia. }
    { change (Split.dealer e3) with (Split.dealer e ++ [card]).
      intros Hnil; apply app_eq_nil in Hnil; destruct Hnil; discriminate. }
    { assumption. }
    { assumption. }
    { assumption. }
    { change (Split.dealer e3) with (Split.dealer e ++ [card]).
      rewrite sum_app, sum_cons; change (Py.sum []) with 0; lia. }
    change (Split.dealer e3) with (Split.dealer e ++ [card]) in *.
    rewrite <- app_assoc in E, H17; cbn [app] in E, H17.
    exists g', (card :: drawn), d', c'.
    split; [| split; [| split; [| split]]]; try assumption.
    + rewrite (bind_Ok _ _ _ _ _ Edraw).
      rewrite (bind_Ok _ _ _ _ _ (split_count_card_eq card h g1 e1 Hh)).
      rewrite (bind_Ok _ _ (g1, e2) tt (g1, e3)) by reflexivity.
      exact E.
    + intros [| k] Hk.
      * cbn [firstn]; rewrite app_nil_r; assumption.
      * cbn [firstn]; cbn [length] in Hk.
        specialize (Hpre k ltac:(lia)).
        rewrite <- app_assoc in Hpre; exact Hpre.
    + cbn [length].
      rewrite sum_app, sum_cons in Hn; change (Py.sum []) with 0 in Hn.
      lia.
Qed.


(** DOUBLE on the right hand from a state whose cards fit the shoe returns,
    with these results. *)
Lemma split_double_on_right_returns (fuel : nat) (g : G) (e : Split.Env G) :
  Split.done_left e = true ->
  Split.done_right e = false ->
  3 <= Split.action_space_n e ->
  Split.consistent e = true ->
  (2 <= length (Split.dealer e))%nat ->
  (length (Split.player_left e ++ Split.player_right e)
   + length (Split.dealer e) + 19
   <= length (fresh_deck (Split.num_decks e)))%nat ->
  2 <= Split.shuffle_on e ->
  (Z.to_nat (17 - Py.sum (Split.dealer e)) <= fuel)%nat ->
  exists card drawn obs g' e',
    Split.step fuel 2 (g, e)
    = (Ok (obs, (Split.reward_left e' + Split.reward_right e')%Q, true),
       (g', e')) /\
    Split.player_right e' = Split.player_right e ++ [card] /\
    Split.player_left e' = Split.player_left e /\
    Split.done_left e' = true /\
    Split.done_right e' = true /\
    Split.dealer e' = Split.dealer e ++ drawn /\
    (length drawn <= 17)%nat /\
    (forall k, (k < length drawn)%nat ->
       sum_hand (Split.dealer e ++ firstn k drawn) < 17) /\
    17 <= sum_hand (Split.dealer e') /\
    (Split.reward_left e' ==
     2 * three_way (score (Split.player_left e))
           (score (Split.dealer e')))%Q /\
    (Split.reward_right e' ==
     2 * three_way (score (Split.player_right e ++ [card]))
           (score (Split.dealer e')))%Q /\
    exists g1 e1 e2 e3 hole h,
      Split.hit_right (g, e) = (Ok tt, (g1, e1)) /\
      nth_error (Split.dealer e) 1 = Some hole /\
      halves hole = Ok h /\
      Split.count e2 = (Split.count e1 + h)%Q /\
      Split.dealer_play fuel (g1, e2) = (Ok tt, (g', e3)) /\
      Split.count e' = Split.count e3.
Proof.
  intros Hleft Hright Hn Hcons Hdealer Hlen Hshuf Hfuel.
  pose proof (proj1 (split_consistent_spec e) Hcons) as Hc.
  assert (Hdr : forall x, In x (Split.dealer e) -> 1 <= x <= 10).
  { intros x Hx.
    apply (fits_shoe_ranks _ (Split.num_decks e) x Hcons).
    apply in_or_app; right; apply in_or_app; right.
    apply in_or_app; left; assumption. }
  assert (Hitems : exists shown hole,
            nth_error (Split.dealer e) 0 = Some shown /\
            nth_error (Split.dealer e) 1 = Some hole).
  { destruct (Split.dealer e) as [| shown [| hole rest]];
      try (cbn in Hdealer; lia).
    exists shown, hole; split; reflexivity. }
  destruct Hitems as (shown & hole & Hshown & Ehole).
  assert (Hhole : 1 <= hole <= 10)
    by (apply Hdr; apply (nth_error_In _ _ Ehole)).
  destruct (halves_rank hole Hhole) as (h & Hh).
  assert (Hsum : 0 <= Py.sum (Split.dealer e)).
  { pose proof (sum_ge_length (Split.dealer e)) as Hs.
    unfold Py.len in Hs.
    assert (Z.of_nat (length (Split.dealer e)) <= Py.sum (Split.dealer e))
      by (apply Hs; intros x Hx; apply Hdr; assumption).
    lia. }
  assert (Hne : Split.dealer e <> [])
    by (intros E; rewrite E in Hdealer; cbn in Hdealer; lia).
  (* the hit *)
  destruct (split_draw_card_eq (Split.np_random e) g e)
    as (card & g1 & d1 & c1 & Edraw & Hcard & Hd1 & Hc1); try assumption.
  { lia. }
  destruct (halves_rank card Hcard) as (hc & Hhc).
  set (e1 := Split.with_count c1 (Split.with_deck d1 e)) in *.
  set (e2 := Split.with_count (Split.count e1 + hc)%Q e1).
  set (e3 := Split.with_player_right (Split.player_right e2 ++ [card]) e2).
  assert (Ehit : Split.hit_right (g, e) = (Ok tt, (g1, e3))).
  { unfold Split.hit_right.
    rewrite (bind_Ok _ _ (g, e) e (g, e)) by reflexivity.
    rewrite (bind_Ok _ _ _ _ _ Edraw).
    rewrite (bind_Ok _ _ _ _ _ (split_count_card_eq card hc g1 e1 Hhc)).
    reflexivity. }
  set (e4 := Split.with_done_right true e3).
  set (bust := is_bust (Split.player_right e4)).
  set (e5 := if bust then Split.with_reward_right (-2)%Q e4 else e4).
  assert (Hframe5 :
    Split.player_left e5 = Split.player_left e /\
    Split.player_right e5 = Split.player_right e ++ [card] /\
    Split.dealer e5 = Split.dealer e /\
    Split.deck e5 = d1 /\
    Split.num_decks e5 = Split.num_decks e /\
    Split.shuffle_on e5 = Split.shuffle_on e /\
    Split.done_left e5 = true /\
    Split.done_right e5 = true /\
    Split.count e5 = (Split.count e3)).
  { unfold e5; destruct bust; cbn; rewrite Hleft; repeat split. }
  destruct Hframe5 as (F5l & F5r & F5d & F5k & F5n & F5s & F5dl & F5dr & F5c).
  set (e6 := Split.with_count (Split.count e5 + h)%Q e5).
  destruct (split_dealer_play_eq fuel g1 e6)
    as (g' & drawn & d' & c' & Eplay & Hd' & H17 & Hpre & Hcnt).
  { apply split_consistent_spec; intros r; specialize (Hc1 r).
    change (Split.player_left e6) with (Split.player_left e5).
    change (Split.player_right e6) with (Split.player_right e5).
    change (Split.dealer e6) with (Split.dealer e5).
    change (Split.deck e6) with (Split.deck e5).
    change (Split.num_decks e6) with (Split.num_decks e5).
    rewrite F5l, F5r, F5d, F5k, F5n.
    rewrite !cnt_app, cnt_cons; rewrite cnt_app in Hc1.
    change (cnt [] r) with 0%nat; lia. }
  { change (Split.dealer e6) with (Split.dealer e5); rewrite F5d.
    assumption. }
  { change (Split.player_left e6) with (Split.player_left e5).
    change (Split.player_right e6) with (Split.player_right e5).
    change (Split.num_decks e6) with (Split.num_decks e5).
    rewrite F5l, F5r, F5n.
    rewrite !length_app in *; cbn [length]; lia. }
  { change (Split.shuffle_on e6) with (Split.shuffle_on e5).
    rewrite F5s; assumption. }
  { change (Split.deck e6) with (Split.deck e5); rewrite F5k; assumption. }
  { change (Split.dealer e6) with (Split.dealer e5); rewrite F5d; lia. }
  change (Split.dealer e6) with (Split.dealer e5) in *.
  rewrite F5d in *.
  set (e7 := Split.with_dealer (Split.dealer e ++ drawn)
               (Split.with_count c' (Split.with_deck d' e6))) in *.
  set (e8 := Split.with_reward_left
               (2 * cmp (score (Split.player_left e7))
                      (score (Split.dealer e7)))%Q e7).
  set (e9 := Split.with_reward_right
               (2 * cmp (score (Split.player_right e8))
                      (score (Split.dealer e8)))%Q e8).
  assert (Hshown9 : Py.item 0 (Split.dealer e9) = Ok shown).
  { change (Split.dealer e9) with (Split.dealer e ++ drawn).
    unfold Py.item; rewrite nth_error_app1, Hshown; [reflexivity |].
    apply nth_error_Some; congruence. }
  set (obs := (sum_hand (Split.player_left e9),
               usable_ace (Split.player_left e9),
               sum_hand (Split.player_right e9),
               usable_ace (Split.player_right e9),
               shown, Split.split_possible e9,
               (Split.count e9
                / inject_Z (Py.ceil_div52 (Py.len (Split.deck e9))))%Q)).
  assert (Eobs : Split._get_obs (g', e9) = (Ok obs, (g', e9))).
  { unfold Split._get_obs.
    rewrite (bind_Ok _ _ (g', e9) e9 (g', e9)) by reflexivity.
    rewrite (bind_Ok _ _ (g', e9) shown (g', e9))
      by (unfold lift; rewrite Hshown9; reflexivity).
    change (Split.deck e9) with d'.
    cbv zeta; rewrite (ceil_div52_pos d' Hd'); reflexivity. }
  assert (E7l : Split.player_left e7 = Split.player_left e)
    by (change (Split.player_left e7) with (Split.player_left e5);
        assumption).
  assert (E7r : Split.player_right e7 = Split.player_right e ++ [card])
    by (change (Split.player_right e7) with (Split.player_right e5);
        assumption).
  assert (Estep : Split.step_double fuel (g, e) = (Ok tt, (g', e9))).
  { unfold Split.step_double.
    rewrite (bind_Ok _ _ (g, e) e (g, e)) by reflexivity.
    rewrite Hleft, Hright; cbn [negb].
    rewrite (bind_Ok _ _ _ _ _ Ehit).
    rewrite (bind_Ok _ _ (g1, e3) tt (g1, e4)) by reflexivity.
    rewrite (bind_Ok _ _ (g1, e4) e4 (g1, e4)) by reflexivity.
    rewrite (bind_Ok _ _ (g1, e4) tt (g1, e5))
      by (unfold e5; fold bust; destruct bust; reflexivity).
    rewrite (bind_Ok _ _ (g1, e5) tt (g1, e6)).
    - rewrite (bind_Ok _ _ _ _ _ Eplay).
      rewrite (bind_Ok _ _ (g', e7) tt (g', e8)) by reflexivity.
      reflexivity.
    - unfold Split.count_dealer_item.
      rewrite (bind_Ok _ _ (g1, e5) e5 (g1, e5)) by reflexivity.
      rewrite (bind_Ok _ _ (g1, e5) hole (g1, e5)).
      + apply (split_count_card_eq hole h g1 e5 Hh).
      + unfold lift, Py.item; rewrite F5d, Ehole; reflexivity. }
  exists card, drawn, obs, g', e9.
  split; [| repeat split].
  - unfold Split.step.
    rewrite (bind_Ok _ _ (g, e) e (g, e)) by reflexivity.
    assert (Hcontains : discrete_contains (Split.action_space_n e) 2
                        = true).
    { unfold discrete_contains; apply andb_true_iff; split;
        [reflexivity | apply Z.ltb_lt; lia]. }
    rewrite Hcontains; cbn [negb Z.eqb Pos.eqb].
    rewrite (bind_Ok _ _ _ _ _ Estep).
    rewrite (bind_Ok _ _ _ _ _ Eobs).
    rewrite (bind_Ok _ _ (g', e9) e9 (g', e9)) by reflexivity.
    unfold ret.
    change (Split.done_left e9) with (Split.done_left e5).
    change (Split.done_right e9) with (Split.done_right e5).
    rewrite F5dl, F5dr; reflexivity.
  - change (Split.player_right e9) with (Split.player_right e5); assumption.
  - change (Split.player_left e9) with (Split.player_left e5); assumption.
  - change (Split.done_left e9) with (Split.done_left e5); assumption.
  - change (Split.done_right e9) with (Split.done_right e5); assumption.
  - lia.
  - exact Hpre.
  - exact H17.
  - change (Split.reward_left e9)
      with (2 * cmp (score (Split.player_left e7))
                  (score (Split.dealer e7)))%Q.
    rewrite E7l, cmp_three_way; reflexivity.
  - change (Split.reward_right e9)
      with (2 * cmp (score (Split.player_right e7))
                  (score (Split.dealer e7)))%Q.
    rewrite E7r, cmp_three_way; reflexivity.
  - exists g1, e3, e6, e7, hole, h.
    repeat split; try assumption.
    change (Split.count e6) with (Split.count e5 + h)%Q.
    rewrite F5c; reflexivity.
Qed.

(** One pass of the dealer's loop, in any state: the card drawn is a rank
    of the table, and the dealer's hand is as before until it is appended. *)
Lemma split_loop_body rng card (w w1 w2 : Split.World G) u :
  Split.draw_card rng w = (Ok card, w1) ->
  Split.count_card card w1 = (Ok u, w2) ->
  1 <= card <= 10 /\ Split.dealer (snd w2) = Split.dealer (snd w).
Proof.
  intros Ed Ec; split.
  - unfold Split.count_card, bind, lift in Ec.
    destruct (halves card) as [h | x |] eqn:Hh; try discriminate.
    apply (halves_Ok_rank card h Hh).
  - rewrite (preserves_eq _ _ _ _ _
               (split_count_card_frame Split.dealer
                  (fun _ _ => eq_refl) card) Ec).
    apply (preserves_eq _ _ _ _ _
             (split_draw_card_frame Split.dealer
                (fun _ _ => eq_refl) (fun _ _ => eq_refl) rng) Ed).
Qed.

(** In any state the dealer's loop ends, by a return or by an exception,
    within [17 - sum(dealer)] passes. *)
Lemma split_dealer_play_terminates (fuel : nat) :
  forall w : Split.World G,
    (Z.to_nat (17 - Py.sum (Split.dealer (snd w))) <= fuel)%nat ->
    fst (Split.dealer_play fuel w) <> OutOfFuel.
Proof.
  induction fuel as [| fuel IH]; intros w Hfuel.
  - cbn [Split.dealer_play]; unfold bind, Split.get_self; cbn [fst snd].
    pose proof (sum_hand_ge_sum (Split.dealer (snd w))).
    destruct (Z.ltb_spec (sum_hand (Split.dealer (snd w))) 17);
      [lia | discriminate].
  - cbn [Split.dealer_play]; unfold bind at 1, Split.get_self;
      cbn [fst snd].
    pose proof (sum_hand_ge_sum (Split.dealer (snd w))).
    destruct (Z.ltb_spec (sum_hand (Split.dealer (snd w))) 17);
      [| discriminate].
    unfold bind at 1.
    pose proof (split_draw_card_terminates
                  (Split.np_random (snd w)) w) as Hd.
    destruct (Split.draw_card (Split.np_random (snd w)) w)
      as [[card | x |] w1] eqn:Ed; [| discriminate | contradiction].
    unfold bind at 1.
    pose proof (split_count_card_terminates card w1) as Hc.
    destruct (Split.count_card card w1) as [[u | x |] w2] eqn:Ec;
      [| discriminate | contradiction].
    destruct (split_loop_body _ _ _ _ _ _ Ed Ec) as [Hcard Hdealer].
    unfold bind at 1, Split.modify_self; cbn [fst snd].
    apply IH; cbn [snd Split.with_dealer Split.dealer].
    rewrite Hdealer, sum_app, sum_cons; change (Py.sum []) with 0; lia.
Qed.

(** In any state, when the dealer's loop returns: cards were appended to
    the dealer's hand, each while its total was below 17, and the total is
    17 or more. *)
Lemma split_dealer_play_post (fuel : nat) :
  forall (w w' : Split.World G) u,
    Split.dealer_play fuel w = (Ok u, w') ->
    exists drawn,
      Split.dealer (snd w') = Split.dealer (snd w) ++ drawn /\
      17 <= sum_hand (Split.dealer (snd w')) /\
      (forall k, (k < length drawn)%nat ->
         sum_hand (Split.dealer (snd w) ++ firstn k drawn) < 17) /\
      (length drawn <= fuel)%nat.
Proof.
  induction fuel as [| fuel IH]; intros w w' u E.
  - cbn [Split.dealer_play] in E; unfold bind, Split.get_self in E;
      cbn [fst snd] in E.
    destruct (Z.ltb_spec (sum_hand (Split.dealer (snd w))) 17);
      [discriminate |].
    inversion E; subst; exists []; rewrite app_nil_r.
    split; [reflexivity | split; [assumption | split; [| cbn; lia]]].
    intros k Hk; cbn in Hk; lia.
  - cbn [Split.dealer_play] in E; unfold bind at 1, Split.get_self in E;
      cbn [fst snd] in E.
    destruct (Z.ltb_spec (sum_hand (Split.dealer (snd w))) 17) as [Hlt | Hge].
    2:{ inversion E; subst; exists []; rewrite app_nil_r.
        split; [reflexivity | split; [assumption | split; [| cbn; lia]]].
        intros k Hk; cbn in Hk; lia. }
    apply bind_inv_Ok in E; destruct E as (card & w1 & Ed & E).
    apply bind_inv_Ok in E; destruct E as (u1 & w2 & Ec & E).
    apply bind_inv_Ok in E; destruct E as (u2 & w3 & Em & E).
    destruct (split_loop_body _ _ _ _ _ _ Ed Ec) as [Hcard Hdealer].
    unfold Split.modify_self in Em; inversion Em; subst w3; clear Em.
    destruct (IH _ _ _ E) as (drawn & Hd & H17 & Hpre & Hlen).
    cbn [snd Split.with_dealer Split.dealer] in Hd, Hpre.
    rewrite Hdealer in Hd, Hpre.
    exists (card :: drawn); split; [| split; [| split]].
    + rewrite Hd, <- app_assoc; reflexivity.
    + exact H17.
    + intros [| k] Hk.
      * cbn [firstn]; rewrite app_nil_r; assumption.
      * cbn [firstn]; cbn [length] in Hk.
        specialize (Hpre k ltac:(lia)).
        rewrite <- app_assoc in Hpre; exact Hpre.
    + cbn [length]; lia.
Qed.

(** What HIT on the right hand leaves, in any state. *)
Lemma split_hit_right_post (w w1 : Split.World G) u :
  Split.hit_right w = (Ok u, w1) ->
  exists card,
    Split.player_right (snd w1) = Split.player_right (snd w) ++ [card].
Proof.
  intros E; unfold Split.hit_right in E.
  apply bind_inv_Ok in E; destruct E as (self & w0 & Eg & E).
  unfold Split.get_self in Eg; inversion Eg; subst self w0; clear Eg.
  apply bind_inv_Ok in E; destruct E as (card & wa & Ed & E).
  apply bind_inv_Ok in E; destruct E as (u1 & wb & Ec & E).
  unfold Split.modify_self in E; inversion E; subst; clear E.
  exists card; cbn [snd Split.with_player_right Split.player_right].
  rewrite (preserves_eq _ _ _ _ _
             (split_count_card_frame Split.player_right
                (fun _ _ => eq_refl) card) Ec).
  rewrite (preserves_eq _ _ _ _ _
             (split_draw_card_frame Split.player_right
                (fun _ _ => eq_refl) (fun _ _ => eq_refl) _) Ed).
  reflexivity.
Qed.

(** What counting a card of the dealer leaves, in any state. *)
Lemma split_count_dealer_item_post i (w w1 : Split.World G) u :
  Split.count_dealer_item i w = (Ok u, w1) ->
  exists card h,
    nth_error (Split.dealer (snd w)) i = Some card /\
    halves card = Ok h /\
    Split.count (snd w1) = (Split.count (snd w) + h)%Q.
Proof.
  intros E; unfold Split.count_dealer_item, Split.count_card in E.
  unfold bind, Split.get_self, lift, Py.item in E; cbn [fst snd] in E.
  destruct (nth_error (Split.dealer (snd w)) i) as [card |] eqn:En;
    [| discriminate].
  destruct (halves card) as [h | x |] eqn:Hh; try discriminate.
  unfold Split.modify_self in E; inversion E; subst; clear E.
  exists card, h; split; [reflexivity | split; [exact Hh | reflexivity]].
Qed.

(** C6.  DOUBLE when the left hand is done and the right hand is not, with
    fuel for [17 - sum(dealer)] passes of the dealer's loop.  In every such
    state the step ends (it returns or raises).  In every such state, when
    it returns: exactly one card has been drawn into the right hand, which
    is done; the hole card's weight was added to the counter and the dealer
    has played out (cards drawn while the total was below 17, total 17 or
    more at the end), whatever the hands; the left and the right reward are
    each 2 times the three-way comparison of that hand's score with the
    dealer's; the value returned is their sum, with the terminal flag true.
    From every such state whose cards fit the shoe, it does return. *)
Theorem split_double_on_right (fuel : nat) (g : G) (e : Split.Env G) :
  Split.done_left e = true ->
  Split.done_right e = false ->
  (Z.to_nat (17 - Py.sum (Split.dealer e)) <= fuel)%nat ->
  fst (Split.step fuel 2 (g, e)) <> OutOfFuel /\
  (forall obs reward terminal w',
     Split.step fuel 2 (g, e) = (Ok (obs, reward, terminal), w') ->
     terminal = true /\
     Split.done_left (snd w') = true /\
     Split.done_right (snd w') = true /\
     Split.player_left (snd w') = Split.player_left e /\
     (exists card,
        Split.player_right (snd w') = Split.player_right e ++ [card]) /\
     (exists drawn,
        Split.dealer (snd w') = Split.dealer e ++ drawn /\
        (length drawn <= fuel)%nat /\
        forall k, (k < length drawn)%nat ->
          sum_hand (Split.dealer e ++ firstn k drawn) < 17) /\
     17 <= sum_hand (Split.dealer (snd w')) /\
     (Split.reward_left (snd w') ==
      2 * three_way (score (Split.player_left (snd w')))
            (score (Split.dealer (snd w'))))%Q /\
     (Split.reward_right (snd w') ==
      2 * three_way (score (Split.player_right (snd w')))
            (score (Split.dealer (snd w'))))%Q /\
     reward
     = (Split.reward_left (snd w') + Split.reward_right (snd w'))%Q /\
     (exists w1 w2 w3 hole h,
        Split.hit_right (g, e) = (Ok tt, w1) /\
        nth_error (Split.dealer e) 1 = Some hole /\
        halves hole = Ok h /\
        Split.count (snd w2) = (Split.count (snd w1) + h)%Q /\
        Split.dealer_play fuel w2 = (Ok tt, w3) /\
        Split.count (snd w') = Split.count (snd w3))) /\
  (3 <= Split.action_space_n e ->
   Split.consistent e = true ->
   (2 <= length (Split.dealer e))%nat ->
   (length (Split.player_left e ++ Split.player_right e)
    + length (Split.dealer e) + 19
    <= length (fresh_deck (Split.num_decks e)))%nat ->
   2 <= Split.shuffle_on e ->
   exists result w', Split.step fuel 2 (g, e) = (Ok result, w')).
Proof.
  intros Hleft Hright Hfuel; split; [| split].
  - (* the step ends *)
    unfold Split.step.
    rewrite (bind_Ok _ _ (g, e) e (g, e)) by reflexivity.
    destruct (negb (discrete_contains (Split.action_space_n e) 2));
      [discriminate |].
    cbn [Z.eqb Pos.eqb].
    apply bind_ends.
    + unfold Split.step_double.
      rewrite (bind_Ok _ _ (g, e) e (g, e)) by reflexivity.
      rewrite Hleft, Hright; cbn [negb].
      apply bind_ends;
        [apply split_hit_right_terminates | intros u1 w1 Ehit].
      apply bind_ends; [discriminate | intros u2 w2 Em].
      apply bind_ends; [discriminate | intros self w2' Eg].
      apply bind_ends;
        [destruct (is_bust _); discriminate | intros u3 w3 Eb].
      apply bind_ends;
        [apply split_count_dealer_item_terminates | intros u4 w4 Ec].
      apply bind_ends.
      * apply split_dealer_play_terminates.
        rewrite (preserves_eq _ _ _ _ _
                   (split_count_dealer_item_frame Split.dealer
                      (fun _ _ => eq_refl) 1) Ec).
        assert (Hd3 : Split.dealer (snd w3) = Split.dealer (snd w1)).
        { unfold Split.modify_self in Em; inversion Em; subst w2.
          unfold Split.get_self in Eg; inversion Eg; subst self w2'.
          destruct (is_bust _); inversion Eb; subst w3; reflexivity. }
        rewrite Hd3.
        rewrite (preserves_eq _ _ _ _ _
                   (split_hit_right_frame Split.dealer
                      (fun _ _ => eq_refl) (fun _ _ => eq_refl)
                      (fun _ _ => eq_refl)) Ehit).
        exact Hfuel.
      * intros u5 w5 Ep.
        apply bind_ends; [discriminate | intros u6 w6 El; discriminate].
    + intros u w9 _.
      apply terminates_bind; [apply split_get_obs_terminates | intros obs].
      intros w; discriminate.
  - intros obs reward terminal w' E.
    unfold Split.step in E.
    rewrite (bind_Ok _ _ (g, e) e (g, e)) in E by reflexivity.
    destruct (negb (discrete_contains (Split.action_space_n e) 2));
      [discriminate |].
    cbn [Z.eqb Pos.eqb] in E.
    apply bind_inv_Ok in E; destruct E as (u & w9 & Ed & E).
    apply bind_inv_Ok in E; destruct E as (obs' & w10 & Eo & E).
    pose proof (split_get_obs_pure w9) as Hpure.
    rewrite Eo in Hpure; cbn [snd] in Hpure; subst w10.
    unfold bind, Split.get_self, ret in E; cbn [fst snd] in E.
    inversion E; subst obs' reward terminal w'; clear E.
    unfold Split.step_double in Ed.
    rewrite (bind_Ok _ _ (g, e) e (g, e)) in Ed by reflexivity.
    rewrite Hleft, Hright in Ed; cbn [negb] in Ed.
    apply bind_inv_Ok in Ed; destruct Ed as (u1 & w1 & Ehit & Ed).
    apply bind_inv_Ok in Ed; destruct Ed as (u2 & w2 & Em & Ed).
    apply bind_inv_Ok in Ed; destruct Ed as (self & w2' & Eg & Ed).
    apply bind_inv_Ok in Ed; destruct Ed as (u3 & w3 & Eb & Ed).
    apply bind_inv_Ok in Ed; destruct Ed as (u4 & w4 & Ec & Ed).
    apply bind_inv_Ok in Ed; destruct Ed as (u5 & w5 & Ep & Ed).
    apply bind_inv_Ok in Ed; destruct Ed as (u6 & w6 & El & Er).
    destruct u1, u5.
    (* the states passed through *)
    unfold Split.modify_self in Em; inversion Em; subst w2; clear Em.
    unfold Split.get_self in Eg; inversion Eg; subst self w2'; clear Eg.
    cbn [snd] in Eb.
    unfold Split.settle_left_doubled, Split.modify_self in El.
    inversion El; subst w6; clear El.
    unfold Split.settle_right_doubled, Split.modify_self in Er.
    inversion Er; subst w9; clear Er.
    cbn [snd fst Split.done_left Split.done_right Split.player_left
         Split.player_right Split.dealer Split.reward_left Split.reward_right
         Split.count Split.with_reward_left Split.with_reward_right].
    destruct (split_hit_right_post _ _ _ Ehit) as (card & Hcard).
    cbn [snd] in Hcard.
    pose proof (preserves_eq _ _ _ _ _
                  (split_hit_right_frame
                     (fun x => (Split.player_left x, Split.dealer x,
                                Split.done_left x))
                     (fun _ _ => eq_refl) (fun _ _ => eq_refl)
                     (fun _ _ => eq_refl)) Ehit) as F1.
    cbn [snd] in F1; injection F1 as F1l F1d F1dl; rewrite Hleft in F1dl.
    assert (F3 : Split.player_left (snd w3) = Split.player_left e /\
                 Split.player_right (snd w3) = Split.player_right e ++ [card]
                 /\ Split.dealer (snd w3) = Split.dealer e /\
                 Split.done_left (snd w3) = true /\
                 Split.done_right (snd w3) = true /\
                 Split.count (snd w3) = Split.count (snd w1)).
    { destruct (is_bust _); inversion Eb; subst w3;
        cbn [snd Split.with_reward_right Split.with_done_right
             Split.player_left Split.player_right Split.dealer
             Split.done_left Split.done_right Split.count];
        repeat split; assumption. }
    destruct F3 as (F3l & F3r & F3d & F3dl & F3dr & F3c).
    destruct (split_count_dealer_item_post _ _ _ _ Ec)
      as (hole & h & Hhole & Hh & Hcount).
    rewrite F3d in Hhole; rewrite F3c in Hcount.
    pose proof (preserves_eq _ _ _ _ _
                  (split_count_dealer_item_frame
                     (fun x => (Split.player_left x, Split.player_right x,
                                Split.dealer x, Split.done_left x,
                                Split.done_right x))
                     (fun _ _ => eq_refl) 1) Ec) as F4.
    cbn [snd] in F4; injection F4 as F4l F4r F4d F4dl F4dr.
    rewrite F3l in F4l; rewrite F3r in F4r; rewrite F3d in F4d.
    rewrite F3dl in F4dl; rewrite F3dr in F4dr.
    pose proof (preserves_eq _ _ _ _ _
                  (split_dealer_play_frame
                     (fun x => (Split.player_left x, Split.player_right x,
                                Split.done_left x, Split.done_right x))
                     (fun _ _ => eq_refl) (fun _ _ => eq_refl)
                     (fun _ _ => eq_refl) fuel) Ep) as F5.
    cbn [snd] in F5; injection F5 as F5l F5r F5dl F5dr.
    rewrite F4l in F5l; rewrite F4r in F5r.
    rewrite F4dl in F5dl; rewrite F4dr in F5dr.
    destruct (split_dealer_play_post fuel _ _ _ Ep)
      as (drawn & Hd & H17 & Hpre & Hlen).
    rewrite F4d in Hd, Hpre.
    rewrite F5dl, F5dr.
    split; [reflexivity |].
    split; [reflexivity |].
    split; [reflexivity |].
    split; [exact F5l |].
    split; [exists card; exact F5r |].
    split; [exists drawn; repeat split; assumption |].
    split; [exact H17 |].
    split; [rewrite cmp_three_way; reflexivity |].
    split; [rewrite cmp_three_way; reflexivity |].
    split; [reflexivity |].
    exists w1, w4, w5, hole, h.
    repeat split; assumption.
  - (* it returns *)
    intros Hn Hcons Hdealer Hlen Hshuf.
    destruct (split_double_on_right_returns fuel g e Hleft Hright Hn Hcons
                Hdealer Hlen Hshuf Hfuel)
      as (card & drawn & obs & g' & e' & Hstep & _).
    exists (obs, (Split.reward_left e' + Split.reward_right e')%Q, true),
      (g', e'); exact Hstep.
Qed.

End SplitPlay.

(** * Further properties of the code *)

(** ** The module-level functions *)

Section HandFacts.

Lemma list_eqb_eq (l1 l2 : list Z) : Py.list_eqb l1 l2 = true <-> l1 = l2.
Proof.
  revert l2; induction l1 as [| x l1 IH]; intros [| y l2]; cbn;
    try (split; [discriminate | discriminate]).
  - split; reflexivity.
  - rewrite andb_true_iff, Z.eqb_eq, IH; split.
    + intros [-> ->]; reflexivity.
    + intros E; inversion E; auto.
Qed.

Lemma insert_sorted_length (x : Z) (l : list Z) :
  length (Py.insert_sorted x l) = S (length l).
Proof.
  induction l as [| y l IH]; cbn; [reflexivity |].
  destruct (x <=? y); cbn; [reflexivity | rewrite IH; reflexivity].
Qed.

Lemma sorted_length (l : list Z) : length (Py.sorted l) = length l.
Proof.
  unfold Py.sorted; induction l as [| x l IH]; cbn [fold_right length];
    [reflexivity |].
  rewrite insert_sorted_length, IH; reflexivity.
Qed.

(** X1.  [is_natural]: exactly the two-card hands ace-ten and ten-ace; such a
    hand has a usable ace and totals 21. *)
Theorem is_natural_spec (hand : list Z) :
  (is_natural hand = true <-> hand = [1; 10] \/ hand = [10; 1]) /\
  (is_natural hand = true ->
   usable_ace hand = true /\ sum_hand hand = 21 /\ score hand = 21).
Proof.
  assert (Hiff : is_natural hand = true <-> hand = [1; 10] \/ hand = [10; 1]).
  { unfold is_natural; rewrite list_eqb_eq; split.
    - intros E.
      pose proof (sorted_length hand) as Hl; rewrite E in Hl; cbn in Hl.
      destruct hand as [| a [| b [| c rest]]]; try discriminate.
      cbn in E; destruct (Z.leb_spec a b); inversion E; subst; auto.
    - intros [-> | ->]; reflexivity. }
  split; [exact Hiff |].
  intros E; apply Hiff in E; destruct E as [-> | ->]; repeat split.
Qed.

(** X2.  A hand with a usable ace is not bust: its total is its plain sum
    plus 10 and at most 21, and at least 11 when no card is below 1. *)
Theorem usable_ace_never_bust (hand : list Z) :
  usable_ace hand = true ->
  is_bust hand = false /\
  sum_hand hand = Py.sum hand + 10 /\
  score hand = sum_hand hand /\
  sum_hand hand <= 21 /\
  ((forall x, In x hand -> 1 <= x) -> 11 <= sum_hand hand).
Proof.
  intros Hu.
  pose proof Hu as Hu'.
  unfold usable_ace in Hu'; apply andb_true_iff in Hu'.
  destruct Hu' as [Hin Hle]; apply Z.leb_le in Hle; apply contains_In in Hin.
  assert (Hs : sum_hand hand = Py.sum hand + 10)
    by (unfold sum_hand; rewrite Hu; reflexivity).
  assert (Hb : is_bust hand = false).
  { unfold is_bust; rewrite Hs.
    destruct (Z.gtb_spec (Py.sum hand + 10) 21); [lia | reflexivity]. }
  split; [exact Hb |]. split; [exact Hs |].
  split; [unfold score; rewrite Hb; reflexivity |].
  split; [lia |].
  intros Hpos.
  assert (1 <= Py.sum hand); [| lia].
  clear - Hin Hpos.
  induction hand as [| y l IH]; [destruct Hin |].
  rewrite sum_cons.
  assert (Hl : 0 <= Py.sum l).
  { assert (Hr : forall x, In x l -> 1 <= x)
      by (intros x Hx; apply Hpos; right; assumption).
    clear - Hr; induction l as [| z l IH]; [cbn; lia |].
    rewrite sum_cons.
    pose proof (Hr z (or_introl eq_refl)).
    assert (0 <= Py.sum l)
      by (apply IH; intros x Hx; apply Hr; right; assumption).
    lia. }
  pose proof (Hpos y (or_introl eq_refl)); lia.
Qed.

(** X3.  [score]: never above 21; it is the hand's total when that is at most
    21 and 0 when the hand is bust; a hand that is not empty and holds no
    card below 1 scores 0 only when it is bust. *)
Theorem score_spec (hand : list Z) :
  score hand <= 21 /\
  (sum_hand hand <= 21 -> score hand = sum_hand hand) /\
  (21 < sum_hand hand -> score hand = 0) /\
  (hand <> [] -> (forall x, In x hand -> 1 <= x) ->
   (score hand = 0 <-> is_bust hand = true)).
Proof.
  unfold score, is_bust.
  destruct (Z.gtb_spec (sum_hand hand) 21) as [Hgt | Hle].
  - split; [lia |]. split; [lia |]. split; [reflexivity |].
    intros _ _; split; reflexivity.
  - split; [lia |]. split; [reflexivity |]. split; [lia |].
    intros Hne Hpos; split; [| discriminate].
    intros E0.
    destruct hand as [| y l]; [contradiction |].
    pose proof (sum_hand_ge_sum (y :: l)) as Hs.
    assert (Hlen : Py.len (y :: l) <= Py.sum (y :: l))
      by (apply sum_ge_length; assumption).
    unfold Py.len in Hlen; cbn [length] in Hlen; lia.
Qed.

(** X4.  [cmp]: 1, 0 or -1 as the first score is above, equal to or below the
    second; swapping the arguments changes the sign. *)
Theorem cmp_spec (a b : Z) :
  (b < a -> (cmp a b == 1)%Q) /\
  (a = b -> (cmp a b == 0)%Q) /\
  (a < b -> (cmp a b == -1)%Q) /\
  (cmp b a == - cmp a b)%Q.
Proof.
  unfold cmp.
  destruct (Z.gtb_spec a b), (Z.ltb_spec a b), (Z.gtb_spec b a),
    (Z.ltb_spec b a); try lia; cbn;
    repeat split; intros; try lia; reflexivity.
Qed.

End HandFacts.

(** ** The fresh shoe and the Halves weights *)

Section ShoeWeights.

Lemma cnt_fresh_deck (n r : Z) :
  cnt (fresh_deck n) r = (Z.to_nat n * cnt (Py.mul suit 4) r)%nat.
Proof.
  unfold fresh_deck, Py.mul at 1.
  induction (Z.to_nat n) as [| k IH]; cbn [repeat concat].
  - reflexivity.
  - rewrite cnt_app, IH; lia.
Qed.

Lemma fresh_deck_cnt_low (n r : Z) :
  1 <= r <= 9 -> cnt (fresh_deck n) r = (4 * Z.to_nat n)%nat.
Proof.
  intros Hr; rewrite cnt_fresh_deck.
  assert (Hc : r = 1 \/ r = 2 \/ r = 3 \/ r = 4 \/ r = 5 \/ r = 6 \/
               r = 7 \/ r = 8 \/ r = 9) by lia.
  assert (E : cnt (Py.mul suit 4) r = 4%nat)
    by (repeat (destruct Hc as [-> | Hc]; [reflexivity |]);
        subst; reflexivity).
  rewrite E; lia.
Qed.

Lemma fresh_deck_cnt_ten (n : Z) :
  cnt (fresh_deck n) 10 = (16 * Z.to_nat n)%nat.
Proof.
  rewrite cnt_fresh_deck.
  change (cnt (Py.mul suit 4) 10) with 16%nat; lia.
Qed.

(** X5.  [reset_deck] builds, for [num_decks] decks, 52 cards a deck: 4 of
    each rank 1 to 9 and 16 tens, and nothing else; no card at all when
    [num_decks] is 0 or negative. *)
Theorem fresh_deck_composition (n : Z) :
  length (fresh_deck n) = (52 * Z.to_nat n)%nat /\
  (forall r, 1 <= r <= 9 -> cnt (fresh_deck n) r = (4 * Z.to_nat n)%nat) /\
  cnt (fresh_deck n) 10 = (16 * Z.to_nat n)%nat /\
  (forall r, ~ 1 <= r <= 10 -> cnt (fresh_deck n) r = 0%nat) /\
  (n <= 0 -> fresh_deck n = []).
Proof.
  split; [apply fresh_deck_length |].
  split; [intros r Hr; apply fresh_deck_cnt_low; exact Hr |].
  split; [apply fresh_deck_cnt_ten |].
  split.
  - intros r Hr.
    destruct (Nat.eq_dec (cnt (fresh_deck n) r) 0) as [E | Hne]; [exact E |].
    exfalso; apply Hr, (fresh_deck_ranks n), cnt_In; lia.
  - intros Hn; unfold fresh_deck, Py.mul at 1.
    replace (Z.to_nat n) with 0%nat by lia; reflexivity.
Qed.

Lemma inject_nat_add (a b : nat) :
  (inject_Z (Z.of_nat (a + b))
   == inject_Z (Z.of_nat a) + inject_Z (Z.of_nat b))%Q.
Proof. rewrite Nat2Z.inj_add, inject_Z_plus; reflexivity. Qed.

(** The weighted content is additive in the counts of the ranks. *)
Lemma shoe_weight_add (a b c : list Z) :
  (forall r, (cnt a r + cnt b r = cnt c r)%nat) ->
  (shoe_weight a + shoe_weight b == shoe_weight c)%Q.
Proof.
  intros Hc; unfold shoe_weight, ranks; cbn [fold_right].
  rewrite <- !Hc, !inject_nat_add; ring.
Qed.

Lemma shoe_weight_cons (x : Z) (l : list Z) :
  1 <= x <= 10 -> (shoe_weight (x :: l) == weight x + shoe_weight l)%Q.
Proof.
  intros Hx.
  assert (Hc : x = 1 \/ x = 2 \/ x = 3 \/ x = 4 \/ x = 5 \/ x = 6 \/
               x = 7 \/ x = 8 \/ x = 9 \/ x = 10) by lia.
  unfold shoe_weight, ranks; cbn [fold_right]; rewrite !cnt_cons.
  repeat (destruct Hc as [-> | Hc];
          [repeat match goal with
                  | |- context [Z.eq_dec ?u ?v] =>
                      destruct (Z.eq_dec u v); [try discriminate | try lia]
                  end;
           rewrite ?inject_nat_add; cbn [weight halves]; ring |]).
  subst;
    repeat match goal with
           | |- context [Z.eq_dec ?u ?v] =>
               destruct (Z.eq_dec u v); [try discriminate | try lia]
           end;
    rewrite ?inject_nat_add; cbn [weight halves]; ring.
Qed.

Lemma hand_weight_cons (x : Z) (l : list Z) :
  hand_weight (x :: l) = (weight x + hand_weight l)%Q.
Proof. reflexivity. Qed.

(** For cards of the table, the weighted content is the sum of the weights. *)
Lemma shoe_weight_hand (hand : list Z) :
  (forall x, In x hand -> 1 <= x <= 10) ->
  (shoe_weight hand == hand_weight hand)%Q.
Proof.
  induction hand as [| x l IH]; intros Hr.
  - reflexivity.
  - rewrite shoe_weight_cons by (apply Hr; left; reflexivity).
    rewrite hand_weight_cons.
    rewrite IH by (intros y Hy; apply Hr; right; assumption).
    reflexivity.
Qed.

Lemma shoe_weight_fresh_deck (n : Z) : (shoe_weight (fresh_deck n) == 0)%Q.
Proof.
  pose proof (fresh_deck_cnt_low n) as H19.
  pose proof (fresh_deck_cnt_ten n) as H10.
  unfold shoe_weight, ranks; cbn [fold_right].
  rewrite H10, !H19 by lia.
  rewrite !Nat2Z.inj_mul, !inject_Z_mult.
  cbn [weight halves]; change (inject_Z (Z.of_nat 4)) with 4%Q.
  change (inject_Z (Z.of_nat 16)) with 16%Q.
  ring.
Qed.

Lemma hand_weight_app (l1 l2 : list Z) :
  (hand_weight (l1 ++ l2) == hand_weight l1 + hand_weight l2)%Q.
Proof.
  induction l1 as [| x l1 IH]; cbn [app].
  - change (hand_weight []) with 0%Q; ring.
  - rewrite !hand_weight_cons, IH; ring.
Qed.

(** A hand is all its cards but the last, and the last. *)
Lemma hand_weight_last (hand : list Z) :
  (hand_weight hand == hand_weight (Py.but_last hand) + last_weight hand)%Q.
Proof.
  unfold last_weight, Py.but_last.
  induction hand as [| x l IH]; [reflexivity |].
  destruct l as [| y l].
  - cbn [removelast Py.last_item]; rewrite hand_weight_cons.
    change (hand_weight []) with 0%Q; ring.
  - change (removelast (x :: y :: l)) with (x :: removelast (y :: l)).
    change (Py.last_item (x :: y :: l)) with (Py.last_item (y :: l)).
    set (m := match Py.last_item (y :: l) with
              | Ok card => weight card
              | _ => 0%Q
              end) in *.
    rewrite (hand_weight_cons x (y :: l)),
      (hand_weight_cons x (removelast (y :: l))), IH; ring.
Qed.

(** X6.  The Halves system is balanced: a fresh shoe weighs 0, whatever the
    number of decks.  So when the cards of a fresh shoe are some cards drawn
    and the cards left, the weights of the cards left sum to minus the
    weights of the cards drawn, which is what the running count tracks. *)
Theorem fresh_deck_balanced (n : Z) (drawn rest : list Z) :
  (shoe_weight (fresh_deck n) == 0)%Q /\
  ((forall r, (cnt drawn r + cnt rest r = cnt (fresh_deck n) r)%nat) ->
   (shoe_weight rest == - hand_weight drawn)%Q).
Proof.
  split; [apply shoe_weight_fresh_deck |].
  intros Hc.
  assert (Hr : forall y, In y drawn -> 1 <= y <= 10).
  { intros y Hy; apply (fresh_deck_ranks n), cnt_In.
    apply cnt_In in Hy; specialize (Hc y); lia. }
  pose proof (shoe_weight_add drawn rest (fresh_deck n) Hc) as Ha.
  rewrite (shoe_weight_hand drawn Hr), shoe_weight_fresh_deck in Ha.
  lra.
Qed.

End ShoeWeights.

(** ** What the shoe operations leave, single-hand environment *)

Section SingleShoePost.

Context {G : Type} `{RandomState G}.

Lemma index_Ok (x : Z) (l : list Z) (i : nat) :
  Py.index x l = Ok i -> nth_error l i = Some x.
Proof.
  revert i; induction l as [| y l IH]; intros i E; [discriminate |].
  cbn [Py.index] in E; destruct (Z.eqb_spec y x) as [-> | Hne].
  - inversion E; reflexivity.
  - destruct (Py.index x l) as [j | e |]; inversion E; subst.
    cbn; apply IH; reflexivity.
Qed.

Lemma single_remove_card_post card (w w' : Single.World G) u :
  Single.remove_card card w = (Ok u, w') ->
  exists d',
    w' = (fst w, Single.with_deck d' (snd w)) /\
    S (length d') = length (Single.deck (snd w)) /\
    (forall r, ((if Z.eq_dec card r then 1 else 0) + cnt d' r
                = cnt (Single.deck (snd w)) r)%nat) /\
    In card (Single.deck (snd w)).
Proof.
  intros E.
  unfold Single.remove_card, Single.deck_pop, bind, Single.get_self, lift in E.
  cbn [fst snd] in E.
  destruct (Py.index card (Single.deck (snd w))) as [i | x |] eqn:Ei;
    try discriminate.
  apply index_Ok in Ei.
  rewrite (pop_nth _ _ _ Ei) in E.
  unfold Single.modify_self, ret in E; cbn [fst snd] in E.
  inversion E; subst; clear E.
  exists (Py.remove_nth i (Single.deck (snd w))).
  split; [reflexivity |].
  split; [apply (remove_nth_length _ _ _ Ei) |].
  split; [apply remove_nth_cnt; assumption |].
  apply (nth_error_In _ _ Ei).
Qed.

Lemma single_count_card_post card (w w' : Single.World G) u :
  Single.count_card card w = (Ok u, w') ->
  1 <= card <= 10 /\
  w' = (fst w,
        Single.with_count (Single.count (snd w) + weight card)%Q (snd w)).
Proof.
  intros E; unfold Single.count_card, bind, lift in E.
  destruct (halves card) as [h | x |] eqn:Hh; try discriminate.
  unfold Single.modify_self in E; inversion E; subst; clear E.
  split; [apply (halves_Ok_rank card h Hh) |].
  unfold weight; rewrite Hh; reflexivity.
Qed.

Lemma single_remove_count_loop_post (hand : list Z) :
  forall (w w' : Single.World G) u,
    for_each hand
      (fun card => Single.remove_card card ;; Single.count_card card) w
    = (Ok u, w') ->
    exists d' c',
      w' = (fst w, Single.with_count c' (Single.with_deck d' (snd w))) /\
      (length hand + length d' = length (Single.deck (snd w)))%nat /\
      (forall r, (cnt hand r + cnt d' r = cnt (Single.deck (snd w)) r)%nat) /\
      (c' == Single.count (snd w) + hand_weight hand)%Q /\
      (forall x, In x hand -> 1 <= x <= 10).
Proof.
  induction hand as [| x hand IH]; intros [g e] w' u E.
  - cbn in E; inversion E; subst.
    exists (Single.deck e), (Single.count e); cbn [fst snd].
    rewrite single_eta.
    split; [reflexivity | split; [reflexivity | split; [reflexivity |]]].
    split; [change (hand_weight []) with 0%Q; ring | intros y []].
  - cbn [for_each] in E.
    apply bind_inv_Ok in E; destruct E as (u1 & w1 & E1 & E).
    apply bind_inv_Ok in E1; destruct E1 as (u2 & w2 & Er & Ec).
    destruct (single_remove_card_post _ _ _ _ Er) as (d1 & -> & L1 & C1 & _).
    destruct (single_count_card_post _ _ _ _ Ec) as (Hx & ->).
    cbn [fst snd] in *.
    destruct (IH _ _ _ E) as (d' & c' & -> & L' & C' & Q' & R').
    cbn [fst snd Single.deck Single.count Single.with_deck
         Single.with_count] in *.
    exists d', c'.
    split; [reflexivity |].
    split; [cbn [length]; lia |].
    split; [intros r; specialize (C1 r); specialize (C' r);
            rewrite cnt_cons; lia |].
    split; [rewrite Q', hand_weight_cons; ring |].
    intros y [<- | Hy]; [assumption | apply R'; assumption].
Qed.

Lemma single_remove_loop_post (hand : list Z) :
  forall (w w' : Single.World G) u,
    for_each hand Single.remove_card w = (Ok u, w') ->
    exists d',
      w' = (fst w, Single.with_deck d' (snd w)) /\
      (length hand + length d' = length (Single.deck (snd w)))%nat /\
      (forall r, (cnt hand r + cnt d' r = cnt (Single.deck (snd w)) r)%nat).
Proof.
  induction hand as [| x hand IH]; intros [g e] w' u E.
  - cbn in E; inversion E; subst.
    exists (Single.deck e); cbn [fst snd].
    split; [destruct e; reflexivity | split; reflexivity].
  - cbn [for_each] in E.
    apply bind_inv_Ok in E; destruct E as (u1 & w1 & Er & E).
    destruct (single_remove_card_post _ _ _ _ Er) as (d1 & -> & L1 & C1 & _).
    cbn [fst snd] in *.
    destruct (IH _ _ _ E) as (d' & -> & L' & C').
    cbn [fst snd Single.deck Single.with_deck] in *.
    exists d'.
    split; [reflexivity |].
    split; [cbn [length]; lia |].
    intros r; specialize (C1 r); specialize (C' r); rewrite cnt_cons; lia.
Qed.

Lemma single_count_loop_post (hand : list Z) :
  forall (w w' : Single.World G) u,
    for_each hand Single.count_card w = (Ok u, w') ->
    exists c',
      w' = (fst w, Single.with_count c' (snd w)) /\
      (c' == Single.count (snd w) + hand_weight hand)%Q.
Proof.
  induction hand as [| x hand IH]; intros [g e] w' u E.
  - cbn in E; inversion E; subst.
    exists (Single.count e); cbn [fst snd].
    split; [destruct e; reflexivity |].
    change (hand_weight []) with 0%Q; ring.
  - cbn [for_each] in E.
    apply bind_inv_Ok in E; destruct E as (u1 & w1 & Ec & E).
    destruct (single_count_card_post _ _ _ _ Ec) as (Hx & ->).
    cbn [fst snd] in *.
    destruct (IH _ _ _ E) as (c' & -> & Q').
    cbn [fst snd Single.count Single.with_count] in *.
    exists c'; split; [reflexivity |].
    rewrite Q', hand_weight_cons; ring.
Qed.

Lemma single_reshuffle_post (g : G) (e : Single.Env G) w' u :
  Single.reshuffle (g, e) = (Ok u, w') ->
  exists d' c',
    w' = (g, Single.with_count c' (Single.with_deck d' e)) /\
    (length (Single.player e) + length (Single.dealer e) + length d'
     = 52 * Z.to_nat (Single.num_decks e))%nat /\
    (forall r,
       (cnt (Single.player e) r + cnt (Single.dealer e) r + cnt d' r
        = cnt (fresh_deck (Single.num_decks e)) r)%nat) /\
    (shoe_weight d' + hand_weight (Single.player e)
     + hand_weight (Single.dealer e) == 0)%Q /\
    (c' == hand_weight (Single.player e)
           + hand_weight (Py.but_last (Single.dealer e))
           + (if Single.done e
              then last_weight (Single.dealer e) else 0))%Q.
Proof.
  intros E; unfold Single.reshuffle in E.
  apply bind_inv_Ok in E; destruct E as (u0 & w0 & E0 & E).
  unfold Single.reset_deck, Single.modify_self in E0.
  inversion E0; subst w0; clear E0.
  apply bind_inv_Ok in E; destruct E as (u1 & w1 & E1 & E).
  unfold Single.modify_self in E1; inversion E1; subst w1; clear E1.
  apply bind_inv_Ok in E; destruct E as (s1 & w1 & E1 & E).
  unfold Single.get_self in E1; inversion E1; subst s1 w1; clear E1.
  cbn [fst snd Single.player Single.with_count Single.with_deck] in E.
  apply bind_inv_Ok in E; destruct E as (u2 & w2 & Ep & E).
  destruct (single_remove_count_loop_post _ _ _ _ Ep)
    as (d1 & c1 & -> & L1 & C1 & Q1 & R1).
  cbn [fst snd Single.deck Single.count Single.with_count Single.with_deck]
    in *.
  apply bind_inv_Ok in E; destruct E as (s2 & w2 & E2 & E).
  unfold Single.get_self in E2; inversion E2; subst s2 w2; clear E2.
  cbn [fst snd Single.dealer Single.with_count Single.with_deck] in E.
  apply bind_inv_Ok in E; destruct E as (u3 & w3 & Ed & E).
  destruct (single_remove_loop_post _ _ _ _ Ed) as (d2 & -> & L2 & C2).
  cbn [fst snd Single.deck Single.count Single.with_count Single.with_deck]
    in *.
  apply bind_inv_Ok in E; destruct E as (s3 & w3 & E3 & E).
  unfold Single.get_self in E3; inversion E3; subst s3 w3; clear E3.
  cbn [fst snd Single.dealer Single.with_count Single.with_deck] in E.
  apply bind_inv_Ok in E; destruct E as (u4 & w4 & Eb & E).
  destruct (single_count_loop_post _ _ _ _ Eb) as (c3 & -> & Q3).
  cbn [fst snd Single.deck Single.count Single.with_count Single.with_deck]
    in *.
  apply bind_inv_Ok in E; destruct E as (s4 & w4 & E4 & E).
  unfold Single.get_self in E4; inversion E4; subst s4 w4; clear E4.
  cbn [fst snd Single.dealer Single.done Single.with_count Single.with_deck]
    in E.
  (* the dealer's cards are ranks of the table: they were in the shoe *)
  assert (Rd : forall x, In x (Single.dealer e) -> 1 <= x <= 10).
  { intros x Hx; apply (fresh_deck_ranks (Single.num_decks e)), cnt_In.
    apply cnt_In in Hx; specialize (C1 x); specialize (C2 x); lia. }
  assert (Hshoe : (shoe_weight d2 + hand_weight (Single.player e)
                   + hand_weight (Single.dealer e) == 0)%Q).
  { rewrite <- (shoe_weight_hand _ R1), <- (shoe_weight_hand _ Rd).
    rewrite <- (shoe_weight_fresh_deck (Single.num_decks e)).
    rewrite <- (shoe_weight_add d1 (Single.player e)
                  (fresh_deck (Single.num_decks e)))
      by (intros r; specialize (C1 r); lia).
    rewrite <- (shoe_weight_add d2 (Single.dealer e) d1)
      by (intros r; specialize (C2 r); lia).
    ring. }
  assert (Hpost : exists c',
    w' = (g, Single.with_count c' (Single.with_deck d2 e)) /\
    (c' == hand_weight (Single.player e)
           + hand_weight (Py.but_last (Single.dealer e))
           + (if Single.done e then last_weight (Single.dealer e) else 0))%Q).
  { destruct (Single.done e).
    - apply bind_inv_Ok in E; destruct E as (s5 & w5 & E5 & E).
      unfold Single.get_self in E5; inversion E5; subst s5 w5; clear E5.
      cbn [fst snd Single.dealer Single.with_count Single.with_deck] in E.
      apply bind_inv_Ok in E; destruct E as (card & w6 & El & E).
      unfold lift in El; inversion El as [[Hl Hw]]; subst w6; clear El.
      destruct (single_count_card_post _ _ _ _ E) as (_ & ->).
      eexists; split; [reflexivity |].
      cbn [fst snd Single.count Single.with_count].
      unfold last_weight; rewrite Hl, Q3, Q1; ring.
    - inversion E; subst.
      exists c3; split; [reflexivity |].
      rewrite Q3, Q1; ring. }
  destruct Hpost as (c' & -> & Qc).
  exists d2, c'.
  split; [reflexivity |].
  split; [rewrite <- fresh_deck_length; lia |].
  split; [intros r; specialize (C1 r); specialize (C2 r); lia |].
  split; [rewrite <- Hshoe; ring | exact Qc].
Qed.

(** X7.  The reshuffle of [draw_card], when it returns: the generator is not
    used and only the shoe and the counter change; the shoe is the fresh one
    less the cards of the two hands; and the shoe's weighted content plus the
    counter is minus the weight of the dealer's last card, or 0 when the
    round is done.  So the reshuffle keeps that quantity exactly when it had
    this value before. *)
Theorem single_reshuffle_books (g : G) (e : Single.Env G) w' u :
  Single.reshuffle (g, e) = (Ok u, w') ->
  exists d' c',
    w' = (g, Single.with_count c' (Single.with_deck d' e)) /\
    (length (Single.player e) + length (Single.dealer e) + length d'
     = 52 * Z.to_nat (Single.num_decks e))%nat /\
    (forall r,
       (cnt (Single.player e) r + cnt (Single.dealer e) r + cnt d' r
        = cnt (fresh_deck (Single.num_decks e)) r)%nat) /\
    (Single.books (snd w')
     == - (if Single.done e then 0 else last_weight (Single.dealer e)))%Q /\
    ((Single.books (snd w') == Single.books e)%Q <->
     (Single.books e
      == - (if Single.done e then 0 else last_weight (Single.dealer e)))%Q).
Proof.
  intros E.
  destruct (single_reshuffle_post g e w' u E)
    as (d' & c' & -> & L & C & Hshoe & Qc).
  exists d', c'.
  split; [reflexivity |].
  split; [exact L |].
  split; [exact C |].
  assert (Hbooks :
    (Single.books (Single.with_count c' (Single.with_deck d' e))
     == - (if Single.done e
           then 0 else last_weight (Single.dealer e)))%Q).
  { unfold Single.books; cbn [Single.deck Single.count Single.with_count
                               Single.with_deck].
    pose proof (hand_weight_last (Single.dealer e)) as Hl.
    destruct (Single.done e);
      cbv iota in *; lra. }
  cbn [snd]; split; [exact Hbooks |].
  rewrite Hbooks; split; intros E'; rewrite E'; reflexivity.
Qed.

End SingleShoePost.

(** ** Drawing and hitting, single-hand environment *)

Section SingleDrawPost.

Context {G : Type} `{RandomState G}.

Lemma pop_Ok {A} (i : Z) (l l' : list A) (x : A) :
  Py.pop i l = Ok (x, l') ->
  exists j, nth_error l j = Some x /\ l' = Py.remove_nth j l.
Proof.
  unfold Py.pop; intros E.
  destruct (_ || _); [discriminate |].
  destruct (nth_error l _) as [y |] eqn:En; [| discriminate].
  inversion E; subst; eauto.
Qed.

Lemma single_draw_card_post (rng g : G) (e : Single.Env G) card w' :
  Single.draw_card rng (g, e) = (Ok card, w') ->
  (exists d' c', snd w' = Single.with_count c' (Single.with_deck d' e)) /\
  fst w' = snd (rs_randint g 0 (Py.len (Single.deck (snd w')) + 1)) /\
  (Single.shuffle_on e <= Py.len (Single.deck e) ->
   Single.count (snd w') = Single.count e /\
   In card (Single.deck e) /\
   S (length (Single.deck (snd w'))) = length (Single.deck e) /\
   forall r, ((if Z.eq_dec card r then 1 else 0)
              + cnt (Single.deck (snd w')) r
              = cnt (Single.deck e) r)%nat) /\
  (Py.len (Single.deck e) < Single.shuffle_on e ->
   1 <= card <= 10 /\
   (length (Single.player e) + length (Single.dealer e)
    + S (length (Single.deck (snd w')))
    = 52 * Z.to_nat (Single.num_decks e))%nat /\
   forall r, (cnt (Single.player e) r + cnt (Single.dealer e) r
              + (if Z.eq_dec card r then 1 else 0)
              + cnt (Single.deck (snd w')) r
              = cnt (fresh_deck (Single.num_decks e)) r)%nat).
Proof.
  intros E; unfold Single.draw_card in E.
  rewrite (bind_Ok _ _ (g, e) e (g, e)) in E by reflexivity.
  apply bind_inv_Ok in E; destruct E as (u1 & w1 & E1 & E).
  apply bind_inv_Ok in E; destruct E as (s1 & w1' & Eg & E).
  unfold Single.get_self in Eg; inversion Eg; subst s1 w1'; clear Eg.
  apply bind_inv_Ok in E; destruct E as (i & w2 & Er & E).
  unfold Single.np_random_randint in Er.
  destruct (0 <? Py.len (Single.deck (snd w1))); [| discriminate].
  inversion Er; subst i w2; clear Er.
  unfold Single.deck_pop, bind, Single.get_self, lift in E; cbn [fst snd] in E.
  destruct (Py.pop _ (Single.deck (snd w1))) as [[x d''] | x |] eqn:Ep;
    try discriminate.
  unfold Single.modify_self, ret in E; cbn [fst snd] in E.
  inversion E; subst x w'; clear E.
  destruct (pop_Ok _ _ _ _ Ep) as (j & Hj & ->).
  pose proof (remove_nth_length _ _ _ Hj) as Hlen.
  pose proof (remove_nth_cnt _ _ _ Hj) as Hcnt.
  cbn [fst snd Single.deck Single.with_deck].
  assert (Hgen : Py.len (Py.remove_nth j (Single.deck (snd w1))) + 1
                 = Py.len (Single.deck (snd w1)))
    by (unfold Py.len; lia).
  rewrite Hgen.
  destruct (Z.ltb_spec (Py.len (Single.deck e)) (Single.shuffle_on e))
    as [Hlt | Hge].
  - destruct w1 as [g1 e1].
    destruct (single_reshuffle_post g e _ _ E1)
      as (d1 & c1 & Ew & L1 & C1 & _).
    inversion Ew; subst g1 e1; clear Ew.
    cbn [fst snd Single.deck Single.with_deck Single.with_count] in *.
    split; [exists (Py.remove_nth j d1), c1; reflexivity |].
    split; [reflexivity |].
    split; [intros Hno; lia |].
    intros _.
    split; [| split].
    + apply (fresh_deck_ranks (Single.num_decks e)), cnt_In.
      apply nth_error_In, cnt_In in Hj; specialize (C1 card); lia.
    + lia.
    + intros r; specialize (C1 r); specialize (Hcnt r); lia.
  - inversion E1; subst w1; clear E1.
    cbn [fst snd] in *.
    split.
    { exists (Py.remove_nth j (Single.deck e)), (Single.count e).
      destruct e; reflexivity. }
    split; [reflexivity |].
    split; [| intros Hlt; lia].
    intros _.
    split; [reflexivity |].
    split; [apply (nth_error_In _ _ Hj) |].
    split; [exact Hlen | exact Hcnt].
Qed.

(** X8.  [draw_card], when it returns a card.  Only the shoe and the counter
    can have changed, and [np.random] was asked once, for an index into the
    shoe as it was before the card left it.  Without a reshuffle the counter
    is as it was and the shoe before the draw holds the card and the cards of
    the shoe after it.  With a reshuffle the card is a rank of the table, and
    the two hands, the card and the shoe together are a fresh shoe. *)
Theorem single_draw_card_spec (rng g : G) (e : Single.Env G) card w' :
  Single.draw_card rng (g, e) = (Ok card, w') ->
  (exists d' c', snd w' = Single.with_count c' (Single.with_deck d' e)) /\
  fst w' = snd (rs_randint g 0 (Py.len (card :: Single.deck (snd w')))) /\
  (Single.shuffle_on e <= Py.len (Single.deck e) ->
   Single.count (snd w') = Single.count e /\
   In card (Single.deck e) /\
   length (card :: Single.deck (snd w')) = length (Single.deck e) /\
   forall r, cnt (card :: Single.deck (snd w')) r = cnt (Single.deck e) r) /\
  (Py.len (Single.deck e) < Single.shuffle_on e ->
   1 <= card <= 10 /\
   length (Single.player e ++ Single.dealer e ++ card :: Single.deck (snd w'))
   = (52 * Z.to_nat (Single.num_decks e))%nat /\
   forall r,
     cnt (Single.player e ++ Single.dealer e ++ card :: Single.deck (snd w')) r
     = cnt (fresh_deck (Single.num_decks e)) r).
Proof.
  intros E.
  destruct (single_draw_card_post rng g e card w' E)
    as (Hst & Hg & Hno & Hre).
  split; [exact Hst |].
  split.
  { rewrite Hg; unfold Py.len; cbn [length].
    rewrite Nat2Z.inj_succ; unfold Z.succ; reflexivity. }
  split.
  - intros Hge; destruct (Hno Hge) as (Hc & Hin & Hl & Hcnt).
    split; [exact Hc |].
    split; [exact Hin |].
    split; [exact Hl |].
    intros r; rewrite cnt_cons; apply Hcnt.
  - intros Hlt; destruct (Hre Hlt) as (Hr & Hl & Hcnt).
    split; [exact Hr |].
    split.
    + rewrite !length_app; cbn [length]; lia.
    + intros r; rewrite !cnt_app, cnt_cons; specialize (Hcnt r); lia.
Qed.

(** X9.  Drawing from an empty shoe that is not due for a reshuffle
    ([shuffle_on <= 0]) raises ValueError, and nothing has changed. *)
Theorem single_draw_card_empty (rng g : G) (e : Single.Env G) :
  Single.deck e = [] ->
  Single.shuffle_on e <= 0 ->
  Single.draw_card rng (g, e) = (Raise ValueError, (g, e)).
Proof.
  intros Hd Hs; unfold Single.draw_card.
  rewrite (bind_Ok _ _ (g, e) e (g, e)) by reflexivity.
  rewrite Hd; change (Py.len (@nil Z)) with 0.
  destruct (Z.ltb_spec 0 (Single.shuffle_on e)); [lia |].
  rewrite (bind_Ok _ _ (g, e) tt (g, e)) by reflexivity.
  rewrite (bind_Ok _ _ (g, e) e (g, e)) by reflexivity.
  rewrite Hd; reflexivity.
Qed.

Lemma single_hit_player_post (w w1 : Single.World G) u :
  Single.hit_player w = (Ok u, w1) ->
  exists card wd,
    Single.draw_card (Single.np_random (snd w)) w = (Ok card, wd) /\
    1 <= card <= 10 /\
    w1 = (fst wd,
          Single.with_player (Single.player (snd wd) ++ [card])
            (Single.with_count (Single.count (snd wd) + weight card)%Q
               (snd wd))).
Proof.
  intros E; unfold Single.hit_player in E.
  apply bind_inv_Ok in E; destruct E as (s & w0 & Eg & E).
  unfold Single.get_self in Eg; inversion Eg; subst s w0; clear Eg.
  apply bind_inv_Ok in E; destruct E as (card & wd & Ed & E).
  apply bind_inv_Ok in E; destruct E as (u1 & wc & Ec & E).
  destruct (single_count_card_post _ _ _ _ Ec) as (Hc & ->).
  unfold Single.modify_self in E; inversion E; subst; clear E.
  exists card, wd; repeat split; try assumption; lia.
Qed.

(** X10.  HIT in the single-hand environment, when [step] returns.  One card,
    a rank of the table, has been appended to the player's hand, and the
    dealer's hand is as it was.  The round is terminal exactly when the
    player is bust: the reward is then -1, else 0.  When the draw did not
    reshuffle, the counter has moved by the weight of the card, and by the
    weight of the dealer's second card too only when the player is bust. *)
Theorem single_hit_spec fuel (g : G) (e : Single.Env G)
    obs reward terminal w' :
  Single.step fuel 1 (g, e) = (Ok (obs, reward, terminal), w') ->
  exists card,
    1 <= card <= 10 /\
    Single.player (snd w') = Single.player e ++ [card] /\
    Single.dealer (snd w') = Single.dealer e /\
    terminal = is_bust (Single.player e ++ [card]) /\
    Single.done (snd w') = terminal /\
    reward = (if terminal then (-1)%Q else 0%Q) /\
    (Single.shuffle_on e <= Py.len (Single.deck e) ->
     S (length (Single.deck (snd w'))) = length (Single.deck e) /\
     if terminal
     then exists hole,
            nth_error (Single.dealer e) 1 = Some hole /\
            Single.count (snd w')
            = (Single.count e + weight card + weight hole)%Q
     else Single.count (snd w') = (Single.count e + weight card)%Q).
Proof.
  intros E; unfold Single.step in E.
  cbn [discrete_contains Z.leb Z.ltb Z.compare andb negb Z.eqb Pos.eqb] in E.
  apply bind_inv_Ok in E; destruct E as (r & w4 & Er & E).
  apply bind_inv_Ok in E; destruct E as (obs' & w5 & Eo & E).
  pose proof (single_get_obs_pure w4) as Hpure.
  rewrite Eo in Hpure; cbn [snd] in Hpure; subst w5.
  unfold bind, Single.get_self, ret in E; cbn [fst snd] in E.
  inversion E; subst obs' r terminal w'; clear E.
  apply bind_inv_Ok in Er; destruct Er as (u1 & w1 & Eh & Er).
  apply bind_inv_Ok in Er; destruct Er as (s1 & w1' & Eg & Er).
  unfold Single.get_self in Eg; inversion Eg; subst s1 w1'; clear Eg.
  destruct (single_hit_player_post _ _ _ Eh) as (card & wd & Ed & Hcard & ->).
  cbn [fst snd] in Ed.
  destruct (single_draw_card_post _ _ _ _ _ Ed)
    as ((d' & c' & Ewd) & _ & Hno & _).
  destruct wd as [gd ed]; cbn [fst snd] in *; subst ed.
  cbn [Single.player Single.dealer Single.done Single.deck Single.count
       Single.with_player Single.with_count Single.with_deck] in *.
  exists card; split; [exact Hcard |].
  destruct (is_bust (Single.player e ++ [card])) eqn:Eb.
  - apply bind_inv_Ok in Er; destruct Er as (u2 & w2 & Em & Er).
    unfold Single.modify_self in Em; inversion Em; subst w2; clear Em.
    apply bind_inv_Ok in Er; destruct Er as (u3 & w3 & Ec & Er).
    inversion Er; subst reward w4; clear Er.
    unfold Single.count_dealer_item in Ec.
    apply bind_inv_Ok in Ec; destruct Ec as (s2 & w2 & Eg & Ec).
    unfold Single.get_self in Eg; inversion Eg; subst s2 w2; clear Eg.
    apply bind_inv_Ok in Ec; destruct Ec as (hole & w2 & El & Ec).
    unfold lift, Py.item in El; cbn [fst snd Single.dealer Single.with_done
      Single.with_player Single.with_count Single.with_deck] in El.
    destruct (nth_error (Single.dealer e) 1) as [hole' |] eqn:Eh1;
      [| discriminate].
    inversion El; subst hole' w2; clear El.
    destruct (single_count_card_post _ _ _ _ Ec) as (_ & ->).
    cbn [fst snd Single.player Single.dealer Single.done Single.deck
         Single.count Single.with_done Single.with_player Single.with_count
         Single.with_deck].
    repeat (split; [reflexivity |]).
    intros Hge; destruct (Hno Hge) as (Hc & _ & Hl & _).
    split; [exact Hl |].
    exists hole; split; [reflexivity |].
    rewrite Hc; reflexivity.
  - apply bind_inv_Ok in Er; destruct Er as (u2 & w2 & Em & Er).
    unfold Single.modify_self in Em; inversion Em; subst w2; clear Em.
    inversion Er; subst reward w4; clear Er.
    cbn [fst snd Single.player Single.dealer Single.done Single.deck
         Single.count Single.with_done Single.with_player Single.with_count
         Single.with_deck].
    repeat (split; [reflexivity |]).
    intros Hge; destruct (Hno Hge) as (Hc & _ & Hl & _).
    split; [exact Hl |].
    rewrite Hc; reflexivity.
Qed.

End SingleDrawPost.

(** ** Dealing a round and the dealer's play, single-hand environment *)

Section SingleRoundPost.

Context {G : Type} `{RandomState G}.

Ltac single_proj :=
  cbn [fst snd Single.natural Single.num_decks Single.shuffle_on Single.deck
       Single.count Single.done Single.player Single.dealer Single.np_random
       Single.with_deck Single.with_count Single.with_done Single.with_player
       Single.with_dealer Single.with_np_random] in *.

Lemma single_draw_hand_post (rng g : G) (e : Single.Env G) hand w' :
  Single.draw_hand rng (g, e) = (Ok hand, w') ->
  exists c1 c2 d' c',
    hand = [c1; c2] /\
    snd w' = Single.with_count c' (Single.with_deck d' e) /\
    (Single.shuffle_on e + 1 <= Py.len (Single.deck e) ->
     c' = Single.count e /\
     (length d' + 2 = length (Single.deck e))%nat /\
     forall r, (cnt [c1; c2] r + cnt d' r = cnt (Single.deck e) r)%nat).
Proof.
  intros E; unfold Single.draw_hand in E.
  apply bind_inv_Ok in E; destruct E as (c1 & [g1 e1] & E1 & E).
  apply bind_inv_Ok in E; destruct E as (c2 & [g2 e2] & E2 & E).
  inversion E; subst hand w'; clear E.
  cbn [fst] in E2.
  destruct (single_draw_card_post _ _ _ _ _ E1)
    as ((d1 & k1 & Ee1) & _ & Hno1 & _).
  cbn [snd] in Ee1, Hno1; subst e1.
  destruct (single_draw_card_post _ _ _ _ _ E2)
    as ((d2 & k2 & Ee2) & _ & Hno2 & _).
  cbn [snd] in Ee2, Hno2; subst e2.
  single_proj.
  exists c1, c2, d2, k2.
  split; [reflexivity |].
  split; [destruct e; reflexivity |].
  intros Hge.
  destruct Hno1 as (Hk1 & _ & Hl1 & Hc1); [lia |].
  destruct Hno2 as (Hk2 & _ & Hl2 & Hc2); [unfold Py.len in *; lia |].
  split; [congruence |].
  split; [lia |].
  intros r; specialize (Hc1 r); specialize (Hc2 r).
  rewrite !cnt_cons; change (cnt [] r) with 0%nat; lia.
Qed.

(** X12.  [reset] in the single-hand environment, when it returns.  The
    dealer and the player hold two cards each, the round is not done, and the
    observation shows the player's total, the dealer's first card, the
    usable-ace flag and the counter divided by the number of decks left,
    rounded up.  When the shoe that [reset] starts from (a fresh one if the
    old one was below [shuffle_on]) has at least three cards more than
    [shuffle_on], so that none of the four draws reshuffles, the four cards
    come out of that shoe and the counter has moved by the weights of the
    dealer's first card and of the player's two cards: the dealer's second
    card is not counted. *)
Theorem single_reset_deal (g : G) (e : Single.Env G) obs w' :
  let rebuilt := Py.len (Single.deck e) <? Single.shuffle_on e in
  let start :=
    if rebuilt then fresh_deck (Single.num_decks e) else Single.deck e in
  let count0 := if rebuilt then 0%Q else Single.count e in
  Single.reset (g, e) = (Ok obs, w') ->
  exists d1 d2 p1 p2,
    Single.dealer (snd w') = [d1; d2] /\
    Single.player (snd w') = [p1; p2] /\
    Single.done (snd w') = false /\
    1 <= d1 <= 10 /\ 1 <= p1 <= 10 /\ 1 <= p2 <= 10 /\
    obs = (sum_hand [p1; p2], d1, usable_ace [p1; p2],
           (Single.count (snd w')
            / inject_Z (Py.ceil_div52 (Py.len (Single.deck (snd w')))))%Q) /\
    (Single.shuffle_on e + 3 <= Py.len start ->
     (length (Single.deck (snd w')) + 4 = length start)%nat /\
     (forall r, (cnt [d1; d2] r + cnt [p1; p2] r
                 + cnt (Single.deck (snd w')) r = cnt start r)%nat) /\
     Single.count (snd w')
     = (count0 + weight d1 + weight p1 + weight p2)%Q).
Proof.
  intros rebuilt start count0 E; unfold Single.reset in E.
  apply bind_inv_Ok in E; destruct E as (u0 & w0 & E0 & E).
  unfold Single.modify_self in E0; inversion E0; subst u0 w0; clear E0.
  apply bind_inv_Ok in E; destruct E as (s0 & w0 & E0 & E).
  unfold Single.get_self in E0; inversion E0; subst s0 w0; clear E0.
  apply bind_inv_Ok in E; destruct E as (u1 & w1 & E1 & E).
  single_proj.
  assert (Hw1 : w1 = (g, Single.with_count count0
                           (Single.with_deck start
                              (Single.with_done false e)))).
  { subst rebuilt start count0.
    destruct (Py.len (Single.deck e) <? Single.shuffle_on e).
    - unfold bind, Single.reset_deck, Single.modify_self in E1;
        cbn [fst snd] in E1; inversion E1; destruct e; reflexivity.
    - inversion E1; destruct e; reflexivity. }
  clear E1; subst w1.
  apply bind_inv_Ok in E; destruct E as (s1 & w1 & E1 & E).
  unfold Single.get_self in E1; inversion E1; subst s1 w1; clear E1.
  apply bind_inv_Ok in E; destruct E as (hd & [g2 e2] & Ehd & E).
  destruct (single_draw_hand_post _ _ _ _ _ Ehd)
    as (d1 & d2 & dk1 & k1 & -> & Ee2 & Hno1).
  cbn [snd] in Ee2; subst e2; single_proj.
  apply bind_inv_Ok in E; destruct E as (u2 & w2 & E2 & E).
  unfold Single.modify_self in E2; inversion E2; subst u2 w2; clear E2.
  apply bind_inv_Ok in E; destruct E as (u3 & w3 & E3 & E).
  unfold Single.count_dealer_item, bind, Single.get_self, lift in E3;
    cbn [fst snd Py.item nth_error Single.dealer Single.with_dealer] in E3.
  destruct (single_count_card_post _ _ _ _ E3) as (Hd1 & ->); clear E3.
  single_proj.
  apply bind_inv_Ok in E; destruct E as (s3 & w3 & E3 & E).
  unfold Single.get_self in E3; inversion E3; subst s3 w3; clear E3.
  apply bind_inv_Ok in E; destruct E as (hp & [g4 e4] & Ehp & E).
  destruct (single_draw_hand_post _ _ _ _ _ Ehp)
    as (p1 & p2 & dk2 & k2 & -> & Ee4 & Hno2).
  cbn [snd] in Ee4; subst e4; single_proj.
  apply bind_inv_Ok in E; destruct E as (u5 & w5 & E5 & E).
  unfold Single.modify_self in E5; inversion E5; subst u5 w5; clear E5.
  apply bind_inv_Ok in E; destruct E as (s5 & w5 & E5 & E).
  unfold Single.get_self in E5; inversion E5; subst s5 w5; clear E5.
  apply bind_inv_Ok in E; destruct E as (c0 & w6 & E6 & E).
  unfold lift in E6;
    cbn [fst snd Py.item nth_error Single.player Single.with_player] in E6.
  inversion E6; subst c0 w6; clear E6.
  apply bind_inv_Ok in E; destruct E as (u7 & w7 & E7 & E).
  destruct (single_count_card_post _ _ _ _ E7) as (Hp1 & ->); clear E7.
  single_proj.
  apply bind_inv_Ok in E; destruct E as (s7 & w7 & E7 & E).
  unfold Single.get_self in E7; inversion E7; subst s7 w7; clear E7.
  apply bind_inv_Ok in E; destruct E as (c1 & w8 & E8 & E).
  unfold lift in E8;
    cbn [fst snd Py.item nth_error Single.player Single.with_player
         Single.with_count] in E8.
  inversion E8; subst c1 w8; clear E8.
  apply bind_inv_Ok in E; destruct E as (u9 & w9 & E9 & E).
  destruct (single_count_card_post _ _ _ _ E9) as (Hp2 & ->); clear E9.
  single_proj.
  match type of E with
  | Single._get_obs ?w = _ => pose proof (single_get_obs_pure w) as Hpure
  end.
  rewrite E in Hpure; cbn [snd] in Hpure; subst w'.
  unfold Single._get_obs, bind, Single.get_self, lift in E;
    cbn [fst snd Py.item nth_error] in E; single_proj.
  destruct (Py.ceil_div52 (Py.len dk2) =? 0); [discriminate |].
  unfold ret in E; inversion E; subst obs; clear E.
  exists d1, d2, p1, p2.
  repeat (split; [reflexivity || assumption |]).
  intros Hge.
  destruct Hno1 as (Hk1 & Hl1 & Hc1); [lia |].
  destruct Hno2 as (Hk2 & Hl2 & Hc2); [unfold Py.len in *; lia |].
  split; [lia |].
  split; [intros r; specialize (Hc1 r); specialize (Hc2 r); lia |].
  rewrite Hk2, Hk1; reflexivity.
Qed.

Lemma sum_hand_snoc_bound (hand : list Z) (card : Z) :
  sum_hand hand < 17 -> 1 <= card <= 10 -> sum_hand (hand ++ [card]) <= 26.
Proof.
  intros Hs Hc.
  pose proof (sum_hand_ge_sum hand) as Hge.
  unfold sum_hand at 1, usable_ace.
  rewrite sum_app, sum_cons; change (Py.sum []) with 0.
  destruct (Py.contains 1 (hand ++ [card])
            && (Py.sum hand + (card + 0) + 10 <=? 21)) eqn:Eu.
  - apply andb_prop in Eu; destruct Eu as [_ Eu]; apply Z.leb_le in Eu; lia.
  - lia.
Qed.

Lemma single_dealer_play_bound (fuel : nat) :
  forall (w w' : Single.World G) u,
    Single.dealer_play fuel w = (Ok u, w') ->
    sum_hand (Single.dealer (snd w)) <= 26 ->
    sum_hand (Single.dealer (snd w')) <= 26.
Proof.
  induction fuel as [| fuel IH]; intros w w' u E Hb.
  - cbn [Single.dealer_play] in E; unfold bind, Single.get_self in E;
      cbn [fst snd] in E.
    destruct (sum_hand (Single.dealer (snd w)) <? 17); [discriminate |].
    inversion E; subst; assumption.
  - cbn [Single.dealer_play] in E.
    apply bind_inv_Ok in E; destruct E as (s & w0 & Eg & E).
    unfold Single.get_self in Eg; inversion Eg; subst s w0; clear Eg.
    destruct (Z.ltb_spec (sum_hand (Single.dealer (snd w))) 17) as [Hlt | Hge].
    + apply bind_inv_Ok in E; destruct E as (card & w1 & Ed & E).
      apply bind_inv_Ok in E; destruct E as (u1 & w2 & Ec & E).
      apply bind_inv_Ok in E; destruct E as (u2 & w3 & Em & E).
      destruct (single_loop_body _ _ _ _ _ _ Ed Ec) as (Hcard & Hd).
      unfold Single.modify_self in Em; inversion Em; subst u2 w3; clear Em.
      apply (IH _ _ _ E); cbn [snd Single.dealer Single.with_dealer].
      rewrite Hd; apply sum_hand_snoc_bound; assumption.
    + inversion E; subst; assumption.
Qed.

(** X13.  The dealer's loop, when it returns from a hand whose total is at
    most 26 (any hand that was dealt, or that an earlier loop has left): the
    dealer's total ends between 17 and 26, so the dealer's score is 0 (bust)
    or between 17 and 21. *)
Theorem single_dealer_play_range (fuel : nat) (w w' : Single.World G) u :
  Single.dealer_play fuel w = (Ok u, w') ->
  sum_hand (Single.dealer (snd w)) <= 26 ->
  17 <= sum_hand (Single.dealer (snd w')) <= 26 /\
  (score (Single.dealer (snd w')) = 0 \/
   17 <= score (Single.dealer (snd w')) <= 21).
Proof.
  intros E Hb.
  pose proof (single_dealer_play_bound _ _ _ _ E Hb) as Hu.
  destruct (single_dealer_play_post _ _ _ _ E) as (drawn & _ & Hl & _).
  split; [lia |].
  unfold score, is_bust.
  destruct (Z.gtb_spec (sum_hand (Single.dealer (snd w'))) 21);
    [left; reflexivity | right; lia].
Qed.

End SingleRoundPost.

(** ** What the shoe operations leave, split environment *)

Section SplitShoePost.

Context {G : Type} `{RandomState G}.


Lemma split_remove_card_post card (w w' : Split.World G) u :
  Split.remove_card card w = (Ok u, w') ->
  exists d',
    w' = (fst w, Split.with_deck d' (snd w)) /\
    S (length d') = length (Split.deck (snd w)) /\
    (forall r, ((if Z.eq_dec card r then 1 else 0) + cnt d' r
                = cnt (Split.deck (snd w)) r)%nat) /\
    In card (Split.deck (snd w)).
Proof.
  intros E.
  unfold Split.remove_card, Split.deck_pop, bind, Split.get_self, lift in E.
  cbn [fst snd] in E.
  destruct (Py.index card (Split.deck (snd w))) as [i | x |] eqn:Ei;
    try discriminate.
  apply index_Ok in Ei.
  rewrite (pop_nth _ _ _ Ei) in E.
  unfold Split.modify_self, ret in E; cbn [fst snd] in E.
  inversion E; subst; clear E.
  exists (Py.remove_nth i (Split.deck (snd w))).
  split; [reflexivity |].
  split; [apply (remove_nth_length _ _ _ Ei) |].
  split; [apply remove_nth_cnt; assumption |].
  apply (nth_error_In _ _ Ei).
Qed.

Lemma split_count_card_post card (w w' : Split.World G) u :
  Split.count_card card w = (Ok u, w') ->
  1 <= card <= 10 /\
  w' = (fst w,
        Split.with_count (Split.count (snd w) + weight card)%Q (snd w)).
Proof.
  intros E; unfold Split.count_card, bind, lift in E.
  destruct (halves card) as [h | x |] eqn:Hh; try discriminate.
  unfold Split.modify_self in E; inversion E; subst; clear E.
  split; [apply (halves_Ok_rank card h Hh) |].
  unfold weight; rewrite Hh; reflexivity.
Qed.

Lemma split_remove_count_loop_post (hand : list Z) :
  forall (w w' : Split.World G) u,
    for_each hand
      (fun card => Split.remove_card card ;; Split.count_card card) w
    = (Ok u, w') ->
    exists d' c',
      w' = (fst w, Split.with_count c' (Split.with_deck d' (snd w))) /\
      (length hand + length d' = length (Split.deck (snd w)))%nat /\
      (forall r, (cnt hand r + cnt d' r = cnt (Split.deck (snd w)) r)%nat) /\
      (c' == Split.count (snd w) + hand_weight hand)%Q /\
      (forall x, In x hand -> 1 <= x <= 10).
Proof.
  induction hand as [| x hand IH]; intros [g e] w' u E.
  - cbn in E; inversion E; subst.
    exists (Split.deck e), (Split.count e); cbn [fst snd].
    rewrite split_eta.
    split; [reflexivity | split; [reflexivity | split; [reflexivity |]]].
    split; [change (hand_weight []) with 0%Q; ring | intros y []].
  - cbn [for_each] in E.
    apply bind_inv_Ok in E; destruct E as (u1 & w1 & E1 & E).
    apply bind_inv_Ok in E1; destruct E1 as (u2 & w2 & Er & Ec).
    destruct (split_remove_card_post _ _ _ _ Er) as (d1 & -> & L1 & C1 & _).
    destruct (split_count_card_post _ _ _ _ Ec) as (Hx & ->).
    cbn [fst snd] in *.
    destruct (IH _ _ _ E) as (d' & c' & -> & L' & C' & Q' & R').
    cbn [fst snd Split.deck Split.count Split.with_deck
         Split.with_count] in *.
    exists d', c'.
    split; [reflexivity |].
    split; [cbn [length]; lia |].
    split; [intros r; specialize (C1 r); specialize (C' r);
            rewrite cnt_cons; lia |].
    split; [rewrite Q', hand_weight_cons; ring |].
    intros y [<- | Hy]; [assumption | apply R'; assumption].
Qed.

Lemma split_remove_loop_post (hand : list Z) :
  forall (w w' : Split.World G) u,
    for_each hand Split.remove_card w = (Ok u, w') ->
    exists d',
      w' = (fst w, Split.with_deck d' (snd w)) /\
      (length hand + length d' = length (Split.deck (snd w)))%nat /\
      (forall r, (cnt hand r + cnt d' r = cnt (Split.deck (snd w)) r)%nat).
Proof.
  induction hand as [| x hand IH]; intros [g e] w' u E.
  - cbn in E; inversion E; subst.
    exists (Split.deck e); cbn [fst snd].
    split; [destruct e; reflexivity | split; reflexivity].
  - cbn [for_each] in E.
    apply bind_inv_Ok in E; destruct E as (u1 & w1 & Er & E).
    destruct (split_remove_card_post _ _ _ _ Er) as (d1 & -> & L1 & C1 & _).
    cbn [fst snd] in *.
    destruct (IH _ _ _ E) as (d' & -> & L' & C').
    cbn [fst snd Split.deck Split.with_deck] in *.
    exists d'.
    split; [reflexivity |].
    split; [cbn [length]; lia |].
    intros r; specialize (C1 r); specialize (C' r); rewrite cnt_cons; lia.
Qed.

Lemma split_count_loop_post (hand : list Z) :
  forall (w w' : Split.World G) u,
    for_each hand Split.count_card w = (Ok u, w') ->
    exists c',
      w' = (fst w, Split.with_count c' (snd w)) /\
      (c' == Split.count (snd w) + hand_weight hand)%Q.
Proof.
  induction hand as [| x hand IH]; intros [g e] w' u E.
  - cbn in E; inversion E; subst.
    exists (Split.count e); cbn [fst snd].
    split; [destruct e; reflexivity |].
    change (hand_weight []) with 0%Q; ring.
  - cbn [for_each] in E.
    apply bind_inv_Ok in E; destruct E as (u1 & w1 & Ec & E).
    destruct (split_count_card_post _ _ _ _ Ec) as (Hx & ->).
    cbn [fst snd] in *.
    destruct (IH _ _ _ E) as (c' & -> & Q').
    cbn [fst snd Split.count Split.with_count] in *.
    exists c'; split; [reflexivity |].
    rewrite Q', hand_weight_cons; ring.
Qed.

Lemma split_reshuffle_post (g : G) (e : Split.Env G) w' u :
  Split.reshuffle (g, e) = (Ok u, w') ->
  exists d' c',
    w' = (g, Split.with_count c' (Split.with_deck d' e)) /\
    (length (Split.player_left e) + length (Split.player_right e)
     + length (Split.dealer e) + length d'
     = 52 * Z.to_nat (Split.num_decks e))%nat /\
    (forall r,
       (cnt (Split.player_left e) r + cnt (Split.player_right e) r
        + cnt (Split.dealer e) r + cnt d' r
        = cnt (fresh_deck (Split.num_decks e)) r)%nat) /\
    (shoe_weight d' + hand_weight (Split.player_left e)
     + hand_weight (Split.player_right e)
     + hand_weight (Split.dealer e) == 0)%Q /\
    (c' == hand_weight (Split.player_left e)
           + hand_weight (Split.player_right e)
           + hand_weight (Py.but_last (Split.dealer e))
           + (if Split.done_left e && Split.done_right e
              then last_weight (Split.dealer e) else 0))%Q.
Proof.
  intros E; unfold Split.reshuffle in E.
  apply bind_inv_Ok in E; destruct E as (u0 & w0 & E0 & E).
  unfold Split.reset_deck, Split.modify_self in E0.
  inversion E0; subst w0; clear E0.
  apply bind_inv_Ok in E; destruct E as (u1 & w1 & E1 & E).
  unfold Split.modify_self in E1; inversion E1; subst w1; clear E1.
  apply bind_inv_Ok in E; destruct E as (s1 & w1 & E1 & E).
  unfold Split.get_self in E1; inversion E1; subst s1 w1; clear E1.
  cbn [fst snd Split.player_left Split.with_count Split.with_deck] in E.
  apply bind_inv_Ok in E; destruct E as (u2 & w2 & Ep & E).
  destruct (split_remove_count_loop_post _ _ _ _ Ep)
    as (d1 & c1 & -> & L1 & C1 & Q1 & R1).
  cbn [fst snd Split.deck Split.count Split.with_count Split.with_deck]
    in *.
  apply bind_inv_Ok in E; destruct E as (s2 & w2 & E2 & E).
  unfold Split.get_self in E2; inversion E2; subst s2 w2; clear E2.
  cbn [fst snd Split.player_right Split.with_count Split.with_deck] in E.
  apply bind_inv_Ok in E; destruct E as (u2' & w2 & Ep' & E).
  destruct (split_remove_count_loop_post _ _ _ _ Ep')
    as (d1' & c1' & -> & L1' & C1' & Q1' & R1').
  cbn [fst snd Split.deck Split.count Split.with_count Split.with_deck]
    in *.
  apply bind_inv_Ok in E; destruct E as (s2 & w2 & E2 & E).
  unfold Split.get_self in E2; inversion E2; subst s2 w2; clear E2.
  cbn [fst snd Split.dealer Split.with_count Split.with_deck] in E.
  apply bind_inv_Ok in E; destruct E as (u3 & w3 & Ed & E).
  destruct (split_remove_loop_post _ _ _ _ Ed) as (d2 & -> & L2 & C2).
  cbn [fst snd Split.deck Split.count Split.with_count Split.with_deck]
    in *.
  apply bind_inv_Ok in E; destruct E as (s3 & w3 & E3 & E).
  unfold Split.get_self in E3; inversion E3; subst s3 w3; clear E3.
  cbn [fst snd Split.dealer Split.with_count Split.with_deck] in E.
  apply bind_inv_Ok in E; destruct E as (u4 & w4 & Eb & E).
  destruct (split_count_loop_post _ _ _ _ Eb) as (c3 & -> & Q3).
  cbn [fst snd Split.deck Split.count Split.with_count Split.with_deck]
    in *.
  apply bind_inv_Ok in E; destruct E as (s4 & w4 & E4 & E).
  unfold Split.get_self in E4; inversion E4; subst s4 w4; clear E4.
  cbn [fst snd Split.dealer Split.done_left Split.done_right
       Split.with_count Split.with_deck] in E.
  (* the dealer's cards are ranks of the table: they were in the shoe *)
  assert (Rd : forall x, In x (Split.dealer e) -> 1 <= x <= 10).
  { intros x Hx; apply (fresh_deck_ranks (Split.num_decks e)), cnt_In.
    apply cnt_In in Hx; specialize (C1 x); specialize (C1' x);
      specialize (C2 x); lia. }
  assert (Hshoe : (shoe_weight d2 + hand_weight (Split.player_left e)
                   + hand_weight (Split.player_right e)
                   + hand_weight (Split.dealer e) == 0)%Q).
  { rewrite <- (shoe_weight_hand _ R1), <- (shoe_weight_hand _ R1'),
      <- (shoe_weight_hand _ Rd).
    rewrite <- (shoe_weight_fresh_deck (Split.num_decks e)).
    rewrite <- (shoe_weight_add d1 (Split.player_left e)
                  (fresh_deck (Split.num_decks e)))
      by (intros r; specialize (C1 r); lia).
    rewrite <- (shoe_weight_add d1' (Split.player_right e) d1)
      by (intros r; specialize (C1' r); lia).
    rewrite <- (shoe_weight_add d2 (Split.dealer e) d1')
      by (intros r; specialize (C2 r); lia).
    ring. }
  assert (Hpost : exists c',
    w' = (g, Split.with_count c' (Split.with_deck d2 e)) /\
    (c' == hand_weight (Split.player_left e)
           + hand_weight (Split.player_right e)
           + hand_weight (Py.but_last (Split.dealer e))
           + (if Split.done_left e && Split.done_right e
              then last_weight (Split.dealer e) else 0))%Q).
  { destruct (Split.done_left e && Split.done_right e).
    - apply bind_inv_Ok in E; destruct E as (s5 & w5 & E5 & E).
      unfold Split.get_self in E5; inversion E5; subst s5 w5; clear E5.
      cbn [fst snd Split.dealer Split.with_count Split.with_deck] in E.
      apply bind_inv_Ok in E; destruct E as (card & w6 & El & E).
      unfold lift in El; inversion El as [[Hl Hw]]; subst w6; clear El.
      destruct (split_count_card_post _ _ _ _ E) as (_ & ->).
      eexists; split; [destruct e; reflexivity |].
      cbn [fst snd Split.count Split.with_count].
      unfold last_weight; rewrite Hl, Q3, Q1', Q1; ring.
    - inversion E; subst.
      exists c3; split; [destruct e; reflexivity |].
      rewrite Q3, Q1', Q1; ring. }
  destruct Hpost as (c' & -> & Qc).
  exists d2, c'.
  split; [reflexivity |].
  split; [rewrite <- fresh_deck_length; lia |].
  split; [intros r; specialize (C1 r); specialize (C1' r);
          specialize (C2 r); lia |].
  split; [rewrite <- Hshoe; ring | exact Qc].
Qed.

(** X16.  The reshuffle of [draw_card] in the split environment, when it
    returns: the generator is not used and only the shoe and the counter
    change; the shoe is the fresh one less the cards of the three hands; and
    the shoe's weighted content plus the counter is minus the weight of the
    dealer's last card, or 0 when both hands are done.  So the reshuffle
    keeps that quantity exactly when it had this value before. *)
Theorem split_reshuffle_books (g : G) (e : Split.Env G) w' u :
  Split.reshuffle (g, e) = (Ok u, w') ->
  exists d' c',
    w' = (g, Split.with_count c' (Split.with_deck d' e)) /\
    (length (Split.player_left e) + length (Split.player_right e)
     + length (Split.dealer e) + length d'
     = 52 * Z.to_nat (Split.num_decks e))%nat /\
    (forall r,
       (cnt (Split.player_left e) r + cnt (Split.player_right e) r
        + cnt (Split.dealer e) r + cnt d' r
        = cnt (fresh_deck (Split.num_decks e)) r)%nat) /\
    (Split.books (snd w')
     == - (if Split.done_left e && Split.done_right e
           then 0 else last_weight (Split.dealer e)))%Q /\
    ((Split.books (snd w') == Split.books e)%Q <->
     (Split.books e
      == - (if Split.done_left e && Split.done_right e
            then 0 else last_weight (Split.dealer e)))%Q).
Proof.
  intros E.
  destruct (split_reshuffle_post g e w' u E)
    as (d' & c' & -> & L & C & Hshoe & Qc).
  exists d', c'.
  split; [reflexivity |].
  split; [exact L |].
  split; [exact C |].
  assert (Hbooks :
    (Split.books (Split.with_count c' (Split.with_deck d' e))
     == - (if Split.done_left e && Split.done_right e
           then 0 else last_weight (Split.dealer e)))%Q).
  { unfold Split.books; cbn [Split.deck Split.count Split.with_count
                               Split.with_deck].
    pose proof (hand_weight_last (Split.dealer e)) as Hl.
    destruct (Split.done_left e && Split.done_right e);
      cbv iota in *; lra. }
  cbn [snd]; split; [exact Hbooks |].
  rewrite Hbooks; split; intros E'; rewrite E'; reflexivity.
Qed.

End SplitShoePost.

(** ** Drawing, split environment *)

Section SplitDrawPost.

Context {G : Type} `{RandomState G}.

Lemma split_draw_card_post (rng g : G) (e : Split.Env G) card w' :
  Split.draw_card rng (g, e) = (Ok card, w') ->
  (exists d' c', snd w' = Split.with_count c' (Split.with_deck d' e)) /\
  fst w' = snd (rs_randint g 0 (Py.len (Split.deck (snd w')) + 1)) /\
  (Split.shuffle_on e <= Py.len (Split.deck e) ->
   Split.count (snd w') = Split.count e /\
   In card (Split.deck e) /\
   S (length (Split.deck (snd w'))) = length (Split.deck e) /\
   forall r, ((if Z.eq_dec card r then 1 else 0)
              + cnt (Split.deck (snd w')) r
              = cnt (Split.deck e) r)%nat) /\
  (Py.len (Split.deck e) < Split.shuffle_on e ->
   1 <= card <= 10 /\
   (length (Split.player_left e) + length (Split.player_right e)
    + length (Split.dealer e) + S (length (Split.deck (snd w')))
    = 52 * Z.to_nat (Split.num_decks e))%nat /\
   forall r, (cnt (Split.player_left e) r + cnt (Split.player_right e) r
              + cnt (Split.dealer e) r
              + (if Z.eq_dec card r then 1 else 0)
              + cnt (Split.deck (snd w')) r
              = cnt (fresh_deck (Split.num_decks e)) r)%nat).
Proof.
  intros E; unfold Split.draw_card in E.
  rewrite (bind_Ok _ _ (g, e) e (g, e)) in E by reflexivity.
  apply bind_inv_Ok in E; destruct E as (u1 & w1 & E1 & E).
  apply bind_inv_Ok in E; destruct E as (s1 & w1' & Eg & E).
  unfold Split.get_self in Eg; inversion Eg; subst s1 w1'; clear Eg.
  apply bind_inv_Ok in E; destruct E as (i & w2 & Er & E).
  unfold Split.np_random_randint in Er.
  destruct (0 <? Py.len (Split.deck (snd w1))); [| discriminate].
  inversion Er; subst i w2; clear Er.
  unfold Split.deck_pop, bind, Split.get_self, lift in E; cbn [fst snd] in E.
  destruct (Py.pop _ (Split.deck (snd w1))) as [[x d''] | x |] eqn:Ep;
    try discriminate.
  unfold Split.modify_self, ret in E; cbn [fst snd] in E.
  inversion E; subst x w'; clear E.
  destruct (pop_Ok _ _ _ _ Ep) as (j & Hj & ->).
  pose proof (remove_nth_length _ _ _ Hj) as Hlen.
  pose proof (remove_nth_cnt _ _ _ Hj) as Hcnt.
  cbn [fst snd Split.deck Split.with_deck].
  assert (Hgen : Py.len (Py.remove_nth j (Split.deck (snd w1))) + 1
                 = Py.len (Split.deck (snd w1)))
    by (unfold Py.len; lia).
  rewrite Hgen.
  destruct (Z.ltb_spec (Py.len (Split.deck e)) (Split.shuffle_on e))
    as [Hlt | Hge].
  - destruct w1 as [g1 e1].
    destruct (split_reshuffle_post g e _ _ E1)
      as (d1 & c1 & Ew & L1 & C1 & _).
    inversion Ew; subst g1 e1; clear Ew.
    cbn [fst snd Split.deck Split.with_deck Split.with_count] in *.
    split; [exists (Py.remove_nth j d1), c1; reflexivity |].
    split; [reflexivity |].
    split; [intros Hno; lia |].
    intros _.
    split; [| split].
    + apply (fresh_deck_ranks (Split.num_decks e)), cnt_In.
      apply nth_error_In, cnt_In in Hj; specialize (C1 card); lia.
    + lia.
    + intros r; specialize (C1 r); specialize (Hcnt r); lia.
  - inversion E1; subst w1; clear E1.
    cbn [fst snd] in *.
    split.
    { exists (Py.remove_nth j (Split.deck e)), (Split.count e).
      destruct e; reflexivity. }
    split; [reflexivity |].
    split; [| intros Hlt; lia].
    intros _.
    split; [reflexivity |].
    split; [apply (nth_error_In _ _ Hj) |].
    split; [exact Hlen | exact Hcnt].
Qed.

(** X17.  [draw_card] of the split environment, when it returns a card.  Only
    the shoe and the counter can have changed, and [np.random] was asked
    once, for an index into the shoe as it was before the card left it.
    Without a reshuffle the counter is as it was and the shoe before the draw
    holds the card and the cards of the shoe after it.  With a reshuffle the
    card is a rank of the table, and the three hands, the card and the shoe
    together are a fresh shoe. *)
Theorem split_draw_card_spec (rng g : G) (e : Split.Env G) card w' :
  Split.draw_card rng (g, e) = (Ok card, w') ->
  (exists d' c', snd w' = Split.with_count c' (Split.with_deck d' e)) /\
  fst w' = snd (rs_randint g 0 (Py.len (card :: Split.deck (snd w')))) /\
  (Split.shuffle_on e <= Py.len (Split.deck e) ->
   Split.count (snd w') = Split.count e /\
   In card (Split.deck e) /\
   length (card :: Split.deck (snd w')) = length (Split.deck e) /\
   forall r, cnt (card :: Split.deck (snd w')) r = cnt (Split.deck e) r) /\
  (Py.len (Split.deck e) < Split.shuffle_on e ->
   1 <= card <= 10 /\
   length (Split.player_left e ++ Split.player_right e ++ Split.dealer e
           ++ card :: Split.deck (snd w'))
   = (52 * Z.to_nat (Split.num_decks e))%nat /\
   forall r,
     cnt (Split.player_left e ++ Split.player_right e ++ Split.dealer e
           ++ card :: Split.deck (snd w')) r
     = cnt (fresh_deck (Split.num_decks e)) r).
Proof.
  intros E.
  destruct (split_draw_card_post rng g e card w' E)
    as (Hst & Hg & Hno & Hre).
  split; [exact Hst |].
  split.
  { rewrite Hg; unfold Py.len; cbn [length].
    rewrite Nat2Z.inj_succ; unfold Z.succ; reflexivity. }
  split.
  - intros Hge; destruct (Hno Hge) as (Hc & Hin & Hl & Hcnt).
    split; [exact Hc |].
    split; [exact Hin |].
    split; [exact Hl |].
    intros r; rewrite cnt_cons; apply Hcnt.
  - intros Hlt; destruct (Hre Hlt) as (Hr & Hl & Hcnt).
    split; [exact Hr |].
    split.
    + rewrite !length_app; cbn [length]; lia.
    + intros r; rewrite !cnt_app, cnt_cons; specialize (Hcnt r); lia.
Qed.

(** X18.  In the split environment too, drawing from an empty shoe that is
    not due for a reshuffle ([shuffle_on <= 0]) raises ValueError, and
    nothing has changed. *)
Theorem split_draw_card_empty (rng g : G) (e : Split.Env G) :
  Split.deck e = [] ->
  Split.shuffle_on e <= 0 ->
  Split.draw_card rng (g, e) = (Raise ValueError, (g, e)).
Proof.
  intros Hd Hs; unfold Split.draw_card.
  rewrite (bind_Ok _ _ (g, e) e (g, e)) by reflexivity.
  rewrite Hd; change (Py.len (@nil Z)) with 0.
  destruct (Z.ltb_spec 0 (Split.shuffle_on e)); [lia |].
  rewrite (bind_Ok _ _ (g, e) tt (g, e)) by reflexivity.
  rewrite (bind_Ok _ _ (g, e) e (g, e)) by reflexivity.
  rewrite Hd; reflexivity.
Qed.

End SplitDrawPost.

(** ** The split hand and the deferred play, split environment *)

Section SplitRoundPost.

Context {G : Type} `{RandomState G}.

Ltac split_proj :=
  cbn [fst snd Split.natural Split.num_decks Split.shuffle_on Split.deck
       Split.count Split.player_left Split.done_left Split.reward_left
       Split.player_right Split.done_right Split.reward_right Split.dealer
       Split.split_possible Split.action_space_n Split.np_random
       Split.with_deck Split.with_count Split.with_player_left
       Split.with_done_left Split.with_reward_left Split.with_player_right
       Split.with_done_right Split.with_reward_right Split.with_dealer
       Split.with_split_possible Split.with_action_space_n
       Split.with_np_random] in *.

Lemma split_hit_left_post (g : G) (e : Split.Env G) w1 u :
  Split.hit_left (g, e) = (Ok u, w1) ->
  exists card d' c',
    1 <= card <= 10 /\
    snd w1 = Split.with_player_left (Split.player_left e ++ [card])
               (Split.with_count (c' + weight card)%Q
                  (Split.with_deck d' e)) /\
    (Split.shuffle_on e <= Py.len (Split.deck e) ->
     c' = Split.count e /\ S (length d') = length (Split.deck e)).
Proof.
  intros E; unfold Split.hit_left in E.
  apply bind_inv_Ok in E; destruct E as (s & w0 & Eg & E).
  unfold Split.get_self in Eg; inversion Eg; subst s w0; clear Eg.
  apply bind_inv_Ok in E; destruct E as (card & [gd ed] & Ed & E).
  apply bind_inv_Ok in E; destruct E as (u1 & wc & Ec & E).
  destruct (split_count_card_post _ _ _ _ Ec) as (Hc & ->).
  unfold Split.modify_self in E; inversion E; subst; clear E.
  destruct (split_draw_card_post _ _ _ _ _ Ed)
    as ((d' & c' & Ewd) & _ & Hno & _).
  cbn [snd] in Ewd, Hno; subst ed; split_proj.
  exists card, d', c'; split; [exact Hc |].
  split; [reflexivity |].
  intros Hge; destruct (Hno Hge) as (Hk & _ & Hl & _); auto.
Qed.

Lemma split_hit_right_full_post (g : G) (e : Split.Env G) w1 u :
  Split.hit_right (g, e) = (Ok u, w1) ->
  exists card d' c',
    1 <= card <= 10 /\
    snd w1 = Split.with_player_right (Split.player_right e ++ [card])
               (Split.with_count (c' + weight card)%Q
                  (Split.with_deck d' e)) /\
    (Split.shuffle_on e <= Py.len (Split.deck e) ->
     c' = Split.count e /\ S (length d') = length (Split.deck e)).
Proof.
  intros E; unfold Split.hit_right in E.
  apply bind_inv_Ok in E; destruct E as (s & w0 & Eg & E).
  unfold Split.get_self in Eg; inversion Eg; subst s w0; clear Eg.
  apply bind_inv_Ok in E; destruct E as (card & [gd ed] & Ed & E).
  apply bind_inv_Ok in E; destruct E as (u1 & wc & Ec & E).
  destruct (split_count_card_post _ _ _ _ Ec) as (Hc & ->).
  unfold Split.modify_self in E; inversion E; subst; clear E.
  destruct (split_draw_card_post _ _ _ _ _ Ed)
    as ((d' & c' & Ewd) & _ & Hno & _).
  cbn [snd] in Ewd, Hno; subst ed; split_proj.
  exists card, d', c'; split; [exact Hc |].
  split; [reflexivity |].
  intros Hge; destruct (Hno Hge) as (Hk & _ & Hl & _); auto.
Qed.

Lemma split_step_split_post (g : G) (e : Split.Env G) w1 u :
  Split.step_split (g, e) = (Ok u, w1) ->
  exists a b rest c1 c2 d' c',
    Split.player_left e = a :: b :: rest /\
    1 <= c1 <= 10 /\ 1 <= c2 <= 10 /\
    snd w1 = Split.with_done_right false
               (Split.with_split_possible false
                  (Split.with_action_space_n 3
                     (Split.with_player_right
                        (Split.player_right e ++ [b; c2])
                        (Split.with_player_left (a :: rest ++ [c1])
                           (Split.with_count c' (Split.with_deck d' e)))))) /\
    (Split.shuffle_on e + 1 <= Py.len (Split.deck e) ->
     c' = (Split.count e + weight c1 + weight c2)%Q /\
     (length d' + 2 = length (Split.deck e))%nat).
Proof.
  intros E; unfold Split.step_split in E.
  apply bind_inv_Ok in E; destruct E as (s & w0 & Eg & E).
  unfold Split.get_self in Eg; inversion Eg; subst s w0; clear Eg.
  apply bind_inv_Ok in E; destruct E as ([b rest'] & w0 & Ep & E).
  unfold lift in Ep; cbn [snd] in Ep.
  inversion Ep as [[Hpop Hw0]]; subst w0; clear Ep.
  destruct (Split.player_left e) as [| a [| b' rest]] eqn:El;
    try discriminate.
  change (Py.pop 1 (a :: b' :: rest))
    with (Py.pop (Z.of_nat 1) (a :: b' :: rest)) in Hpop.
  rewrite (pop_nth (a :: b' :: rest) 1 b' eq_refl) in Hpop.
  inversion Hpop; subst b rest'; clear Hpop.
  cbn [fst snd Py.remove_nth] in E.
  apply bind_inv_Ok in E; destruct E as (u1 & w1' & E1 & E).
  unfold Split.modify_self in E1; inversion E1; subst u1 w1'; clear E1.
  apply bind_inv_Ok in E; destruct E as (u2 & w2 & E2 & E).
  unfold Split.modify_self in E2; inversion E2; subst u2 w2; clear E2.
  split_proj.
  apply bind_inv_Ok in E; destruct E as (u3 & [g3 e3] & E3 & E).
  destruct (split_hit_left_post _ _ _ _ E3)
    as (c1 & d1 & k1 & Hc1 & Ee3 & Hno1).
  cbn [snd] in Ee3; subst e3; split_proj.
  apply bind_inv_Ok in E; destruct E as (u4 & [g4 e4] & E4 & E).
  destruct (split_hit_right_full_post _ _ _ _ E4)
    as (c2 & d2 & k2 & Hc2 & Ee4 & Hno2).
  cbn [snd] in Ee4; subst e4; split_proj.
  unfold bind, Split.modify_self in E; cbn [fst snd] in E.
  inversion E; subst w1; clear E.
  exists a, b', rest, c1, c2, d2, (k2 + weight c2)%Q.
  split; [reflexivity |].
  split; [exact Hc1 |].
  split; [exact Hc2 |].
  split.
  { cbn [snd]; rewrite <- app_assoc; destruct e; reflexivity. }
  intros Hge.
  destruct Hno1 as (Hk1 & Hl1); [lia |].
  destruct Hno2 as (Hk2 & Hl2); [unfold Py.len in *; lia |].
  split; [rewrite Hk2, Hk1; reflexivity | lia].
Qed.

(** X20.  SPLIT in the split environment, when [step] returns.  It was legal
    ([action_space.n] above 3) and the left hand had at least two cards; its
    second card has moved to the end of the right hand, and then the left and
    the right hand have each been dealt one card, ranks of the table.  The
    right hand is open, [split_possible] is false and [action_space.n] is 3,
    so that a second SPLIT is rejected with AssertionError and changes
    nothing.  The dealer, the left flag and both rewards are as they were;
    the step returns their sum, and the terminal flag false.  When neither
    draw reshuffled, two cards have left the shoe and the counter has moved
    by the weights of both. *)
Theorem split_split_spec fuel (g : G) (e : Split.Env G)
    obs reward terminal w' :
  Split.step fuel 3 (g, e) = (Ok (obs, reward, terminal), w') ->
  4 <= Split.action_space_n e /\
  (exists a b rest c1 c2,
     Split.player_left e = a :: b :: rest /\
     1 <= c1 <= 10 /\ 1 <= c2 <= 10 /\
     Split.player_left (snd w') = a :: rest ++ [c1] /\
     Split.player_right (snd w') = Split.player_right e ++ [b; c2] /\
     (Split.shuffle_on e + 1 <= Py.len (Split.deck e) ->
      Split.count (snd w')
      = (Split.count e + weight c1 + weight c2)%Q /\
      (length (Split.deck (snd w')) + 2 = length (Split.deck e))%nat)) /\
  Split.dealer (snd w') = Split.dealer e /\
  Split.done_left (snd w') = Split.done_left e /\
  Split.done_right (snd w') = false /\
  Split.reward_left (snd w') = Split.reward_left e /\
  Split.reward_right (snd w') = Split.reward_right e /\
  Split.split_possible (snd w') = false /\
  Split.action_space_n (snd w') = 3 /\
  reward = (Split.reward_left e + Split.reward_right e)%Q /\
  terminal = false /\
  forall fuel', Split.step fuel' 3 w' = (Raise AssertionError, w').
Proof.
  intros E; unfold Split.step in E.
  apply bind_inv_Ok in E; destruct E as (s & w0 & Eg & E).
  unfold Split.get_self in Eg; inversion Eg; subst s w0; clear Eg.
  cbn [snd] in E.
  destruct (discrete_contains (Split.action_space_n e) 3) eqn:En;
    [| discriminate].
  cbn [negb Z.eqb Pos.eqb] in E.
  apply bind_inv_Ok in E; destruct E as (u1 & w1 & Es & E).
  apply bind_inv_Ok in E; destruct E as (obs' & w2 & Eo & E).
  pose proof (split_get_obs_pure w1) as Hpure.
  rewrite Eo in Hpure; cbn [snd] in Hpure; subst w2.
  unfold bind, Split.get_self, ret in E; cbn [fst snd] in E.
  inversion E; subst obs' reward terminal w'; clear E.
  destruct (split_step_split_post _ _ _ _ Es)
    as (a & b & rest & c1 & c2 & d' & c' & El & Hc1 & Hc2 & Ew & Hno).
  destruct w1 as [g1 e1]; cbn [snd] in *; subst e1; split_proj.
  split.
  { unfold discrete_contains in En; apply andb_prop in En.
    destruct En as [_ En]; apply Z.ltb_lt in En; lia. }
  split.
  { exists a, b, rest, c1, c2; repeat (split; [assumption || reflexivity |]).
    exact Hno. }
  repeat (split; [reflexivity |]).
  split; [apply andb_false_r |].
  intros fuel'; reflexivity.
Qed.

(** X21.  STAND on the left hand while the right hand is still open: the step
    only closes the left hand.  No card is drawn, the dealer does not play,
    nothing is counted and no reward is set; the step returns the observation
    of that state, the sum of the two stored rewards and the terminal flag
    false. *)
Theorem split_stand_left_defers fuel (g : G) (e : Split.Env G) :
  0 < Split.action_space_n e ->
  Split.done_left e = false ->
  Split.done_right e = false ->
  snd (Split.step fuel 0 (g, e)) = (g, Split.with_done_left true e) /\
  forall obs,
    fst (Split._get_obs (g, Split.with_done_left true e)) = Ok obs ->
    fst (Split.step fuel 0 (g, e))
    = Ok (obs, (Split.reward_left e + Split.reward_right e)%Q, false).
Proof.
  intros Hn Hl Hr.
  assert (Hg : discrete_contains (Split.action_space_n e) 0 = true).
  { unfold discrete_contains; apply andb_true_intro; split;
      [reflexivity | apply Z.ltb_lt; assumption]. }
  assert (Hs : Split.step_stand fuel (g, e)
               = (Ok tt, (g, Split.with_done_left true e))).
  { unfold Split.step_stand.
    rewrite (bind_Ok _ _ (g, e) e (g, e)) by reflexivity.
    rewrite Hl; cbn [negb].
    rewrite (bind_Ok _ _ (g, e) tt (g, Split.with_done_left true e))
      by reflexivity.
    rewrite (bind_Ok _ _ _ (Split.with_done_left true e)
               (g, Split.with_done_left true e)) by reflexivity.
    cbn [Split.done_right Split.with_done_left]; rewrite Hr; reflexivity. }
  assert (Hstep : Split.step fuel 0 (g, e)
    = match Split._get_obs (g, Split.with_done_left true e) with
      | (Ok obs, w) =>
          (Ok (obs, (Split.reward_left e + Split.reward_right e)%Q, false),
           w)
      | (Raise x, w) => (Raise x, w)
      | (OutOfFuel, w) => (OutOfFuel, w)
      end).
  { unfold Split.step.
    rewrite (bind_Ok _ _ (g, e) e (g, e)) by reflexivity.
    rewrite Hg; cbn [negb Z.eqb].
    rewrite (bind_Ok _ _ _ _ _ Hs).
    pose proof (split_get_obs_pure (g, Split.with_done_left true e)) as Hp.
    unfold bind at 1.
    destruct (Split._get_obs (g, Split.with_done_left true e))
      as [[obs | x |] w]; cbn [snd] in Hp; subst w; try reflexivity.
    unfold bind, Split.get_self, ret;
      cbn [fst snd Split.done_left Split.done_right Split.reward_left
           Split.reward_right Split.with_done_left].
    rewrite Hr; reflexivity. }
  pose proof (split_get_obs_pure (g, Split.with_done_left true e)) as Hpure.
  rewrite Hstep.
  destruct (Split._get_obs (g, Split.with_done_left true e))
    as [[obs | x |] w]; cbn [fst snd] in *; subst w.
  - split; [reflexivity |].
    intros obs' Eo; inversion Eo; subst; reflexivity.
  - split; [reflexivity | intros obs' Eo; discriminate].
  - split; [reflexivity | intros obs' Eo; discriminate].
Qed.

End SplitRoundPost.

(** ** What [step] and [reset] never assign *)

Section ConfigFrame.

Context {G : Type} `{RandomState G}.

Lemma single_get_obs_frame {X} (f : Single.Env G -> X) :
  preserves (fun w => f (snd w)) Single._get_obs.
Proof.
  intros w; exact (f_equal (fun v => f (snd v)) (single_get_obs_pure w)).
Qed.

Lemma single_draw_hand_frame {X} (f : Single.Env G -> X) :
  (forall d e, f (Single.with_deck d e) = f e) ->
  (forall c e, f (Single.with_count c e) = f e) ->
  forall r, preserves (fun w => f (snd w)) (Single.draw_hand r).
Proof.
  intros f_deck f_count r; unfold Single.draw_hand.
  apply preserves_bind; [apply (single_draw_card_frame f); assumption |].
  intros c1; apply preserves_bind; [| intros c2; apply preserves_ret].
  intros w; apply (single_draw_card_frame f); assumption.
Qed.

Ltac single_frame f :=
  repeat first
    [ apply (single_get_self_frame f)
    | apply (single_modify_self_frame f); intros; reflexivity
    | apply (single_count_card_frame f); intros; reflexivity
    | apply (single_count_dealer_item_frame f); intros; reflexivity
    | apply (single_draw_card_frame f); intros; reflexivity
    | apply (single_draw_hand_frame f); intros; reflexivity
    | apply (single_hit_player_frame f); intros; reflexivity
    | apply (single_dealer_play_frame f); intros; reflexivity
    | apply (single_get_obs_frame f)
    | apply preserves_ret
    | apply preserves_raise
    | apply preserves_lift
    | apply preserves_if
    | apply preserves_bind; [| intro] ].

Lemma single_step_config fuel action :
  preserves (fun w : Single.World G => single_config (snd w))
    (Single.step fuel action).
Proof. unfold Single.step; single_frame (@single_config G). Qed.

Lemma single_reset_config :
  preserves (fun w : Single.World G => single_config (snd w)) Single.reset.
Proof.
  unfold Single.reset, Single.reset_deck; single_frame (@single_config G).
Qed.

(** X15.  In the single-hand environment neither [step], whatever the action
    and however it ends, nor [reset] changes [natural], [num_decks],
    [shuffle_on] or the seeded generator [np_random]: only [__init__] and
    [seed] assign them. *)
Theorem single_config_fixed fuel action (w : Single.World G) :
  single_config (snd (snd (Single.step fuel action w))) = single_config (snd w)
  /\ single_config (snd (snd (Single.reset w))) = single_config (snd w).
Proof.
  split.
  - apply (single_step_config fuel action w).
  - apply (single_reset_config w).
Qed.

Ltac split_frame f :=
  repeat first
    [ apply (split_get_self_frame f)
    | apply (split_modify_self_frame f); intros; reflexivity
    | apply (split_count_card_frame f); intros; reflexivity
    | apply (split_count_dealer_item_frame f); intros; reflexivity
    | apply (split_draw_hand_frame f); intros; reflexivity
    | apply (split_hit_left_frame f); intros; reflexivity
    | apply (split_hit_right_frame f); intros; reflexivity
    | apply (split_step_hit_frame f); intros; reflexivity
    | apply (split_step_stand_frame f); intros; reflexivity
    | apply (split_step_double_frame f); intros; reflexivity
    | apply (split_get_obs_frame f)
    | apply preserves_ret
    | apply preserves_raise
    | apply preserves_lift
    | apply preserves_if
    | apply preserves_bind; [| intro] ].

Lemma split_step_config fuel action :
  preserves (fun w : Split.World G => split_config (snd w))
    (Split.step fuel action).
Proof.
  unfold Split.step.
  apply preserves_bind;
    [apply (split_get_self_frame split_config) | intros self].
  apply preserves_if; [apply preserves_raise |].
  apply preserves_bind; [| intro].
  - apply preserves_if;
      [apply (split_step_hit_frame split_config); intros; reflexivity |].
    apply preserves_if;
      [apply (split_step_stand_frame split_config); intros; reflexivity |].
    apply preserves_if;
      [apply (split_step_double_frame split_config); intros; reflexivity |].
    apply preserves_if; [| apply preserves_ret].
    unfold Split.step_split; split_frame (@split_config G).
  - split_frame (@split_config G).
Qed.

Lemma split_reset_config :
  preserves (fun w : Split.World G => split_config (snd w)) Split.reset.
Proof.
  unfold Split.reset, Split.reset_deck.
  split_frame (@split_config G).
Qed.

(** X27.  In the split environment neither [step], whatever the action and
    however it ends, nor [reset] changes [natural], [num_decks], [shuffle_on]
    or the seeded generator [np_random]. *)
Theorem split_config_fixed fuel action (w : Split.World G) :
  split_config (snd (snd (Split.step fuel action w))) = split_config (snd w)
  /\ split_config (snd (snd (Split.reset w))) = split_config (snd w).
Proof.
  split.
  - apply (split_step_config fuel action w).
  - apply (split_reset_config w).
Qed.

(** The legal actions follow [split_possible]. *)

Let legal (e : Split.Env G) : Z * bool :=
  (Split.action_space_n e, Split.split_possible e).

Lemma split_step_legal_other fuel action :
  action <> 3 ->
  preserves (fun w : Split.World G => legal (snd w)) (Split.step fuel action).
Proof.
  intros Ha; unfold Split.step.
  apply preserves_bind; [apply (split_get_self_frame legal) | intros self].
  apply preserves_if; [apply preserves_raise |].
  apply preserves_bind; [| intro].
  - apply preserves_if;
      [apply (split_step_hit_frame legal); intros; reflexivity |].
    apply preserves_if;
      [apply (split_step_stand_frame legal); intros; reflexivity |].
    apply preserves_if;
      [apply (split_step_double_frame legal); intros; reflexivity |].
    destruct (Z.eqb_spec action 3) as [E | _]; [contradiction |].
    apply preserves_ret.
  - split_frame legal.
Qed.

Lemma split_run_legal fuel (actions : list Z) :
  forall (w w' : Split.World G) rs,
    Split.run fuel actions w = (Ok rs, w') ->
    Split.action_space_n (snd w)
    = (if Split.split_possible (snd w) then 4 else 3) ->
    Split.action_space_n (snd w')
    = (if Split.split_possible (snd w') then 4 else 3).
Proof.
  induction actions as [| a rest IH]; intros w w' rs E Hinv.
  - inversion E; subst; assumption.
  - cbn [Split.run] in E.
    apply bind_inv_Ok in E; destruct E as (r & w1 & E1 & E).
    apply bind_inv_Ok in E; destruct E as (rs' & w2 & E2 & E).
    inversion E; subst; clear E.
    apply (IH _ _ _ E2).
    destruct (Z.eq_dec a 3) as [-> | Hne].
    + unfold Split.step in E1.
      apply bind_inv_Ok in E1; destruct E1 as (s & w0 & Eg & E1).
      unfold Split.get_self in Eg; inversion Eg; subst s w0; clear Eg.
      destruct (negb _); [discriminate |].
      cbn [Z.eqb Pos.eqb] in E1.
      apply bind_inv_Ok in E1; destruct E1 as (u1 & w3 & Es & E1).
      apply bind_inv_Ok in E1; destruct E1 as (obs' & w4 & Eo & E1).
      pose proof (split_get_obs_pure w3) as Hpure.
      rewrite Eo in Hpure; cbn [snd] in Hpure; subst w4.
      unfold bind, Split.get_self, ret in E1; cbn [fst snd] in E1.
      inversion E1; subst; clear E1.
      destruct w as [g e].
      destruct (split_step_split_post _ _ _ _ Es)
        as (a & b & rest' & c1 & c2 & d' & c' & _ & _ & _ & Ew & _).
      rewrite Ew; reflexivity.
    + pose proof (preserves_eq _ _ _ _ _
                    (split_step_legal_other fuel a Hne) E1) as Hk.
      unfold legal in Hk; inversion Hk as [[Hn Hf]].
      rewrite Hn, Hf; exact Hinv.
Qed.

Ltac split_proj :=
  cbn [fst snd Split.natural Split.num_decks Split.shuffle_on Split.deck
       Split.count Split.player_left Split.done_left Split.reward_left
       Split.player_right Split.done_right Split.reward_right Split.dealer
       Split.split_possible Split.action_space_n Split.np_random
       Split.with_deck Split.with_count Split.with_player_left
       Split.with_done_left Split.with_reward_left Split.with_player_right
       Split.with_done_right Split.with_reward_right Split.with_dealer
       Split.with_split_possible Split.with_action_space_n
       Split.with_np_random] in *.

Ltac split_modify E :=
  let u := fresh "u" in
  let w := fresh "w" in
  let Em := fresh "Em" in
  apply bind_inv_Ok in E; destruct E as (u & w & Em & E);
  unfold Split.modify_self in Em; inversion Em; subst u w; clear Em;
  split_proj.

Ltac split_get E :=
  let s := fresh "s" in
  let w := fresh "w" in
  let Eg := fresh "Eg" in
  apply bind_inv_Ok in E; destruct E as (s & w & Eg & E);
  unfold Split.get_self in Eg; inversion Eg; subst s w; clear Eg;
  split_proj.

Ltac split_draw E card :=
  let g' := fresh "g" in
  let e' := fresh "e" in
  let Ed := fresh "Ed" in
  let d' := fresh "d" in
  let k' := fresh "k" in
  let Ee := fresh "Ee" in
  apply bind_inv_Ok in E; destruct E as (card & [g' e'] & Ed & E);
  split_proj;
  destruct (split_draw_card_post _ _ _ _ _ Ed) as ((d' & k' & Ee) & _);
  clear Ed; split_proj; subst e'; split_proj.

Ltac split_count E Hc :=
  let u := fresh "u" in
  let w := fresh "w" in
  let Ec := fresh "Ec" in
  apply bind_inv_Ok in E; destruct E as (u & w & Ec & E);
  destruct (split_count_card_post _ _ _ _ Ec) as (Hc & ->); clear Ec;
  split_proj.

Ltac split_item E x :=
  let w := fresh "w" in
  let El := fresh "El" in
  apply bind_inv_Ok in E; destruct E as (x & w & El & E);
  unfold lift in El; split_proj; cbn [Py.item nth_error] in El;
  inversion El; subst x w; clear El; split_proj.

Lemma split_get_obs_Ok (w w' : Split.World G) obs :
  Split._get_obs w = (Ok obs, w') ->
  exists shown,
    nth_error (Split.dealer (snd w)) 0 = Some shown /\
    obs = (sum_hand (Split.player_left (snd w)),
           usable_ace (Split.player_left (snd w)),
           sum_hand (Split.player_right (snd w)),
           usable_ace (Split.player_right (snd w)),
           shown, Split.split_possible (snd w),
           (Split.count (snd w)
            / inject_Z (Py.ceil_div52 (Py.len (Split.deck (snd w)))))%Q) /\
    w' = w.
Proof.
  intros E; unfold Split._get_obs, bind, Split.get_self, lift, Py.item in E.
  cbn [fst snd] in E.
  destruct (nth_error (Split.dealer (snd w)) 0) as [shown |];
    [| discriminate].
  destruct (Py.ceil_div52 (Py.len (Split.deck (snd w))) =? 0);
    [discriminate |].
  unfold ret in E; inversion E; subst; eauto.
Qed.

Lemma split_reset_post (g : G) (e : Split.Env G) obs w' :
  Split.reset (g, e) = (Ok obs, w') ->
  exists d1 d2 p1 p2 d' c',
    1 <= d1 <= 10 /\ 1 <= p1 <= 10 /\ 1 <= p2 <= 10 /\
    snd w' = Split.with_split_possible (p1 =? p2)
               (Split.with_action_space_n (if p1 =? p2 then 4 else 3)
                  (Split.with_reward_right 0
                     (Split.with_reward_left 0
                        (Split.with_done_right true
                           (Split.with_done_left false
                              (Split.with_player_right []
                                 (Split.with_player_left [p1; p2]
                                    (Split.with_dealer [d1; d2]
                                       (Split.with_count c'
                                          (Split.with_deck d' e)))))))))) /\
    obs = (sum_hand [p1; p2], usable_ace [p1; p2], 0, false, d1,
           (p1 =? p2),
           (c' / inject_Z (Py.ceil_div52 (Py.len d')))%Q).
Proof.
  destruct e as [nat0 nd so dk ct pl dl rl pr dr rr dlr sp an rng].
  intros E; unfold Split.reset in E.
  split_get E.
  apply bind_inv_Ok in E; destruct E as (u1 & w1 & E1 & E).
  assert (Hw1 : exists d0 c0,
    w1 = (g, {| Split.natural := nat0; Split.num_decks := nd;
                Split.shuffle_on := so; Split.deck := d0;
                Split.count := c0; Split.player_left := pl;
                Split.done_left := dl; Split.reward_left := rl;
                Split.player_right := pr; Split.done_right := dr;
                Split.reward_right := rr; Split.dealer := dlr;
                Split.split_possible := sp; Split.action_space_n := an;
                Split.np_random := rng |})).
  { destruct (Py.len dk <? so).
    - unfold bind, Split.reset_deck, Split.modify_self in E1;
        cbn [fst snd] in E1; inversion E1; do 2 eexists; reflexivity.
    - inversion E1; do 2 eexists; reflexivity. }
  clear E1; destruct Hw1 as (d0 & c0 & ->).
  split_get E.
  apply bind_inv_Ok in E; destruct E as (hd & w2 & Ehd & E).
  unfold Split.draw_hand in Ehd.
  split_draw Ehd d1.
  split_draw Ehd d2.
  inversion Ehd; subst hd w2; clear Ehd.
  split_modify E.
  apply bind_inv_Ok in E; destruct E as (u3 & w3 & E3 & E).
  unfold Split.count_dealer_item in E3.
  split_get E3.
  split_item E3 x0.
  destruct (split_count_card_post _ _ _ _ E3) as (Hd1 & ->); clear E3.
  split_proj.
  split_get E.
  apply bind_inv_Ok in E; destruct E as (hp & w4 & Ehp & E).
  unfold Split.draw_hand in Ehp.
  split_draw Ehp p1.
  split_draw Ehp p2.
  inversion Ehp; subst hp w4; clear Ehp.
  split_modify E.
  split_modify E.
  split_get E.
  split_item E x1.
  split_count E Hp1.
  split_get E.
  split_item E x2.
  split_count E Hp2.
  split_modify E.
  split_modify E.
  split_modify E.
  split_modify E.
  split_get E.
  split_item E y0.
  split_item E y1.
  apply bind_inv_Ok in E; destruct E as (u14 & w14 & E14 & E).
  destruct (split_get_obs_Ok _ _ _ E) as (shown & Hs & Ho & ->); clear E.
  match type of E14 with
  | _ (_, ?e0) = _ =>
      exists d1, d2, p1, p2, (Split.deck e0), (Split.count e0)
  end.
  repeat (split; [assumption |]).
  destruct (p1 =? p2);
    unfold bind, Split.modify_self in E14; cbn [fst snd] in E14;
    inversion E14; subst w14; clear E14;
    cbn [snd Split.dealer Split.with_split_possible
         Split.with_action_space_n nth_error] in Hs;
    injection Hs as Hs; subst shown;
    (split; [reflexivity | exact Ho]).
Qed.

(** X23.  [reset] in the split environment, when it returns.  The dealer and
    the left hand hold two cards each, ranks of the table; the right hand is
    empty and closed, the left hand is open and both rewards are 0.  SPLIT is
    offered exactly when the two cards of the left hand are of equal rank:
    then [split_possible] is true and [action_space.n] is 4, else false and
    3.  The observation shows 0 and no usable ace for the right hand. *)
Theorem split_reset_deal (g : G) (e : Split.Env G) obs w' :
  Split.reset (g, e) = (Ok obs, w') ->
  exists d1 d2 p1 p2,
    1 <= d1 <= 10 /\ 1 <= p1 <= 10 /\ 1 <= p2 <= 10 /\
    Split.dealer (snd w') = [d1; d2] /\
    Split.player_left (snd w') = [p1; p2] /\
    Split.player_right (snd w') = [] /\
    Split.done_left (snd w') = false /\
    Split.done_right (snd w') = true /\
    Split.reward_left (snd w') = 0%Q /\
    Split.reward_right (snd w') = 0%Q /\
    Split.split_possible (snd w') = (p1 =? p2) /\
    Split.action_space_n (snd w') = (if p1 =? p2 then 4 else 3) /\
    obs = (sum_hand [p1; p2], usable_ace [p1; p2], 0, false, d1,
           (p1 =? p2),
           (Split.count (snd w')
            / inject_Z (Py.ceil_div52 (Py.len (Split.deck (snd w')))))%Q).
Proof.
  intros E.
  destruct (split_reset_post _ _ _ _ E)
    as (d1 & d2 & p1 & p2 & d' & c' & Hd1 & Hp1 & Hp2 & -> & ->).
  exists d1, d2, p1, p2.
  repeat (split; [assumption || reflexivity |]).
  reflexivity.
Qed.

(** X24.  In a round of the split environment, that is after a [reset] that
    returned and any actions whose [step]s all returned, [action_space.n] is
    4 when [split_possible] is true and 3 when it is false.  So SPLIT is
    rejected with AssertionError, and changes nothing, whenever
    [split_possible] is false. *)
Theorem split_action_space_follows_flag
    fuel (actions : list Z) (w w0 w' : Split.World G) obs rs :
  Split.reset w = (Ok obs, w0) ->
  Split.run fuel actions w0 = (Ok rs, w') ->
  Split.action_space_n (snd w')
  = (if Split.split_possible (snd w') then 4 else 3) /\
  (Split.split_possible (snd w') = false ->
   forall fuel', Split.step fuel' 3 w' = (Raise AssertionError, w')).
Proof.
  intros Hreset Hrun.
  assert (Hn : Split.action_space_n (snd w')
               = (if Split.split_possible (snd w') then 4 else 3)).
  { apply (split_run_legal _ _ _ _ _ Hrun).
    destruct w as [g e].
    destruct (split_reset_post _ _ _ _ Hreset)
      as (d1 & d2 & p1 & p2 & d' & c' & _ & _ & _ & -> & _).
    cbn [Split.action_space_n Split.split_possible
         Split.with_split_possible Split.with_action_space_n].
    reflexivity. }
  split; [exact Hn |].
  intros Hf fuel'; rewrite Hf in Hn.
  unfold Split.step.
  rewrite (bind_Ok _ _ w' (snd w') w') by reflexivity.
  rewrite Hn; reflexivity.
Qed.

End ConfigFrame.

(** ** Doubling, hitting the left hand, and the observation *)

Section MoreSteps.

Context {G : Type} `{RandomState G}.

Ltac single_proj :=
  cbn [fst snd Single.natural Single.num_decks Single.shuffle_on Single.deck
       Single.count Single.done Single.player Single.dealer Single.np_random
       Single.with_deck Single.with_count Single.with_done Single.with_player
       Single.with_dealer Single.with_np_random] in *.

Ltac split_proj :=
  cbn [fst snd Split.natural Split.num_decks Split.shuffle_on Split.deck
       Split.count Split.player_left Split.done_left Split.reward_left
       Split.player_right Split.done_right Split.reward_right Split.dealer
       Split.split_possible Split.action_space_n Split.np_random
       Split.with_deck Split.with_count Split.with_player_left
       Split.with_done_left Split.with_reward_left Split.with_player_right
       Split.with_done_right Split.with_reward_right Split.with_dealer
       Split.with_split_possible Split.with_action_space_n
       Split.with_np_random] in *.

Lemma single_count_dealer_item_post i (w w1 : Single.World G) u :
  Single.count_dealer_item i w = (Ok u, w1) ->
  exists card,
    nth_error (Single.dealer (snd w)) i = Some card /\
    1 <= card <= 10 /\
    w1 = (fst w,
          Single.with_count (Single.count (snd w) + weight card)%Q (snd w)).
Proof.
  intros E; unfold Single.count_dealer_item in E.
  apply bind_inv_Ok in E; destruct E as (s & w0 & Eg & E).
  unfold Single.get_self in Eg; inversion Eg; subst s w0; clear Eg.
  apply bind_inv_Ok in E; destruct E as (card & w0 & El & E).
  unfold lift, Py.item in El.
  destruct (nth_error (Single.dealer (snd w)) i) as [c |] eqn:En;
    [| discriminate].
  inversion El; subst c w0; clear El.
  destruct (single_count_card_post _ _ _ _ E) as (Hc & ->).
  exists card; auto.
Qed.

Lemma cmp_values (a b : Z) :
  (cmp a b == -1 \/ cmp a b == 0 \/ cmp a b == 1)%Q.
Proof.
  unfold cmp.
  destruct (Z.gtb_spec a b), (Z.ltb_spec a b); try lia;
    [right; right | left | right; left]; reflexivity.
Qed.

(** X11.  DOUBLE in the single-hand environment, when [step] returns.  One
    card, a rank of the table, has been appended to the player's hand and the
    round is terminal.  When the player is bust the dealer draws nothing and
    the reward is -2.  Otherwise the dealer has drawn while below 17 and ends
    at 17 or more, and the reward is twice the comparison of the two scores.
    The reward is always -2, 0 or 2. *)
Theorem single_double_spec fuel (g : G) (e : Single.Env G)
    obs reward terminal w' :
  Single.step fuel 2 (g, e) = (Ok (obs, reward, terminal), w') ->
  exists card drawn,
    1 <= card <= 10 /\
    Single.player (snd w') = Single.player e ++ [card] /\
    Single.dealer (snd w') = Single.dealer e ++ drawn /\
    terminal = true /\
    Single.done (snd w') = true /\
    (is_bust (Single.player e ++ [card]) = true ->
     drawn = [] /\ reward = (-2)%Q) /\
    (is_bust (Single.player e ++ [card]) = false ->
     17 <= sum_hand (Single.dealer e ++ drawn) /\
     (forall k, (k < length drawn)%nat ->
        sum_hand (Single.dealer e ++ firstn k drawn) < 17) /\
     reward = (2 * cmp (score (Single.player e ++ [card]))
                       (score (Single.dealer e ++ drawn)))%Q) /\
    (reward == -2 \/ reward == 0 \/ reward == 2)%Q.
Proof.
  intros E; unfold Single.step in E.
  cbn [discrete_contains Z.leb Z.ltb Z.compare andb negb Z.eqb Pos.eqb] in E.
  apply bind_inv_Ok in E; destruct E as (r & w4 & Er & E).
  apply bind_inv_Ok in E; destruct E as (obs' & w5 & Eo & E).
  pose proof (single_get_obs_pure w4) as Hpure.
  rewrite Eo in Hpure; cbn [snd] in Hpure; subst w5.
  unfold bind, Single.get_self, ret in E; cbn [fst snd] in E.
  injection E as Ho Hr Ht Hw; subst obs' r w4.
  apply bind_inv_Ok in Er; destruct Er as (u1 & [g1 e1] & Eh & Er).
  destruct (single_hit_player_post _ _ _ Eh)
    as (card & [gd ed] & Ed & Hcard & Hw1).
  cbn [fst snd] in Ed, Hw1.
  destruct (single_draw_card_post _ _ _ _ _ Ed) as ((d' & c' & Ewd) & _).
  cbn [snd] in Ewd; subst ed.
  injection Hw1 as Hg1 He1; subst g1 e1.
  apply bind_inv_Ok in Er; destruct Er as (u2 & w2 & Ec & Er).
  destruct (single_count_dealer_item_post _ _ _ _ Ec)
    as (hole & _ & _ & ->); clear Ec.
  apply bind_inv_Ok in Er; destruct Er as (u3 & w3 & Em & Er).
  unfold Single.modify_self in Em; injection Em as _ Hw3; subst w3.
  apply bind_inv_Ok in Er; destruct Er as (s3 & w3 & Eg & Er).
  unfold Single.get_self in Eg; injection Eg as Hs3 Hw3; subst s3 w3.
  single_proj.
  exists card.
  destruct (is_bust (Single.player e ++ [card])) eqn:Eb.
  - apply bind_inv_Ok in Er; destruct Er as (u4 & w6 & Ec & Er).
    destruct (single_count_dealer_item_post _ _ _ _ Ec)
      as (hole2 & _ & _ & ->); clear Ec.
    injection Er as Hr Hw; subst reward w'.
    single_proj; subst terminal.
    exists []; rewrite app_nil_r.
    split; [exact Hcard |].
    do 4 (split; [reflexivity |]).
    split; [intros _; split; reflexivity |].
    split; [discriminate |].
    left; reflexivity.
  - apply bind_inv_Ok in Er; destruct Er as (u4 & w6 & Ep & Er).
    unfold bind, Single.get_self, ret in Er; cbn [fst snd] in Er.
    injection Er as Hr Hw; subst reward w6.
    destruct (single_dealer_play_post _ _ _ _ Ep)
      as (drawn & Hd & H17 & Hpre & _).
    pose proof (preserves_eq _ _ _ _ _
      (single_dealer_play_frame
         (fun x => (Single.player x, Single.done x))
         (fun _ _ => eq_refl) (fun _ _ => eq_refl) fuel
         (fun _ _ => eq_refl)) Ep) as Hf.
    single_proj.
    injection Hf as Hp Hdn.
    exists drawn.
    split; [exact Hcard |].
    split; [exact Hp |].
    split; [exact Hd |].
    split; [rewrite <- Ht; exact Hdn |].
    split; [exact Hdn |].
    split; [discriminate |].
    rewrite Hp, Hd.
    split; [intros _; rewrite <- Hd; auto |].
    destruct (cmp_values (score (Single.player e ++ [card]))
                (score (Single.dealer e ++ drawn))) as [Hc | [Hc | Hc]];
      rewrite Hc; [left | right; left | right; right]; reflexivity.
Qed.

(** X19.  HIT on the left hand in the split environment, when [step] returns.
    One card, a rank of the table, has been appended to the left hand; the
    right hand, the dealer, the right flag and the right reward are as they
    were.  The left hand is done exactly when it is bust, with reward -1,
    else 0.  When the draw did not reshuffle, the counter has moved by the
    weight of the card, and by the weight of the dealer's second card too
    only when the left hand is bust and the right hand is done. *)
Theorem split_hit_left_spec fuel (g : G) (e : Split.Env G)
    obs reward terminal w' :
  Split.done_left e = false ->
  Split.step fuel 1 (g, e) = (Ok (obs, reward, terminal), w') ->
  exists card,
    1 <= card <= 10 /\
    Split.player_left (snd w') = Split.player_left e ++ [card] /\
    Split.player_right (snd w') = Split.player_right e /\
    Split.dealer (snd w') = Split.dealer e /\
    Split.done_right (snd w') = Split.done_right e /\
    Split.reward_right (snd w') = Split.reward_right e /\
    Split.done_left (snd w') = is_bust (Split.player_left e ++ [card]) /\
    Split.reward_left (snd w')
    = (if is_bust (Split.player_left e ++ [card]) then (-1)%Q else 0%Q) /\
    terminal
    = is_bust (Split.player_left e ++ [card]) && Split.done_right e /\
    reward = (Split.reward_left (snd w') + Split.reward_right e)%Q /\
    (Split.shuffle_on e <= Py.len (Split.deck e) ->
     S (length (Split.deck (snd w'))) = length (Split.deck e) /\
     if is_bust (Split.player_left e ++ [card]) && Split.done_right e
     then exists hole,
            nth_error (Split.dealer e) 1 = Some hole /\
            Split.count (snd w')
            = (Split.count e + weight card + weight hole)%Q
     else Split.count (snd w') = (Split.count e + weight card)%Q).
Proof.
  intros Hl E; unfold Split.step in E.
  apply bind_inv_Ok in E; destruct E as (s & w0 & Eg & E).
  unfold Split.get_self in Eg; injection Eg as Hs Hw0; subst s w0.
  cbn [snd] in E.
  destruct (negb (discrete_contains (Split.action_space_n e) 1));
    [discriminate |].
  cbn [Z.eqb Pos.eqb] in E.
  apply bind_inv_Ok in E; destruct E as (u1 & w1 & Es & E).
  apply bind_inv_Ok in E; destruct E as (obs' & w2 & Eo & E).
  pose proof (split_get_obs_pure w1) as Hpure.
  rewrite Eo in Hpure; cbn [snd] in Hpure; subst w2.
  unfold bind, Split.get_self, ret in E; cbn [fst snd] in E.
  injection E as Ho Hr Ht Hw; subst obs' w1.
  unfold Split.step_hit in Es.
  apply bind_inv_Ok in Es; destruct Es as (s & w0 & Eg & Es).
  unfold Split.get_self in Eg; injection Eg as Hs Hw0; subst s w0.
  cbn [snd] in Es; rewrite Hl in Es; cbn [negb] in Es.
  apply bind_inv_Ok in Es; destruct Es as (u2 & [g2 e2] & Eh & Es).
  destruct (split_hit_left_post _ _ _ _ Eh)
    as (card & d' & c' & Hcard & He2 & Hno).
  cbn [snd] in He2; subst e2.
  apply bind_inv_Ok in Es; destruct Es as (s & w0 & Eg & Es).
  unfold Split.get_self in Eg; injection Eg as Hs Hw0; subst s w0.
  split_proj.
  exists card; split; [exact Hcard |].
  destruct (is_bust (Split.player_left e ++ [card])) eqn:Eb.
  - apply bind_inv_Ok in Es; destruct Es as (u3 & w3 & Em & Es).
    unfold Split.modify_self in Em; injection Em as _ Hw3; subst w3.
    apply bind_inv_Ok in Es; destruct Es as (u4 & w4 & Em & Es).
    unfold Split.modify_self in Em; injection Em as _ Hw4; subst w4.
    apply bind_inv_Ok in Es; destruct Es as (s & w0 & Eg & Es).
    unfold Split.get_self in Eg; injection Eg as Hs Hw0; subst s w0.
    split_proj.
    destruct (Split.done_right e) eqn:Edr.
    + unfold Split.count_dealer_item in Es.
      apply bind_inv_Ok in Es; destruct Es as (s & w0 & Eg & Es).
      unfold Split.get_self in Eg; injection Eg as Hs Hw0; subst s w0.
      apply bind_inv_Ok in Es; destruct Es as (hole & w0 & El & Es).
      unfold lift, Py.item in El; split_proj.
      destruct (nth_error (Split.dealer e) 1) as [hole' |] eqn:Eh1;
        [| discriminate].
      injection El as Hh Hw0; subst hole' w0.
      destruct (split_count_card_post _ _ _ _ Es) as (_ & ->).
      subst reward terminal; split_proj.
      rewrite Edr.
      repeat (split; [reflexivity |]).
      intros Hge; destruct (Hno Hge) as (Hc & Hlen).
      split; [exact Hlen |].
      exists hole; split; [reflexivity |].
      rewrite Hc; reflexivity.
    + injection Es as _ Hw; subst w'.
      subst reward terminal; split_proj.
      rewrite Edr.
      repeat (split; [reflexivity |]).
      intros Hge; destruct (Hno Hge) as (Hc & Hlen).
      split; [exact Hlen |].
      rewrite Hc; reflexivity.
  - apply bind_inv_Ok in Es; destruct Es as (u3 & w3 & Em & Es).
    unfold Split.modify_self in Em; injection Em as _ Hw3; subst w3.
    unfold Split.modify_self in Es; injection Es as _ Hw; subst w'.
    subst reward terminal; split_proj.
    repeat (split; [reflexivity |]).
    intros Hge; destruct (Hno Hge) as (Hc & Hlen).
    split; [exact Hlen |].
    rewrite Hc; reflexivity.
Qed.

Lemma ceil_div52_bounds (n : Z) :
  52 * (Py.ceil_div52 n - 1) < n <= 52 * Py.ceil_div52 n.
Proof.
  unfold Py.ceil_div52.
  pose proof (Z.div_mod (n + 51) 52 ltac:(lia)) as Hd.
  pose proof (Z.mod_pos_bound (n + 51) 52 ltac:(lia)) as Hm.
  lia.
Qed.

(** X14.  The observation of the single-hand environment.  [_get_obs] never
    changes the state.  It raises IndexError when the dealer has no card and
    ZeroDivisionError when the dealer has one but the shoe is empty.
    Otherwise it returns the player's total, the dealer's first card, the
    usable-ace flag and the counter divided by [k], the least number with
    [len(deck) <= 52 * k], which is at least 1. *)
Theorem single_get_obs_spec (w : Single.World G) :
  snd (Single._get_obs w) = w /\
  (Single.dealer (snd w) = [] ->
   fst (Single._get_obs w) = Raise IndexError) /\
  (Single.dealer (snd w) <> [] -> Single.deck (snd w) = [] ->
   fst (Single._get_obs w) = Raise ZeroDivisionError) /\
  (forall shown rest,
     Single.dealer (snd w) = shown :: rest ->
     Single.deck (snd w) <> [] ->
     exists k,
       1 <= k /\
       52 * (k - 1) < Py.len (Single.deck (snd w)) <= 52 * k /\
       fst (Single._get_obs w)
       = Ok (sum_hand (Single.player (snd w)), shown,
             usable_ace (Single.player (snd w)),
             (Single.count (snd w) / inject_Z k)%Q)).
Proof.
  split; [apply single_get_obs_pure |].
  unfold Single._get_obs, bind, Single.get_self, lift, Py.item, raise, ret;
    cbn [fst snd].
  split; [intros ->; reflexivity |].
  split.
  - intros Hne ->.
    destruct (Single.dealer (snd w)) as [| x l]; [contradiction |].
    reflexivity.
  - intros shown rest -> Hne; cbn [nth_error].
    pose proof (ceil_div52_pos _ Hne) as Hk; rewrite Hk.
    apply Z.eqb_neq in Hk.
    pose proof (ceil_div52_bounds (Py.len (Single.deck (snd w)))) as Hb.
    exists (Py.ceil_div52 (Py.len (Single.deck (snd w)))).
    split; [| split; [exact Hb | reflexivity]].
    assert (0 <= Py.len (Single.deck (snd w))) by (unfold Py.len; lia).
    lia.
Qed.

(** X26.  The observation of the split environment: as in the single-hand
    environment, with both hands' totals and usable-ace flags and the
    [split_possible] flag. *)
Theorem split_get_obs_spec (w : Split.World G) :
  snd (Split._get_obs w) = w /\
  (Split.dealer (snd w) = [] ->
   fst (Split._get_obs w) = Raise IndexError) /\
  (Split.dealer (snd w) <> [] -> Split.deck (snd w) = [] ->
   fst (Split._get_obs w) = Raise ZeroDivisionError) /\
  (forall shown rest,
     Split.dealer (snd w) = shown :: rest ->
     Split.deck (snd w) <> [] ->
     exists k,
       1 <= k /\
       52 * (k - 1) < Py.len (Split.deck (snd w)) <= 52 * k /\
       fst (Split._get_obs w)
       = Ok (sum_hand (Split.player_left (snd w)),
             usable_ace (Split.player_left (snd w)),
             sum_hand (Split.player_right (snd w)),
             usable_ace (Split.player_right (snd w)),
             shown, Split.split_possible (snd w),
             (Split.count (snd w) / inject_Z k)%Q)).
Proof.
  split; [apply split_get_obs_pure |].
  unfold Split._get_obs, bind, Split.get_self, lift, Py.item, raise, ret;
    cbn [fst snd].
  split; [intros ->; reflexivity |].
  split.
  - intros Hne ->.
    destruct (Split.dealer (snd w)) as [| x l]; [contradiction |].
    reflexivity.
  - intros shown rest -> Hne; cbn [nth_error].
    pose proof (ceil_div52_pos _ Hne) as Hk; rewrite Hk.
    apply Z.eqb_neq in Hk.
    pose proof (ceil_div52_bounds (Py.len (Split.deck (snd w)))) as Hb.
    exists (Py.ceil_div52 (Py.len (Split.deck (snd w)))).
    split; [| split; [exact Hb | reflexivity]].
    assert (0 <= Py.len (Split.deck (snd w))) by (unfold Py.len; lia).
    lia.
Qed.

Lemma split_dealer_play_bound (fuel : nat) :
  forall (w w' : Split.World G) u,
    Split.dealer_play fuel w = (Ok u, w') ->
    sum_hand (Split.dealer (snd w)) <= 26 ->
    sum_hand (Split.dealer (snd w')) <= 26.
Proof.
  induction fuel as [| fuel IH]; intros w w' u E Hb.
  - cbn [Split.dealer_play] in E; unfold bind, Split.get_self in E;
      cbn [fst snd] in E.
    destruct (sum_hand (Split.dealer (snd w)) <? 17); [discriminate |].
    inversion E; subst; assumption.
  - cbn [Split.dealer_play] in E.
    apply bind_inv_Ok in E; destruct E as (s & w0 & Eg & E).
    unfold Split.get_self in Eg; inversion Eg; subst s w0; clear Eg.
    destruct (Z.ltb_spec (sum_hand (Split.dealer (snd w))) 17) as [Hlt | Hge].
    + apply bind_inv_Ok in E; destruct E as (card & w1 & Ed & E).
      apply bind_inv_Ok in E; destruct E as (u1 & w2 & Ec & E).
      apply bind_inv_Ok in E; destruct E as (u2 & w3 & Em & E).
      destruct (split_loop_body _ _ _ _ _ _ Ed Ec) as (Hcard & Hd).
      unfold Split.modify_self in Em; inversion Em; subst u2 w3; clear Em.
      apply (IH _ _ _ E); cbn [snd Split.dealer Split.with_dealer].
      rewrite Hd; apply sum_hand_snoc_bound; assumption.
    + inversion E; subst; assumption.
Qed.

(** X25.  The dealer's loop of the split environment, when it returns from a
    hand whose total is at most 26: the dealer's total ends between 17 and
    26, so the dealer's score is 0 (bust) or between 17 and 21. *)
Theorem split_dealer_play_range (fuel : nat) (w w' : Split.World G) u :
  Split.dealer_play fuel w = (Ok u, w') ->
  sum_hand (Split.dealer (snd w)) <= 26 ->
  17 <= sum_hand (Split.dealer (snd w')) <= 26 /\
  (score (Split.dealer (snd w')) = 0 \/
   17 <= score (Split.dealer (snd w')) <= 21).
Proof.
  intros E Hb.
  pose proof (split_dealer_play_bound _ _ _ _ E Hb) as Hu.
  destruct (split_dealer_play_post _ _ _ _ E) as (drawn & _ & Hl & _).
  split; [lia |].
  unfold score, is_bust.
  destruct (Z.gtb_spec (sum_hand (Split.dealer (snd w'))) 21);
    [left; reflexivity | right; lia].
Qed.

End MoreSteps.

(** ** DOUBLE on the only hand, split environment *)

Section DoubleUnsplit.

Context {G : Type} `{RandomState G}.

Ltac split_proj :=
  cbn [fst snd Split.natural Split.num_decks Split.shuffle_on Split.deck
       Split.count Split.player_left Split.done_left Split.reward_left
       Split.player_right Split.done_right Split.reward_right Split.dealer
       Split.split_possible Split.action_space_n Split.np_random
       Split.with_deck Split.with_count Split.with_player_left
       Split.with_done_left Split.with_reward_left Split.with_player_right
       Split.with_done_right Split.with_reward_right Split.with_dealer
       Split.with_split_possible Split.with_action_space_n
       Split.with_np_random] in *.

Lemma split_count_dealer_item_state i (w w1 : Split.World G) u :
  Split.count_dealer_item i w = (Ok u, w1) ->
  exists card,
    nth_error (Split.dealer (snd w)) i = Some card /\
    w1 = (fst w,
          Split.with_count (Split.count (snd w) + weight card)%Q (snd w)).
Proof.
  intros E; unfold Split.count_dealer_item in E.
  apply bind_inv_Ok in E; destruct E as (s & w0 & Eg & E).
  unfold Split.get_self in Eg; inversion Eg; subst s w0; clear Eg.
  apply bind_inv_Ok in E; destruct E as (card & w0 & El & E).
  unfold lift, Py.item in El.
  destruct (nth_error (Split.dealer (snd w)) i) as [c |] eqn:En;
    [| discriminate].
  inversion El; subst c w0; clear El.
  destruct (split_count_card_post _ _ _ _ E) as (_ & ->).
  exists card; auto.
Qed.

(** X22.  DOUBLE in the split environment while the left hand is open and
    there is no open right hand, when [step] returns.  One card has been
    appended to the left hand and the round is over.  The dealer plays out
    whether or not the left hand is bust, and the left reward is twice the
    comparison of the two scores: for a bust left hand that is -2 when the
    dealer stands and 0 when the dealer is bust too. *)
Theorem split_double_on_left fuel (g : G) (e : Split.Env G)
    obs reward terminal w' :
  Split.done_left e = false ->
  Split.done_right e = true ->
  Split.step fuel 2 (g, e) = (Ok (obs, reward, terminal), w') ->
  exists card drawn,
    1 <= card <= 10 /\
    Split.player_left (snd w') = Split.player_left e ++ [card] /\
    Split.player_right (snd w') = Split.player_right e /\
    Split.dealer (snd w') = Split.dealer e ++ drawn /\
    17 <= sum_hand (Split.dealer e ++ drawn) /\
    (forall k, (k < length drawn)%nat ->
       sum_hand (Split.dealer e ++ firstn k drawn) < 17) /\
    Split.done_left (snd w') = true /\
    Split.done_right (snd w') = true /\
    terminal = true /\
    Split.reward_left (snd w')
    = (2 * cmp (score (Split.player_left e ++ [card]))
               (score (Split.dealer e ++ drawn)))%Q /\
    Split.reward_right (snd w') = Split.reward_right e /\
    reward = (Split.reward_left (snd w') + Split.reward_right e)%Q /\
    (is_bust (Split.player_left e ++ [card]) = true ->
     (Split.reward_left (snd w')
      == (if score (Split.dealer e ++ drawn) =? 0 then 0 else -2))%Q).
Proof.
  intros Hl Hr E; unfold Split.step in E.
  apply bind_inv_Ok in E; destruct E as (s & w0 & Eg & E).
  unfold Split.get_self in Eg; injection Eg as Hs Hw0; subst s w0.
  cbn [snd] in E.
  destruct (negb (discrete_contains (Split.action_space_n e) 2));
    [discriminate |].
  cbn [Z.eqb Pos.eqb] in E.
  apply bind_inv_Ok in E; destruct E as (u1 & w1 & Es & E).
  apply bind_inv_Ok in E; destruct E as (obs' & w2 & Eo & E).
  pose proof (split_get_obs_pure w1) as Hpure.
  rewrite Eo in Hpure; cbn [snd] in Hpure; subst w2.
  unfold bind, Split.get_self, ret in E; cbn [fst snd] in E.
  injection E as Ho Hrw Ht Hw; subst obs' w1.
  unfold Split.step_double in Es.
  apply bind_inv_Ok in Es; destruct Es as (s & w0 & Eg & Es).
  unfold Split.get_self in Eg; injection Eg as Hs Hw0; subst s w0.
  cbn [snd] in Es; rewrite Hl in Es; cbn [negb] in Es.
  apply bind_inv_Ok in Es; destruct Es as (u2 & [g2 e2] & Eh & Es).
  destruct (split_hit_left_post _ _ _ _ Eh)
    as (card & d' & c' & Hcard & He2 & _).
  cbn [snd] in He2.
  apply bind_inv_Ok in Es; destruct Es as (u3 & w3 & Em & Es).
  unfold Split.modify_self in Em; injection Em as _ Hw3; subst w3.
  apply bind_inv_Ok in Es; destruct Es as (s & w0 & Eg & Es).
  unfold Split.get_self in Eg; injection Eg as Hs Hw0; subst s w0.
  apply bind_inv_Ok in Es; destruct Es as (u4 & [g4 e4] & Eb & Es).
  (* the state after the bust test: hands, dealer and flags are known *)
  assert (F4 : Split.player_left e4 = Split.player_left e ++ [card] /\
               Split.player_right e4 = Split.player_right e /\
               Split.dealer e4 = Split.dealer e /\
               Split.done_left e4 = true /\
               Split.done_right e4 = true /\
               Split.reward_right e4 = Split.reward_right e).
  { cbn [fst snd] in Eb; subst e2.
    destruct (is_bust _); injection Eb as _ _ <-; split_proj;
      repeat split; assumption || reflexivity. }
  clear Eb Eh He2.
  destruct F4 as (F4l & F4r & F4d & F4dl & F4dr & F4rr).
  apply bind_inv_Ok in Es; destruct Es as (s & w0 & Eg & Es).
  unfold Split.get_self in Eg; injection Eg as Hs Hw0; subst s w0.
  cbn [snd] in Es; rewrite F4dr in Es.
  apply bind_inv_Ok in Es; destruct Es as (u5 & [g5 e5] & Ec & Es).
  destruct (split_count_dealer_item_state _ _ _ _ Ec) as (hole & _ & Ew5).
  cbn [fst snd] in Ew5; injection Ew5 as _ He5.
  apply bind_inv_Ok in Es; destruct Es as (u6 & [g6 e6] & Ep & Es).
  destruct (split_dealer_play_post _ _ _ _ Ep)
    as (drawn & Hd & H17 & Hpre & _).
  pose proof (preserves_eq _ _ _ _ _
    (split_dealer_play_frame
       (fun x => (Split.player_left x, Split.player_right x,
                  Split.done_left x, Split.done_right x,
                  Split.reward_right x))
       (fun _ _ => eq_refl) (fun _ _ => eq_refl) (fun _ _ => eq_refl)
       fuel) Ep) as Hf.
  cbn [snd] in Hd, H17, Hpre, Hf.
  subst e5; split_proj.
  injection Hf as Hfl Hfr Hfdl Hfdr Hfrr.
  rewrite F4d in Hd, Hpre.
  unfold Split.settle_left_doubled, Split.modify_self in Es.
  injection Es as _ Hw'; subst w'.
  split_proj.
  exists card, drawn.
  split; [exact Hcard |].
  split; [congruence |].
  split; [congruence |].
  split; [exact Hd |].
  split; [rewrite <- Hd; exact H17 |].
  split; [exact Hpre |].
  split; [congruence |].
  split; [congruence |].
  split; [subst terminal; rewrite Hfdl, Hfdr, F4dl, F4dr; reflexivity |].
  split; [rewrite Hfl, F4l, Hd; reflexivity |].
  split; [congruence |].
  split; [subst reward; rewrite Hfrr, F4rr; reflexivity |].
  intros Hb.
  rewrite Hfl, F4l, Hd.
  unfold score at 1; rewrite Hb.
  assert (Hs : 0 <= score (Split.dealer e ++ drawn)).
  { assert (H17' : 17 <= sum_hand (Split.dealer e ++ drawn))
      by (rewrite <- Hd; exact H17).
    unfold score; destruct (is_bust (Split.dealer e ++ drawn)); lia. }
  unfold cmp.
  destruct (Z.eqb_spec (score (Split.dealer e ++ drawn)) 0) as [-> | Hne].
  - reflexivity.
  - destruct (Z.gtb_spec 0 (score (Split.dealer e ++ drawn))),
      (Z.ltb_spec 0 (score (Split.dealer e ++ drawn))); try lia.
    reflexivity.
Qed.

End DoubleUnsplit.

(** ** Without SPLIT, the split environment plays as the single-hand one *)

Section Unsplit.

Context {G : Type} `{RandomState G}.

Let unsplit (e : Split.Env G) : Prop :=
  Split.player_right e = [] /\ Split.done_right e = true.

Let kept (e e' : Split.Env G) : Prop :=
  unsplit e' /\ Split.reward_right e' = Split.reward_right e.

(** [sim cs c1]: from a state with no right hand, the method [cs] of the
    split environment and the method [c1] of the single-hand one end alike,
    in states that correspond; there is still no right hand. *)
Let sim {A} (cs : M (Split.World G) A) (c1 : M (Single.World G) A) : Prop :=
  forall g e,
    unsplit e ->
    c1 (g, single_of_split e)
    = (fst (cs (g, e)),
       (fst (snd (cs (g, e))), single_of_split (snd (snd (cs (g, e))))))
    /\ kept e (snd (snd (cs (g, e)))).

(** [sim_reward cs c1]: the same, where [c1] returns the reward that [cs]
    leaves in [reward_left]. *)
Let sim_reward (cs : M (Split.World G) unit) (c1 : M (Single.World G) Q)
  : Prop :=
  forall g e,
    unsplit e ->
    c1 (g, single_of_split e)
    = (match fst (cs (g, e)) with
       | Ok _ => Ok (Split.reward_left (snd (snd (cs (g, e)))))
       | Raise x => Raise x
       | OutOfFuel => OutOfFuel
       end,
       (fst (snd (cs (g, e))), single_of_split (snd (snd (cs (g, e))))))
    /\ kept e (snd (snd (cs (g, e)))).

Lemma kept_refl e : unsplit e -> kept e e.
Proof. intros Hu; split; [exact Hu | reflexivity]. Qed.

Lemma kept_trans e1 e2 e3 : kept e1 e2 -> kept e2 e3 -> kept e1 e3.
Proof.
  intros [_ H12] [Hu H23]; split; [exact Hu | congruence].
Qed.

Ltac kept_same := intros e Hu; split; [exact Hu | reflexivity].

Lemma sim_ret {A} (a : A) : sim (ret a) (ret a).
Proof. intros g e Hu; split; [reflexivity | apply kept_refl, Hu]. Qed.

Lemma sim_lift {A} (o : Outcome A) : sim (lift o) (lift o).
Proof. intros g e Hu; split; [reflexivity | apply kept_refl, Hu]. Qed.

Lemma sim_bind {A B} (cs : M (Split.World G) A) (c1 : M (Single.World G) A)
    (ks : A -> M (Split.World G) B) (k1 : A -> M (Single.World G) B) :
  sim cs c1 -> (forall a, sim (ks a) (k1 a)) ->
  sim (bind cs ks) (bind c1 k1).
Proof.
  intros Hc Hk g e Hu.
  destruct (Hc g e Hu) as [E Hu'].
  unfold bind; rewrite E.
  destruct (cs (g, e)) as [[a | x |] [g' e']]; cbn [fst snd] in *.
  - destruct (Hk a g' e' (proj1 Hu')) as [E' Hu''].
    split; [exact E' | exact (kept_trans _ _ _ Hu' Hu'')].
  - split; [reflexivity | exact Hu'].
  - split; [reflexivity | exact Hu'].
Qed.

Lemma sim_get_self {B} (ks : Split.Env G -> M (Split.World G) B)
    (k1 : Single.Env G -> M (Single.World G) B) :
  (forall e0, unsplit e0 -> sim (ks e0) (k1 (single_of_split e0))) ->
  sim (bind Split.get_self ks) (bind Single.get_self k1).
Proof. intros Hk g e Hu; exact (Hk e Hu g e Hu). Qed.

Lemma sim_get_self_left {B} (ks : Split.Env G -> M (Split.World G) B)
    (c1 : M (Single.World G) B) :
  (forall e0, unsplit e0 -> sim (ks e0) c1) ->
  sim (bind Split.get_self ks) c1.
Proof. intros Hk g e Hu; exact (Hk e Hu g e Hu). Qed.

Lemma sim_skip {A B} (a : A) (ks : A -> M (Split.World G) B)
    (c1 : M (Single.World G) B) :
  sim (ks a) c1 -> sim (bind (ret a) ks) c1.
Proof. intros Hk g e Hu; exact (Hk g e Hu). Qed.

Lemma sim_if {A} (b : bool) (cs cs' : M (Split.World G) A)
    (c1 c1' : M (Single.World G) A) :
  sim cs c1 -> sim cs' c1' ->
  sim (if b then cs else cs') (if b then c1 else c1').
Proof. destruct b; auto. Qed.

Lemma sim_for_each {A} (l : list A) (bs : A -> M (Split.World G) unit)
    (b1 : A -> M (Single.World G) unit) :
  (forall a, sim (bs a) (b1 a)) -> sim (for_each l bs) (for_each l b1).
Proof.
  intros Hb; induction l as [| x l IH]; cbn [for_each].
  - apply sim_ret.
  - apply sim_bind; [apply Hb | intros _; exact IH].
Qed.

Lemma sim_randint low high :
  sim (Split.np_random_randint low high)
      (Single.np_random_randint low high).
Proof.
  intros g e Hu; unfold Split.np_random_randint, Single.np_random_randint.
  cbn [fst snd]; destruct (low <? high);
    (split; [reflexivity | apply kept_refl, Hu]).
Qed.

Lemma sim_modify (fs : Split.Env G -> Split.Env G)
    (f1 : Single.Env G -> Single.Env G) :
  (forall e, single_of_split (fs e) = f1 (single_of_split e)) ->
  (forall e, unsplit e -> kept e (fs e)) ->
  sim (Split.modify_self fs) (Single.modify_self f1).
Proof.
  intros Hf Hu g e He; unfold Split.modify_self, Single.modify_self;
    cbn [fst snd].
  rewrite Hf; split; [reflexivity | apply Hu; exact He].
Qed.

Lemma sim_count_card card :
  sim (Split.count_card card) (Single.count_card card).
Proof.
  unfold Split.count_card, Single.count_card.
  apply sim_bind; [apply sim_lift | intros h].
  apply sim_modify; [reflexivity | kept_same].
Qed.

Lemma sim_deck_pop i : sim (Split.deck_pop i) (Single.deck_pop i).
Proof.
  unfold Split.deck_pop, Single.deck_pop.
  apply sim_get_self; intros e0 _.
  change (Single.deck (single_of_split e0)) with (Split.deck e0).
  apply sim_bind; [apply sim_lift | intros r].
  apply sim_bind; [| intros _; apply sim_ret].
  apply sim_modify; [reflexivity | kept_same].
Qed.

Lemma sim_remove_card card :
  sim (Split.remove_card card) (Single.remove_card card).
Proof.
  unfold Split.remove_card, Single.remove_card.
  apply sim_get_self; intros e0 _.
  change (Single.deck (single_of_split e0)) with (Split.deck e0).
  apply sim_bind; [apply sim_lift | intros i].
  apply sim_bind; [apply sim_deck_pop | intros _; apply sim_ret].
Qed.

Lemma sim_count_dealer_item i :
  sim (Split.count_dealer_item i) (Single.count_dealer_item i).
Proof.
  unfold Split.count_dealer_item, Single.count_dealer_item.
  apply sim_get_self; intros e0 _.
  change (Single.dealer (single_of_split e0)) with (Split.dealer e0).
  apply sim_bind; [apply sim_lift | intros card; apply sim_count_card].
Qed.

Lemma sim_reshuffle : sim Split.reshuffle Single.reshuffle.
Proof.
  unfold Split.reshuffle, Single.reshuffle, Split.reset_deck,
    Single.reset_deck.
  apply sim_bind;
    [apply sim_modify; [reflexivity | kept_same] |].
  intros _; apply sim_bind;
    [apply sim_modify; [reflexivity | kept_same] |].
  intros _; apply sim_get_self; intros e1 _.
  apply sim_bind.
  { apply sim_for_each; intros card.
    apply sim_bind; [apply sim_remove_card | intros _; apply sim_count_card]. }
  intros _.
  apply sim_get_self_left; intros e2 [Hr2 _].
  rewrite Hr2; cbn [for_each].
  apply sim_skip.
  apply sim_get_self; intros e3 _.
  apply sim_bind; [apply sim_for_each; apply sim_remove_card | intros _].
  apply sim_get_self; intros e4 _.
  apply sim_bind; [apply sim_for_each; apply sim_count_card | intros _].
  apply sim_get_self; intros e5 [_ Hd5].
  rewrite Hd5, andb_true_r.
  change (Single.done (single_of_split e5)) with (Split.done_left e5).
  apply sim_if; [| apply sim_ret].
  apply sim_get_self; intros e6 _.
  apply sim_bind; [apply sim_lift | intros card; apply sim_count_card].
Qed.

Lemma sim_draw_card rs r1 :
  sim (Split.draw_card rs) (Single.draw_card r1).
Proof.
  unfold Split.draw_card, Single.draw_card.
  apply sim_get_self; intros e0 _.
  apply sim_bind; [apply sim_if; [apply sim_reshuffle | apply sim_ret] |].
  intros _; apply sim_get_self; intros e1 _.
  apply sim_bind; [apply sim_randint | intros i; apply sim_deck_pop].
Qed.

Lemma sim_hit : sim Split.hit_left Single.hit_player.
Proof.
  unfold Split.hit_left, Single.hit_player.
  apply sim_get_self; intros e0 _.
  apply sim_bind; [apply sim_draw_card | intros card].
  apply sim_bind; [apply sim_count_card | intros _].
  apply sim_modify; [reflexivity | kept_same].
Qed.

Lemma sim_dealer_play fuel :
  sim (Split.dealer_play fuel) (Single.dealer_play fuel).
Proof.
  induction fuel as [| fuel IH]; cbn [Split.dealer_play Single.dealer_play];
    apply sim_get_self; intros e0 _;
    change (Single.dealer (single_of_split e0)) with (Split.dealer e0);
    (apply sim_if; [| apply sim_ret]).
  - intros g e Hu; split; [reflexivity | apply kept_refl, Hu].
  - apply sim_bind; [apply sim_draw_card | intros card].
    apply sim_bind; [apply sim_count_card | intros _].
    apply sim_bind;
      [apply sim_modify; [reflexivity | kept_same] |].
    intros _; exact IH.
Qed.

Lemma sim_reward_bind {A} (cs : M (Split.World G) A)
    (c1 : M (Single.World G) A)
    (ks : A -> M (Split.World G) unit) (k1 : A -> M (Single.World G) Q) :
  sim cs c1 -> (forall a, sim_reward (ks a) (k1 a)) ->
  sim_reward (bind cs ks) (bind c1 k1).
Proof.
  intros Hc Hk g e Hu.
  destruct (Hc g e Hu) as [E Hu'].
  unfold bind; rewrite E.
  destruct (cs (g, e)) as [[a | x |] [g' e']]; cbn [fst snd] in *.
  - destruct (Hk a g' e' (proj1 Hu')) as [E' Hu''].
    split; [exact E' | exact (kept_trans _ _ _ Hu' Hu'')].
  - split; [reflexivity | exact Hu'].
  - split; [reflexivity | exact Hu'].
Qed.

Lemma sim_reward_get_self_left
    (ks : Split.Env G -> M (Split.World G) unit)
    (c1 : M (Single.World G) Q) :
  (forall e0, unsplit e0 -> sim_reward (ks e0) c1) ->
  sim_reward (bind Split.get_self ks) c1.
Proof. intros Hk g e Hu; exact (Hk e Hu g e Hu). Qed.

Lemma sim_reward_if (b : bool) (cs cs' : M (Split.World G) unit)
    (c1 c1' : M (Single.World G) Q) :
  sim_reward cs c1 -> sim_reward cs' c1' ->
  sim_reward (if b then cs else cs') (if b then c1 else c1').
Proof. destruct b; auto. Qed.

Lemma sim_reward_get_self
    (ks : Split.Env G -> M (Split.World G) unit)
    (k1 : Single.Env G -> M (Single.World G) Q) :
  (forall e0, unsplit e0 -> sim_reward (ks e0) (k1 (single_of_split e0))) ->
  sim_reward (bind Split.get_self ks) (bind Single.get_self k1).
Proof. intros Hk g e Hu; exact (Hk e Hu g e Hu). Qed.

Lemma sim_reward_set (q : Q) :
  sim_reward (Split.modify_self (Split.with_reward_left q)) (ret q).
Proof.
  intros g e Hu; split; [reflexivity | split; [exact Hu | reflexivity]].
Qed.

(** A reward stored before a method that does not touch it. *)
Lemma sim_reward_set_then (q : Q) (cs : M (Split.World G) unit)
    (c1 : M (Single.World G) unit) :
  sim cs c1 ->
  preserves (fun w => Split.reward_left (snd w)) cs ->
  sim_reward (Split.modify_self (Split.with_reward_left q) ;; cs)
             (c1 ;; ret q).
Proof.
  intros Hc Hp g e Hu.
  assert (Hu' : unsplit (Split.with_reward_left q e)) by exact Hu.
  destruct (Hc g (Split.with_reward_left q e) Hu') as [E Hk].
  change (single_of_split (Split.with_reward_left q e))
    with (single_of_split e) in E.
  change ((Split.modify_self (Split.with_reward_left q) ;; cs) (g, e))
    with (cs (g, Split.with_reward_left q e)).
  unfold bind at 1; rewrite E.
  destruct (cs (g, Split.with_reward_left q e)) as [[a | x |] [g' e']] eqn:Ec;
    cbn [fst snd] in *; (split; [| exact Hk]); try reflexivity.
  pose proof (preserves_eq _ _ _ _ _ Hp Ec) as Hq.
  cbn [snd Split.reward_left Split.with_reward_left] in Hq.
  rewrite Hq; reflexivity.
Qed.

(** The branch of HIT that the split environment takes while the left hand
    is open, against HIT of the single-hand environment. *)
Lemma sim_reward_hit :
  sim_reward
    (Split.hit_left ;;
     self <- Split.get_self ;;
     if is_bust (Split.player_left self) then
       Split.modify_self (Split.with_done_left true) ;;
       Split.modify_self (Split.with_reward_left (-1)%Q) ;;
       self <- Split.get_self ;;
       if Split.done_right self then Split.count_dealer_item 1 else ret tt
     else
       Split.modify_self (Split.with_done_left false) ;;
       Split.modify_self (Split.with_reward_left 0%Q))
    (Single.hit_player ;;
     self <- Single.get_self ;;
     if is_bust (Single.player self) then
       Single.modify_self (Single.with_done true) ;;
       Single.count_dealer_item 1 ;;
       ret (-1)%Q
     else
       Single.modify_self (Single.with_done false) ;;
       ret 0%Q).
Proof.
  apply sim_reward_bind; [apply sim_hit | intros _].
  apply sim_reward_get_self; intros e0 _.
  change (Single.player (single_of_split e0)) with (Split.player_left e0).
  apply sim_reward_if.
  - apply sim_reward_bind;
      [apply sim_modify; [reflexivity | kept_same] | intros _].
    apply sim_reward_set_then.
    + apply sim_get_self_left; intros e1 [_ Hd1]; rewrite Hd1.
      apply sim_count_dealer_item.
    + apply preserves_bind;
        [apply (split_get_self_frame Split.reward_left) | intros self].
      apply preserves_if; [| apply preserves_ret].
      apply (split_count_dealer_item_frame Split.reward_left);
        intros; reflexivity.
  - apply sim_reward_bind;
      [apply sim_modify; [reflexivity | kept_same] | intros _].
    apply sim_reward_set.
Qed.

(** The same for STAND. *)
Lemma sim_reward_stand fuel :
  sim_reward
    (Split.modify_self (Split.with_done_left true) ;;
     self <- Split.get_self ;;
     if Split.done_right self then
       Split.count_dealer_item 1 ;;
       Split.dealer_play fuel ;;
       Split.settle_left ;;
       Split.natural_bonus_left
     else ret tt)
    (Single.modify_self (Single.with_done true) ;;
     Single.count_dealer_item 1 ;;
     Single.dealer_play fuel ;;
     self <- Single.get_self ;;
     let reward :=
       cmp (score (Single.player self)) (score (Single.dealer self)) in
     if Single.natural self && is_natural (Single.player self)
        && Qeq_bool reward 1
     then ret (3 # 2)%Q
     else ret reward).
Proof.
  apply sim_reward_bind;
    [apply sim_modify; [reflexivity | kept_same] | intros _].
  apply sim_reward_get_self_left; intros e1 [_ Hd1]; rewrite Hd1.
  apply sim_reward_bind; [apply sim_count_dealer_item | intros _].
  apply sim_reward_bind; [apply sim_dealer_play | intros _].
  intros g e Hu.
  unfold Split.settle_left, Split.natural_bonus_left, bind,
    Split.modify_self, Split.get_self, Single.get_self, ret.
  cbn [fst snd Split.natural Split.player_left Split.dealer
       Split.reward_left Split.with_reward_left
       Single.natural Single.player Single.dealer single_of_split].
  destruct (Split.natural e && is_natural (Split.player_left e)
            && Qeq_bool
                 (cmp (score (Split.player_left e))
                    (score (Split.dealer e))) 1);
    (split; [reflexivity | split; [exact Hu | reflexivity]]).
Qed.

Lemma bind_stops {S A B} (c : M S A) (k : A -> M S B) s s' :
  c s = (OutOfFuel, s') -> bind c k s = (OutOfFuel, s').
Proof. intros E; unfold bind; rewrite E; reflexivity. Qed.

Lemma sim_get_obs (g : G) (e : Split.Env G) :
  Single._get_obs (g, single_of_split e)
  = (match fst (Split._get_obs (g, e)) with
     | Ok obs => Ok (single_obs_of_split obs)
     | Raise x => Raise x
     | OutOfFuel => OutOfFuel
     end, (g, single_of_split e)).
Proof.
  unfold Single._get_obs, Split._get_obs, bind, Single.get_self,
    Split.get_self, lift, raise, ret; cbn [fst snd].
  change (Single.dealer (single_of_split e)) with (Split.dealer e).
  change (Single.deck (single_of_split e)) with (Split.deck e).
  destruct (Py.item 0 (Split.dealer e)); try reflexivity.
  destruct (Py.ceil_div52 (Py.len (Split.deck e)) =? 0); reflexivity.
Qed.

Lemma sim_step_tail (cs : M (Split.World G) unit)
    (c1 : M (Single.World G) Q) (g : G) (e : Split.Env G) :
  sim_reward cs c1 ->
  unsplit e ->
  let r :=
    (cs ;;
     obs <- Split._get_obs ;;
     self <- Split.get_self ;;
     ret (obs, (Split.reward_left self + Split.reward_right self)%Q,
          Split.done_left self && Split.done_right self)) (g, e) in
  (reward <- c1 ;;
   obs <- Single._get_obs ;;
   self <- Single.get_self ;;
   ret (obs, reward, Single.done self)) (g, single_of_split e)
  = (match fst r with
     | Ok (obs, _, terminal) =>
         Ok (single_obs_of_split obs, Split.reward_left (snd (snd r)),
             terminal)
     | Raise x => Raise x
     | OutOfFuel => OutOfFuel
     end, (fst (snd r), single_of_split (snd (snd r))))
  /\ kept e (snd (snd r))
  /\ forall obs reward terminal,
       fst r = Ok (obs, reward, terminal) ->
       reward
       = (Split.reward_left (snd (snd r)) + Split.reward_right e)%Q /\
       terminal = Split.done_left (snd (snd r)).
Proof.
  intros Hc Hu r.
  destruct (Hc g e Hu) as [E Hk].
  destruct (cs (g, e)) as [[u | x |] [g' e']] eqn:Ec; cbn [fst snd] in E, Hk.
  - rewrite (bind_Ok _ _ _ _ _ E).
    assert (Er : r = (obs <- Split._get_obs ;;
                      self <- Split.get_self ;;
                      ret (obs,
                           (Split.reward_left self
                            + Split.reward_right self)%Q,
                           Split.done_left self && Split.done_right self))
                       (g', e'))
      by (subst r; unfold bind at 1; rewrite Ec; reflexivity).
    pose proof (split_get_obs_pure (g', e')) as Hp.
    pose proof (sim_get_obs g' e') as Ho.
    destruct (Split._get_obs (g', e')) as [[obs | x |] w'] eqn:Eo;
      cbn [fst snd] in Hp, Ho; subst w'.
    + rewrite (bind_Ok _ _ _ _ _ Ho).
      rewrite (bind_Ok _ _ _ _ _ Eo) in Er.
      clearbody r; subst r.
      unfold bind, Single.get_self, Split.get_self, ret; cbn [fst snd].
      destruct Hk as [[Hr Hd] Hrr].
      rewrite Hd, andb_true_r.
      split; [reflexivity |].
      split; [split; [split |]; assumption |].
      intros obs' reward terminal Eo'.
      injection Eo' as _ <- <-; rewrite Hrr; split; reflexivity.
    + rewrite (bind_Raise _ _ _ _ _ Ho).
      rewrite (bind_Raise _ _ _ _ _ Eo) in Er.
      clearbody r; subst r; cbn [fst snd].
      split; [reflexivity | split; [exact Hk | discriminate]].
    + rewrite (bind_stops _ _ _ _ Ho).
      rewrite (bind_stops _ _ _ _ Eo) in Er.
      clearbody r; subst r; cbn [fst snd].
      split; [reflexivity | split; [exact Hk | discriminate]].
  - rewrite (bind_Raise _ _ _ _ _ E).
    assert (Er : r = (Raise x, (g', e')))
      by (subst r; unfold bind at 1; rewrite Ec; reflexivity).
    clearbody r; subst r; cbn [fst snd].
    split; [reflexivity | split; [exact Hk | discriminate]].
  - rewrite (bind_stops _ _ _ _ E).
    assert (Er : r = (OutOfFuel, (g', e')))
      by (subst r; unfold bind at 1; rewrite Ec; reflexivity).
    clearbody r; subst r; cbn [fst snd].
    split; [reflexivity | split; [exact Hk | discriminate]].
Qed.

(** X28.  As long as SPLIT has not been taken (the right hand is empty and
    its flag set) and the left hand is open, a legal HIT or STAND of the
    split environment is the HIT or STAND of the single-hand environment on
    the state with the left hand as the player's hand: the two steps end
    alike (both return, or both raise the same exception, or both are out of
    fuel), in states that correspond, with the same terminal flag and, up to
    the shape of the tuple, the same observation.  The reward of the
    single-hand step is [reward_left]; the split step returns it plus the
    unchanged [reward_right].  There is still no right hand afterwards. *)
Theorem split_unsplit_plays_as_single
    fuel (action : Z) (g : G) (e : Split.Env G) :
  Split.player_right e = [] ->
  Split.done_right e = true ->
  Split.done_left e = false ->
  action = 0 \/ action = 1 ->
  action < Split.action_space_n e ->
  let r := Split.step fuel action (g, e) in
  Single.step fuel action (g, single_of_split e)
  = (match fst r with
     | Ok (obs, _, terminal) =>
         Ok (single_obs_of_split obs, Split.reward_left (snd (snd r)),
             terminal)
     | Raise x => Raise x
     | OutOfFuel => OutOfFuel
     end, (fst (snd r), single_of_split (snd (snd r))))
  /\ Split.player_right (snd (snd r)) = []
  /\ Split.done_right (snd (snd r)) = true
  /\ Split.reward_right (snd (snd r)) = Split.reward_right e
  /\ forall obs reward terminal,
       fst r = Ok (obs, reward, terminal) ->
       reward
       = (Split.reward_left (snd (snd r)) + Split.reward_right e)%Q /\
       terminal = Split.done_left (snd (snd r)).
Proof.
  intros Hr Hd Hl Ha Hn r.
  assert (Hu : unsplit e) by (split; assumption).
  assert (Hg : discrete_contains (Split.action_space_n e) action = true).
  { unfold discrete_contains; apply andb_true_intro; split;
      [apply Z.leb_le | apply Z.ltb_lt]; lia. }
  assert (Hg1 : discrete_contains 3 action = true)
    by (destruct Ha as [-> | ->]; reflexivity).
  assert (Hstep : forall cs c1,
    sim_reward cs c1 ->
    Split.step fuel action (g, e)
    = (cs ;;
       obs <- Split._get_obs ;;
       self <- Split.get_self ;;
       ret (obs, (Split.reward_left self + Split.reward_right self)%Q,
            Split.done_left self && Split.done_right self)) (g, e) ->
    Single.step fuel action (g, single_of_split e)
    = (reward <- c1 ;;
       obs <- Single._get_obs ;;
       self <- Single.get_self ;;
       ret (obs, reward, Single.done self)) (g, single_of_split e) ->
    Single.step fuel action (g, single_of_split e)
    = (match fst r with
       | Ok (obs, _, terminal) =>
           Ok (single_obs_of_split obs, Split.reward_left (snd (snd r)),
               terminal)
       | Raise x => Raise x
       | OutOfFuel => OutOfFuel
       end, (fst (snd r), single_of_split (snd (snd r))))
    /\ Split.player_right (snd (snd r)) = []
    /\ Split.done_right (snd (snd r)) = true
    /\ Split.reward_right (snd (snd r)) = Split.reward_right e
    /\ forall obs reward terminal,
         fst r = Ok (obs, reward, terminal) ->
         reward
         = (Split.reward_left (snd (snd r)) + Split.reward_right e)%Q /\
         terminal = Split.done_left (snd (snd r))).
  { intros cs c1 Hc Es E1; subst r; rewrite Es, E1.
    destruct (sim_step_tail cs c1 g e Hc Hu) as (E & [[Hr' Hd'] Hrr] & Hv).
    repeat (split; [assumption |]); exact Hv. }
  destruct Ha as [-> | ->].
  - eapply Hstep; [apply (sim_reward_stand fuel) | |].
    + unfold Split.step.
      rewrite (bind_Ok _ _ (g, e) e (g, e)) by reflexivity.
      rewrite Hg; cbn [negb Z.eqb].
      unfold Split.step_stand at 1.
      unfold bind at 1.
      rewrite (bind_Ok _ _ (g, e) e (g, e)) by reflexivity.
      rewrite Hl; reflexivity.
    + reflexivity.
  - eapply Hstep; [apply sim_reward_hit | |].
    + unfold Split.step.
      rewrite (bind_Ok _ _ (g, e) e (g, e)) by reflexivity.
      rewrite Hg; cbn [negb Z.eqb Pos.eqb].
      unfold Split.step_hit at 1.
      unfold bind at 1.
      rewrite (bind_Ok _ _ (g, e) e (g, e)) by reflexivity.
      rewrite Hl; reflexivity.
    + reflexivity.
Qed.

End Unsplit.

(** ** Seeding steers nothing *)

Section SeedSingle.

Context {G : Type} `{RandomState G}.
Variable x : G.

(** [ind c]: the method [c] neither reads nor writes [np_random]: run with
    another seeded generator, it ends alike, in the same state but for that
    generator. *)
Let ind {A} (c : M (Single.World G) A) : Prop :=
  forall g e,
    c (g, Single.with_np_random x e)
    = (fst (c (g, e)),
       (fst (snd (c (g, e))),
        Single.with_np_random x (snd (snd (c (g, e)))))).

Lemma single_ind_ret {A} (a : A) : ind (ret a).
Proof. intros g e; reflexivity. Qed.

Lemma single_ind_raise {A} (err : exn) :
  ind (@raise (Single.World G) A err).
Proof. intros g e; reflexivity. Qed.

Lemma single_ind_lift {A} (o : Outcome A) : ind (lift o).
Proof. intros g e; reflexivity. Qed.

Lemma single_ind_bind {A B} (c : M (Single.World G) A)
    (k : A -> M (Single.World G) B) :
  ind c -> (forall a, ind (k a)) -> ind (bind c k).
Proof.
  intros Hc Hk g e; unfold bind; rewrite Hc.
  destruct (c (g, e)) as [[a | err |] [g' e']]; cbn [fst snd];
    [apply Hk | reflexivity | reflexivity].
Qed.

Lemma single_ind_get_self {B} (k : Single.Env G -> M (Single.World G) B) :
  (forall e0 w, k (Single.with_np_random x e0) w = k e0 w) ->
  (forall e0, ind (k e0)) ->
  ind (bind Single.get_self k).
Proof.
  intros Hx Hk g e.
  change (bind Single.get_self k (g, Single.with_np_random x e))
    with (k (Single.with_np_random x e) (g, Single.with_np_random x e)).
  rewrite Hx; exact (Hk e g e).
Qed.

Lemma single_ind_if {A} (b : bool) (c c' : M (Single.World G) A) :
  ind c -> ind c' -> ind (if b then c else c').
Proof. destruct b; auto. Qed.

Lemma single_ind_for_each {A} (l : list A)
    (body : A -> M (Single.World G) unit) :
  (forall a, ind (body a)) -> ind (for_each l body).
Proof.
  intros Hb; induction l as [| y l IH]; cbn [for_each].
  - apply single_ind_ret.
  - apply single_ind_bind; [apply Hb | intros _; exact IH].
Qed.

Lemma single_ind_modify (f : Single.Env G -> Single.Env G) :
  (forall e, f (Single.with_np_random x e) = Single.with_np_random x (f e)) ->
  ind (Single.modify_self f).
Proof.
  intros Hf g e; unfold Single.modify_self; cbn [fst snd].
  rewrite Hf; reflexivity.
Qed.

Lemma single_ind_randint low high :
  ind (Single.np_random_randint low high).
Proof.
  intros g e; unfold Single.np_random_randint; cbn [fst snd].
  destruct (low <? high); reflexivity.
Qed.

Ltac ind_steps :=
  repeat first
    [ apply single_ind_ret
    | apply single_ind_raise
    | apply single_ind_lift
    | apply single_ind_randint
    | apply single_ind_modify; reflexivity
    | apply single_ind_for_each; intro
    | apply single_ind_if
    | apply single_ind_get_self; [reflexivity | intro]
    | apply single_ind_bind; [| intro] ].

Lemma single_ind_draw_card r : ind (Single.draw_card r).
Proof.
  unfold Single.draw_card, Single.reshuffle, Single.reset_deck,
    Single.deck_pop, Single.remove_card, Single.count_card,
    Single.deck_pop.
  ind_steps.
Qed.

Lemma single_ind_count_card card : ind (Single.count_card card).
Proof. unfold Single.count_card; ind_steps. Qed.

Lemma single_ind_count_dealer_item i : ind (Single.count_dealer_item i).
Proof.
  unfold Single.count_dealer_item.
  apply single_ind_get_self; [reflexivity | intros e0].
  apply single_ind_bind;
    [apply single_ind_lift | intros card; apply single_ind_count_card].
Qed.

Lemma single_ind_hit_player : ind Single.hit_player.
Proof.
  unfold Single.hit_player.
  apply single_ind_get_self; [reflexivity | intros e0].
  apply single_ind_bind; [apply single_ind_draw_card | intros card].
  apply single_ind_bind; [apply single_ind_count_card | intros _].
  apply single_ind_modify; reflexivity.
Qed.

Lemma single_ind_dealer_play fuel : ind (Single.dealer_play fuel).
Proof.
  induction fuel as [| fuel IH]; cbn [Single.dealer_play];
    (apply single_ind_get_self; [reflexivity | intros e0]);
    (apply single_ind_if; [| apply single_ind_ret]).
  - intros g e; reflexivity.
  - apply single_ind_bind; [apply single_ind_draw_card | intros card].
    apply single_ind_bind; [apply single_ind_count_card | intros _].
    apply single_ind_bind;
      [apply single_ind_modify; reflexivity | intros _; exact IH].
Qed.

Lemma single_ind_get_obs : ind Single._get_obs.
Proof.
  unfold Single._get_obs.
  apply single_ind_get_self; [reflexivity | intros e0].
  apply single_ind_bind; [apply single_ind_lift | intros shown].
  cbv zeta; apply single_ind_if;
    [apply single_ind_raise | apply single_ind_ret].
Qed.

Lemma single_ind_tail (reward : Q) :
  ind (obs <- Single._get_obs ;;
       self <- Single.get_self ;;
       ret (obs, reward, Single.done self)).
Proof.
  apply single_ind_bind; [apply single_ind_get_obs | intros obs].
  apply single_ind_get_self; [reflexivity | intros e0].
  apply single_ind_ret.
Qed.

Lemma single_ind_step fuel action : ind (Single.step fuel action).
Proof.
  unfold Single.step.
  apply single_ind_if; [apply single_ind_raise |].
  apply single_ind_bind; [| intros reward; apply single_ind_tail].
  apply single_ind_if; [| apply single_ind_if].
  - apply single_ind_bind; [apply single_ind_hit_player | intros _].
    apply single_ind_get_self; [reflexivity | intros e0].
    apply single_ind_if.
    + apply single_ind_bind;
        [apply single_ind_modify; reflexivity | intros _].
      apply single_ind_bind;
        [apply single_ind_count_dealer_item | intros _].
      apply single_ind_ret.
    + apply single_ind_bind;
        [apply single_ind_modify; reflexivity | intros _].
      apply single_ind_ret.
  - apply single_ind_bind;
      [apply single_ind_modify; reflexivity | intros _].
    apply single_ind_bind; [apply single_ind_count_dealer_item | intros _].
    apply single_ind_bind; [apply single_ind_dealer_play | intros _].
    apply single_ind_get_self; [reflexivity | intros e0].
    cbv zeta; apply single_ind_if; apply single_ind_ret.
  - apply single_ind_bind; [apply single_ind_hit_player | intros _].
    apply single_ind_bind; [apply single_ind_count_dealer_item | intros _].
    apply single_ind_bind;
      [apply single_ind_modify; reflexivity | intros _].
    apply single_ind_get_self; [reflexivity | intros e0].
    apply single_ind_if.
    + apply single_ind_bind;
        [apply single_ind_count_dealer_item | intros _].
      apply single_ind_ret.
    + apply single_ind_bind; [apply single_ind_dealer_play | intros _].
      apply single_ind_get_self; [reflexivity | intros e1].
      apply single_ind_ret.
Qed.

Lemma single_ind_draw_hand r : ind (Single.draw_hand r).
Proof.
  unfold Single.draw_hand.
  apply single_ind_bind; [apply single_ind_draw_card | intros c1].
  apply single_ind_bind; [| intros c2; apply single_ind_ret].
  intros g e; apply single_ind_draw_card.
Qed.

Lemma single_ind_reset : ind Single.reset.
Proof.
  unfold Single.reset, Single.reset_deck.
  apply single_ind_bind; [apply single_ind_modify; reflexivity | intros _].
  apply single_ind_get_self; [reflexivity | intros e0].
  apply single_ind_bind.
  { apply single_ind_if; [| apply single_ind_ret].
    apply single_ind_bind; [| intros _];
      apply single_ind_modify; reflexivity. }
  intros _.
  apply single_ind_get_self; [reflexivity | intros e1].
  apply single_ind_bind; [apply single_ind_draw_hand | intros hand].
  apply single_ind_bind; [apply single_ind_modify; reflexivity | intros _].
  apply single_ind_bind; [apply single_ind_count_dealer_item | intros _].
  apply single_ind_get_self; [reflexivity | intros e2].
  apply single_ind_bind; [apply single_ind_draw_hand | intros hand2].
  apply single_ind_bind; [apply single_ind_modify; reflexivity | intros _].
  apply single_ind_get_self; [reflexivity | intros e3].
  apply single_ind_bind; [apply single_ind_lift | intros c0].
  apply single_ind_bind; [apply single_ind_count_card | intros _].
  apply single_ind_get_self; [reflexivity | intros e4].
  apply single_ind_bind; [apply single_ind_lift | intros c1].
  apply single_ind_bind; [apply single_ind_count_card | intros _].
  apply single_ind_get_obs.
Qed.

End SeedSingle.

(** X29.  [seed] in the single-hand environment stores a generator made from
    the seed and returns the seed in a list; it draws nothing.  A [reset] or
    a [step] after it ends exactly as it would have without it, with the same
    cards, counter, observation and reward, in the same state but for the
    stored generator: the seed steers no draw. *)
Theorem single_seed_steers_nothing {G : Type} `{RandomState G}
    (s : Z) fuel (action : Z) (g : G) (e : Single.Env G) :
  Single.seed s (g, e)
  = (Ok [s], (g, Single.with_np_random (rs_of_seed s) e)) /\
  (Single.seed s ;; Single.reset) (g, e)
  = (fst (Single.reset (g, e)),
     (fst (snd (Single.reset (g, e))),
      Single.with_np_random (rs_of_seed s)
        (snd (snd (Single.reset (g, e)))))) /\
  (Single.seed s ;; Single.step fuel action) (g, e)
  = (fst (Single.step fuel action (g, e)),
     (fst (snd (Single.step fuel action (g, e))),
      Single.with_np_random (rs_of_seed s)
        (snd (snd (Single.step fuel action (g, e)))))).
Proof.
  split; [reflexivity |].
  split.
  - exact (single_ind_reset (rs_of_seed s) g e).
  - exact (single_ind_step (rs_of_seed s) fuel action g e).
Qed.

Section SeedSplit.

Context {G : Type} `{RandomState G}.
Variable x : G.

(** [ind c]: the method [c] neither reads nor writes [np_random]: run with
    another seeded generator, it ends alike, in the same state but for that
    generator. *)
Let ind {A} (c : M (Split.World G) A) : Prop :=
  forall g e,
    c (g, Split.with_np_random x e)
    = (fst (c (g, e)),
       (fst (snd (c (g, e))),
        Split.with_np_random x (snd (snd (c (g, e)))))).

Lemma split_ind_ret {A} (a : A) : ind (ret a).
Proof. intros g e; reflexivity. Qed.

Lemma split_ind_raise {A} (err : exn) :
  ind (@raise (Split.World G) A err).
Proof. intros g e; reflexivity. Qed.

Lemma split_ind_lift {A} (o : Outcome A) : ind (lift o).
Proof. intros g e; reflexivity. Qed.

Lemma split_ind_bind {A B} (c : M (Split.World G) A)
    (k : A -> M (Split.World G) B) :
  ind c -> (forall a, ind (k a)) -> ind (bind c k).
Proof.
  intros Hc Hk g e; unfold bind; rewrite Hc.
  destruct (c (g, e)) as [[a | err |] [g' e']]; cbn [fst snd];
    [apply Hk | reflexivity | reflexivity].
Qed.

Lemma split_ind_get_self {B} (k : Split.Env G -> M (Split.World G) B) :
  (forall e0 w, k (Split.with_np_random x e0) w = k e0 w) ->
  (forall e0, ind (k e0)) ->
  ind (bind Split.get_self k).
Proof.
  intros Hx Hk g e.
  change (bind Split.get_self k (g, Split.with_np_random x e))
    with (k (Split.with_np_random x e) (g, Split.with_np_random x e)).
  rewrite Hx; exact (Hk e g e).
Qed.

Lemma split_ind_if {A} (b : bool) (c c' : M (Split.World G) A) :
  ind c -> ind c' -> ind (if b then c else c').
Proof. destruct b; auto. Qed.

Lemma split_ind_for_each {A} (l : list A)
    (body : A -> M (Split.World G) unit) :
  (forall a, ind (body a)) -> ind (for_each l body).
Proof.
  intros Hb; induction l as [| y l IH]; cbn [for_each].
  - apply split_ind_ret.
  - apply split_ind_bind; [apply Hb | intros _; exact IH].
Qed.

Lemma split_ind_modify (f : Split.Env G -> Split.Env G) :
  (forall e, f (Split.with_np_random x e) = Split.with_np_random x (f e)) ->
  ind (Split.modify_self f).
Proof.
  intros Hf g e; unfold Split.modify_self; cbn [fst snd].
  rewrite Hf; reflexivity.
Qed.

Lemma split_ind_randint low high :
  ind (Split.np_random_randint low high).
Proof.
  intros g e; unfold Split.np_random_randint; cbn [fst snd].
  destruct (low <? high); reflexivity.
Qed.

Ltac ind_steps :=
  repeat first
    [ apply split_ind_ret
    | apply split_ind_raise
    | apply split_ind_lift
    | apply split_ind_randint
    | apply split_ind_modify; reflexivity
    | apply split_ind_for_each; intro
    | apply split_ind_if
    | apply split_ind_get_self; [reflexivity | intro]
    | apply split_ind_bind; [| intro] ].

Lemma split_ind_draw_card r : ind (Split.draw_card r).
Proof.
  unfold Split.draw_card, Split.reshuffle, Split.reset_deck,
    Split.deck_pop, Split.remove_card, Split.count_card,
    Split.deck_pop.
  ind_steps.
Qed.

Lemma split_ind_count_card card : ind (Split.count_card card).
Proof. unfold Split.count_card; ind_steps. Qed.

Lemma split_ind_count_dealer_item i : ind (Split.count_dealer_item i).
Proof.
  unfold Split.count_dealer_item.
  apply split_ind_get_self; [reflexivity | intros e0].
  apply split_ind_bind;
    [apply split_ind_lift | intros card; apply split_ind_count_card].
Qed.

Lemma split_ind_hit_left : ind Split.hit_left.
Proof.
  unfold Split.hit_left.
  apply split_ind_get_self; [reflexivity | intros e0].
  apply split_ind_bind; [apply split_ind_draw_card | intros card].
  apply split_ind_bind; [apply split_ind_count_card | intros _].
  apply split_ind_modify; reflexivity.
Qed.

Lemma split_ind_hit_right : ind Split.hit_right.
Proof.
  unfold Split.hit_right.
  apply split_ind_get_self; [reflexivity | intros e0].
  apply split_ind_bind; [apply split_ind_draw_card | intros card].
  apply split_ind_bind; [apply split_ind_count_card | intros _].
  apply split_ind_modify; reflexivity.
Qed.

Lemma split_ind_dealer_play fuel : ind (Split.dealer_play fuel).
Proof.
  induction fuel as [| fuel IH]; cbn [Split.dealer_play];
    (apply split_ind_get_self; [reflexivity | intros e0]);
    (apply split_ind_if; [| apply split_ind_ret]).
  - intros g e; reflexivity.
  - apply split_ind_bind; [apply split_ind_draw_card | intros card].
    apply split_ind_bind; [apply split_ind_count_card | intros _].
    apply split_ind_bind;
      [apply split_ind_modify; reflexivity | intros _; exact IH].
Qed.

Lemma split_ind_get_obs : ind Split._get_obs.
Proof.
  unfold Split._get_obs.
  apply split_ind_get_self; [reflexivity | intros e0].
  apply split_ind_bind; [apply split_ind_lift | intros shown].
  cbv zeta; apply split_ind_if;
    [apply split_ind_raise | apply split_ind_ret].
Qed.

Lemma split_ind_settle :
  ind Split.settle_left /\ ind Split.settle_right /\
  ind Split.settle_left_doubled /\ ind Split.settle_right_doubled /\
  ind Split.natural_bonus_left /\ ind Split.natural_bonus_right.
Proof.
  unfold Split.settle_left, Split.settle_right, Split.settle_left_doubled,
    Split.settle_right_doubled, Split.natural_bonus_left,
    Split.natural_bonus_right.
  repeat split;
    try (apply split_ind_modify; reflexivity);
    (apply split_ind_get_self; [reflexivity | intros e0]);
    (apply split_ind_if;
       [apply split_ind_modify; reflexivity | apply split_ind_ret]).
Qed.

Ltac ind_play :=
  repeat first
    [ apply split_ind_ret
    | apply split_ind_hit_left
    | apply split_ind_hit_right
    | apply split_ind_count_dealer_item
    | apply split_ind_dealer_play
    | apply split_ind_modify; reflexivity
    | apply split_ind_if
    | apply split_ind_get_self; [reflexivity | intro]
    | apply split_ind_bind; [| intro] ].

Lemma split_ind_step_hit fuel : ind (Split.step_hit fuel).
Proof.
  destruct split_ind_settle as (Hl & Hr & Hld & Hrd & Hnl & Hnr).
  unfold Split.step_hit.
  repeat first [ exact Hl | ind_play ].
Qed.

Lemma split_ind_step_stand fuel : ind (Split.step_stand fuel).
Proof.
  destruct split_ind_settle as (Hl & Hr & Hld & Hrd & Hnl & Hnr).
  unfold Split.step_stand.
  repeat first [ exact Hl | exact Hr | exact Hnl | exact Hnr | ind_play ].
Qed.

Lemma split_ind_step_double fuel : ind (Split.step_double fuel).
Proof.
  destruct split_ind_settle as (Hl & Hr & Hld & Hrd & Hnl & Hnr).
  unfold Split.step_double.
  repeat first [ exact Hld | exact Hrd | ind_play ].
Qed.

Lemma split_ind_step_split : ind Split.step_split.
Proof.
  unfold Split.step_split.
  apply split_ind_get_self; [reflexivity | intros e0].
  apply split_ind_bind; [apply split_ind_lift | intros r].
  ind_play.
Qed.

Lemma split_ind_step fuel action : ind (Split.step fuel action).
Proof.
  unfold Split.step.
  apply split_ind_get_self; [reflexivity | intros e0].
  apply split_ind_if; [apply split_ind_raise |].
  apply split_ind_bind.
  - apply split_ind_if; [apply split_ind_step_hit |].
    apply split_ind_if; [apply split_ind_step_stand |].
    apply split_ind_if; [apply split_ind_step_double |].
    apply split_ind_if; [apply split_ind_step_split | apply split_ind_ret].
  - intros _.
    apply split_ind_bind; [apply split_ind_get_obs | intros obs].
    apply split_ind_get_self; [reflexivity | intros e1].
    apply split_ind_ret.
Qed.

Lemma split_ind_draw_hand r : ind (Split.draw_hand r).
Proof.
  unfold Split.draw_hand.
  apply split_ind_bind; [apply split_ind_draw_card | intros c1].
  apply split_ind_bind; [| intros c2; apply split_ind_ret].
  intros g e; apply split_ind_draw_card.
Qed.

Lemma split_ind_reset : ind Split.reset.
Proof.
  unfold Split.reset, Split.reset_deck.
  apply split_ind_get_self; [reflexivity | intros e0].
  apply split_ind_bind.
  { apply split_ind_if; [| apply split_ind_ret].
    apply split_ind_bind; [| intros _];
      apply split_ind_modify; reflexivity. }
  intros _.
  apply split_ind_get_self; [reflexivity | intros e1].
  apply split_ind_bind; [apply split_ind_draw_hand | intros hand].
  apply split_ind_bind; [apply split_ind_modify; reflexivity | intros _].
  apply split_ind_bind; [apply split_ind_count_dealer_item | intros _].
  apply split_ind_get_self; [reflexivity | intros e2].
  apply split_ind_bind; [apply split_ind_draw_hand | intros hand2].
  apply split_ind_bind; [apply split_ind_modify; reflexivity | intros _].
  apply split_ind_bind; [apply split_ind_modify; reflexivity | intros _].
  apply split_ind_get_self; [reflexivity | intros e3].
  apply split_ind_bind; [apply split_ind_lift | intros c0].
  apply split_ind_bind; [apply split_ind_count_card | intros _].
  apply split_ind_get_self; [reflexivity | intros e4].
  apply split_ind_bind; [apply split_ind_lift | intros c1].
  apply split_ind_bind; [apply split_ind_count_card | intros _].
  do 4 (apply split_ind_bind;
          [apply split_ind_modify; reflexivity | intros _]).
  apply split_ind_get_self; [reflexivity | intros e5].
  apply split_ind_bind; [apply split_ind_lift | intros y0].
  apply split_ind_bind; [apply split_ind_lift | intros y1].
  apply split_ind_bind; [| intros _; apply split_ind_get_obs].
  apply split_ind_if;
    (apply split_ind_bind; [| intros _]);
    apply split_ind_modify; reflexivity.
Qed.

End SeedSplit.

(** X30.  [seed] in the split environment: as in the single-hand environment,
    the seed steers no draw of a later [reset] or [step]. *)
Theorem split_seed_steers_nothing {G : Type} `{RandomState G}
    (s : Z) fuel (action : Z) (g : G) (e : Split.Env G) :
  Split.seed s (g, e)
  = (Ok [s], (g, Split.with_np_random (rs_of_seed s) e)) /\
  (Split.seed s ;; Split.reset) (g, e)
  = (fst (Split.reset (g, e)),
     (fst (snd (Split.reset (g, e))),
      Split.with_np_random (rs_of_seed s)
        (snd (snd (Split.reset (g, e)))))) /\
  (Split.seed s ;; Split.step fuel action) (g, e)
  = (fst (Split.step fuel action (g, e)),
     (fst (snd (Split.step fuel action (g, e))),
      Split.with_np_random (rs_of_seed s)
        (snd (snd (Split.step fuel action (g, e)))))).
Proof.
  split; [reflexivity |].
  split.
  - exact (split_ind_reset (rs_of_seed s) g e).
  - exact (split_ind_step (rs_of_seed s) fuel action g e).
Qed.

(** * Runs and instances *)

(** ** Concrete runs *)

Section ConcreteRuns.

Import Examples.

(** C1 (the code breaks it).  After the six rounds of [six_rounds] on a
    one-deck shoe, 15 cards are left, so [reset] does not rebuild the shoe
    itself; its second [draw_card] finds 14 cards and reshuffles.  The
    shoe's weighted content plus the counter is -1/2 before that reshuffle
    and, after it, 1 in the single-hand environment and 0 in the split
    one: the card that [reset] has just drawn is in no hand, and the hands
    corrected for are those of the round before.  The shoe is rebuilt to
    52 - 5 = 47 cards, and [reset] returns with 44 of them left. *)
Theorem reshuffle_in_reset_not_count_neutral :
  (fst (Single.play fuel six_rounds
          (six_rounds_np_random, Single.init 1 15 false [])) = Ok tt /\
   (Py.len (Single.deck (snd single_second_draw))
    <? Single.shuffle_on (snd single_second_draw)) = true /\
   exists w,
     Single.reshuffle single_second_draw = (Ok tt, w) /\
     (Single.books (snd single_second_draw) == -1 # 2)%Q /\
     (Single.books (snd w) == 1)%Q /\
     ~ (Single.books (snd w) == Single.books (snd single_second_draw))%Q /\
     exists obs w',
       Single.reset single_fifteen_left = (Ok obs, w') /\
       Py.len (Single.deck (snd w)) = 47 /\
       Py.len (Single.deck (snd w')) = 44)
  /\
  (fst (Split.play fuel six_rounds
          (six_rounds_np_random, Split.init 1 15 false [])) = Ok tt /\
   (Py.len (Split.deck (snd split_second_draw))
    <? Split.shuffle_on (snd split_second_draw)) = true /\
   exists w,
     Split.reshuffle split_second_draw = (Ok tt, w) /\
     (Split.books (snd split_second_draw) == -1 # 2)%Q /\
     (Split.books (snd w) == 0)%Q /\
     ~ (Split.books (snd w) == Split.books (snd split_second_draw))%Q /\
     exists obs w',
       Split.reset split_fifteen_left = (Ok obs, w') /\
       Py.len (Split.deck (snd w)) = 47 /\
       Py.len (Split.deck (snd w')) = 44).
Proof.
  split.
  - split; [vm_compute; reflexivity |].
    split; [vm_compute; reflexivity |].
    eexists; split; [vm_compute; reflexivity |].
    split; [vm_compute; reflexivity |].
    split; [vm_compute; reflexivity |].
    split; [intros E; vm_compute in E; discriminate E |].
    do 2 eexists; split; [vm_compute; reflexivity |].
    split; reflexivity.
  - split; [vm_compute; reflexivity |].
    split; [vm_compute; reflexivity |].
    eexists; split; [vm_compute; reflexivity |].
    split; [vm_compute; reflexivity |].
    split; [vm_compute; reflexivity |].
    split; [intros E; vm_compute in E; discriminate E |].
    do 2 eexists; split; [vm_compute; reflexivity |].
    split; reflexivity.
Qed.

(** C2 (the code breaks it).  In [split_left_stood] the left hand stood
    on 18 and did not bust.  A HIT busts the right hand: its reward is -1
    and the hole card is counted, but the dealer, on 16, draws no card
    and the left hand's reward stays 0.  In [split_left_bust], where the
    left hand did bust, the same HIT makes the dealer play out, and the
    left hand's reward of -1 is replaced by the comparison with the
    dealer, who busts: 0. *)
Theorem split_hit_right_bust_plays_dealer_when_left_bust :
  (Split.done_left (snd split_left_stood) = true /\
   Split.done_right (snd split_left_stood) = false /\
   is_bust (Split.player_left (snd split_left_stood)) = false /\
   exists obs w,
     Split.step fuel 1 split_left_stood = (Ok (obs, (-1)%Q, true), w) /\
     is_bust (Split.player_right (snd w)) = true /\
     Split.reward_right (snd w) = (-1)%Q /\
     Split.dealer (snd w) = Split.dealer (snd split_left_stood) /\
     sum_hand (Split.dealer (snd w)) = 16 /\
     Split.reward_left (snd w) = 0%Q /\
     score (Split.player_left (snd w)) = 18)
  /\
  (Split.done_left (snd split_left_bust) = true /\
   Split.done_right (snd split_left_bust) = false /\
   is_bust (Split.player_left (snd split_left_bust)) = true /\
   Split.reward_left (snd split_left_bust) = (-1)%Q /\
   exists obs w,
     Split.step fuel 1 split_left_bust = (Ok (obs, (-1)%Q, true), w) /\
     is_bust (Split.player_right (snd w)) = true /\
     Split.dealer (snd w) = Split.dealer (snd split_left_bust) ++ [10] /\
     (Split.reward_left (snd w) == 0)%Q).
Proof.
  split.
  - repeat (split; [reflexivity |]).
    eexists; eexists; split; [vm_compute; reflexivity |].
    repeat split.
  - repeat (split; [reflexivity |]).
    eexists; eexists; split; [vm_compute; reflexivity |].
    repeat split.
Qed.

(** C3 (the code breaks it).  The player holds [10, 6] against a dealer
    showing 9 with a 5 in the hole.  DOUBLE draws one card, a 10, and
    busts: the round is terminal with reward -2, but the counter has
    moved by the weight of the 10 plus twice the weight of the hole
    card. *)
Theorem single_double_bust_counts_hole_twice :
  Single.player (snd single_sixteen) = [10; 6] /\
  Single.dealer (snd single_sixteen) = [9; 5] /\
  exists obs w,
    Single.step fuel 2 single_sixteen = (Ok (obs, (-2)%Q, true), w) /\
    Single.player (snd w) = [10; 6; 10] /\
    Single.dealer (snd w) = [9; 5] /\
    (Single.count (snd w)
     == Single.count (snd single_sixteen) + weight 10 + 2 * weight 5)%Q /\
    ~ (Single.count (snd w)
       == Single.count (snd single_sixteen) + weight 10 + weight 5)%Q.
Proof.
  repeat (split; [reflexivity |]).
  eexists; eexists; split; [vm_compute; reflexivity |].
  repeat (split; [reflexivity |]).
  intros E; vm_compute in E; discriminate E.
Qed.

(** C4 (the code breaks it).  Two instances are seeded with 42 and reset,
    one after the other in the same process.  Their own generators are
    equal, and yet they are dealt different hands and return different
    observations: the cards are drawn with [np.random], not with the
    seeded generator. *)
Theorem seeded_alike_dealt_differently :
  (exists obs_a obs_b g w_a w_b,
     (Single.seed 42 ;; Single.reset) (shared_np_random, single_a)
     = (Ok obs_a, (g, w_a)) /\
     (Single.seed 42 ;; Single.reset) (g, single_b) = (Ok obs_b, w_b) /\
     Single.np_random w_a = Single.np_random (snd w_b) /\
     (Single.dealer w_a, Single.player w_a) = ([1; 3], [5; 7]) /\
     (Single.dealer (snd w_b), Single.player (snd w_b)) = ([5; 7], [9; 10])
     /\ obs_a <> obs_b)
  /\
  (exists obs_a obs_b g w_a w_b,
     (Split.seed 42 ;; Split.reset) (shared_np_random, split_a)
     = (Ok obs_a, (g, w_a)) /\
     (Split.seed 42 ;; Split.reset) (g, split_b) = (Ok obs_b, w_b) /\
     Split.np_random w_a = Split.np_random (snd w_b) /\
     (Split.dealer w_a, Split.player_left w_a) = ([1; 3], [5; 7]) /\
     (Split.dealer (snd w_b), Split.player_left (snd w_b))
     = ([5; 7], [9; 10])
     /\ obs_a <> obs_b).
Proof.
  split.
  - do 5 eexists; split; [vm_compute; reflexivity |].
    split; [vm_compute; reflexivity |].
    repeat (split; [reflexivity |]).
    intros E; discriminate E.
  - do 5 eexists; split; [vm_compute; reflexivity |].
    split; [vm_compute; reflexivity |].
    repeat (split; [reflexivity |]).
    intros E; discriminate E.
Qed.

(** C5, as stated, fails: [reset] dealt the pair [8, 8], so the flag is
    true; after a HIT the left hand is [8, 8, 3] and the flag is still
    true (and SPLIT is still in the action space). *)
Lemma split_possible_survives_hit :
  Split.player_left (snd split_pair) = [8; 8] /\
  Split.split_possible (snd split_pair) = true /\
  exists r w,
    Split.step fuel 1 split_pair = (Ok r, w) /\
    Split.player_left (snd w) = [8; 8; 3] /\
    Split.split_possible (snd w) = true /\
    Split.split_possible (snd w) <> false /\
    Split.action_space_n (snd w) = 4.
Proof.
  repeat (split; [reflexivity |]).
  eexists; eexists; split; [vm_compute; reflexivity |].
  repeat (split; [reflexivity |]).
  split; [discriminate | reflexivity].
Qed.

End ConcreteRuns.

(** ** The theorems at concrete worlds *)

Section Witnesses.

Import Examples.

Lemma usable_ace_sum_hand_spec_witness :
  usable_ace [1; 5] = true /\ sum_hand [1; 5] = Py.sum [1; 5] + 10.
Proof.
  assert (Hu : usable_ace [1; 5] = true) by reflexivity.
  split; [exact Hu |].
  apply (proj1 (proj2 (usable_ace_sum_hand_spec [1; 5])) Hu).
Defined.

Lemma step_rejects_illegal_action_witness :
  discrete_contains 3 3 = false /\
  discrete_contains (Split.action_space_n (snd split_left_stood)) 3
  = false /\
  Single.step fuel 3 single_dealt = (Raise AssertionError, single_dealt) /\
  Split.step fuel 3 split_left_stood
  = (Raise AssertionError, split_left_stood).
Proof.
  assert (H1 : discrete_contains 3 3 = false) by reflexivity.
  assert (H2 : discrete_contains
                 (Split.action_space_n (snd split_left_stood)) 3 = false)
    by reflexivity.
  split; [exact H1 | split; [exact H2 |]].
  apply (step_rejects_illegal_action fuel 3 3 single_dealt
           split_left_stood H1 H2).
Defined.

Lemma split_step_after_terminal_witness :
  Split.done_left (snd split_finished) = true /\
  Split.done_right (snd split_finished) = true /\
  snd (Split.step fuel 1 split_finished) = split_finished /\
  exists obs,
    fst (Split._get_obs split_finished) = Ok obs /\
    fst (Split.step fuel 1 split_finished) = Ok (obs, (0 + -1)%Q, true).
Proof.
  assert (Hl : Split.done_left (snd split_finished) = true) by reflexivity.
  assert (Hr : Split.done_right (snd split_finished) = true)
    by reflexivity.
  assert (Hn : 3 <= Split.action_space_n (snd split_finished))
    by (vm_compute; discriminate).
  assert (Ha : 0 <= 1 <= 2) by lia.
  destruct (split_step_after_terminal fuel 1 split_finished Hl Hr Hn Ha)
    as [Hs Ho].
  split; [exact Hl | split; [exact Hr | split; [exact Hs |]]].
  eexists; split; [vm_compute; reflexivity |].
  apply Ho; vm_compute; reflexivity.
Defined.

Lemma split_possible_until_split_witness :
  exists obs rs w,
    Split.reset ([0; 0; 5; 17; 0], split_new) = (Ok obs, split_pair) /\
    Split.run fuel [1; 3] split_pair = (Ok rs, w) /\
    (Split.split_possible (snd w) = true <->
     (exists c, Split.player_left (snd split_pair) = [c; c])
     /\ ~ In 3 [1; 3]).
Proof.
  do 3 eexists.
  split; [vm_compute; reflexivity |].
  split; [vm_compute; reflexivity |].
  eapply (split_possible_until_split fuel [1; 3]
            ([0; 0; 5; 17; 0], split_new) split_pair);
    vm_compute; reflexivity.
Defined.

Lemma single_stand_plays_out_witness :
  (Z.to_nat (17 - Py.sum (Single.dealer (snd single_dealt))) <= fuel)%nat /\
  Single.consistent (snd single_dealt) = true /\
  Single.dealer (snd single_dealt) = [1; 2] /\
  fst (Single.step fuel 0 single_dealt) <> OutOfFuel /\
  exists obs reward w,
    Single.step fuel 0 single_dealt = (Ok (obs, reward, true), w) /\
    Single.done (snd w) = true /\
    17 <= sum_hand (Single.dealer (snd w)).
Proof.
  assert (Hf : (Z.to_nat (17 - Py.sum (Single.dealer (snd single_dealt)))
                <= fuel)%nat) by (vm_compute; lia).
  assert (Hc : Single.consistent (snd single_dealt) = true)
    by (vm_compute; reflexivity).
  split; [exact Hf | split; [exact Hc | split; [reflexivity |]]].
  destruct (single_stand_plays_out fuel (fst single_dealt)
              (snd single_dealt) Hf) as (Hends & Hpost & Hret).
  split; [exact Hends |].
  destruct (Hret Hc) as ([[obs reward] terminal] & w & Hstep).
  - vm_compute; lia.
  - vm_compute; lia.
  - vm_compute; discriminate.
  - vm_compute; discriminate.
  - destruct (Hpost obs reward terminal w Hstep)
      as (Ht & Hdone & _ & _ & H17 & _).
    subst terminal; exists obs, reward, w.
    split; [exact Hstep | split; [exact Hdone | exact H17]].
Defined.

Lemma split_double_on_right_witness :
  Split.done_left (snd split_left_stood) = true /\
  Split.done_right (snd split_left_stood) = false /\
  (Z.to_nat (17 - Py.sum (Split.dealer (snd split_left_stood)))
   <= fuel)%nat /\
  Split.consistent (snd split_left_stood) = true /\
  fst (Split.step fuel 2 split_left_stood) <> OutOfFuel /\
  exists card obs reward w,
    Split.step fuel 2 split_left_stood = (Ok (obs, reward, true), w) /\
    Split.player_right (snd w)
    = Split.player_right (snd split_left_stood) ++ [card] /\
    Split.done_right (snd w) = true /\
    17 <= sum_hand (Split.dealer (snd w)).
Proof.
  assert (Hl : Split.done_left (snd split_left_stood) = true)
    by reflexivity.
  assert (Hr : Split.done_right (snd split_left_stood) = false)
    by reflexivity.
  assert (Hf : (Z.to_nat (17 - Py.sum (Split.dealer (snd split_left_stood)))
                <= fuel)%nat) by (vm_compute; lia).
  assert (Hc : Split.consistent (snd split_left_stood) = true)
    by (vm_compute; reflexivity).
  split; [exact Hl | split; [exact Hr | split; [exact Hf |]]].
  split; [exact Hc |].
  destruct (split_double_on_right fuel (fst split_left_stood)
              (snd split_left_stood) Hl Hr Hf) as (Hends & Hpost & Hret).
  split; [exact Hends |].
  destruct Hret as ([[obs reward] terminal] & w & Hstep).
  - vm_compute; discriminate.
  - exact Hc.
  - vm_compute; lia.
  - vm_compute; lia.
  - vm_compute; discriminate.
  - destruct (Hpost obs reward terminal w Hstep)
      as (Ht & _ & Hdr & _ & (card & Hcard) & _ & H17 & _).
    subst terminal; exists card, obs, reward, w.
    split; [exact Hstep |].
    split; [exact Hcard | split; [exact Hdr | exact H17]].
Defined.

End Witnesses.

(** ** The further properties at concrete hands and states *)

Section MoreWitnesses.

Import Examples.

Lemma is_natural_spec_witness :
  is_natural [10; 1] = true /\
  usable_ace [10; 1] = true /\ sum_hand [10; 1] = 21 /\ score [10; 1] = 21.
Proof.
  assert (Hn : is_natural [10; 1] = true) by reflexivity.
  split; [exact Hn |].
  apply (proj2 (is_natural_spec [10; 1]) Hn).
Defined.

Lemma usable_ace_never_bust_witness :
  usable_ace [1; 5; 4] = true /\
  is_bust [1; 5; 4] = false /\
  sum_hand [1; 5; 4] = Py.sum [1; 5; 4] + 10 /\
  score [1; 5; 4] = sum_hand [1; 5; 4] /\
  sum_hand [1; 5; 4] <= 21 /\
  ((forall x, In x [1; 5; 4] -> 1 <= x) -> 11 <= sum_hand [1; 5; 4]).
Proof.
  assert (Hu : usable_ace [1; 5; 4] = true) by reflexivity.
  split; [exact Hu |].
  apply (usable_ace_never_bust [1; 5; 4] Hu).
Defined.

Lemma score_spec_witness :
  21 < sum_hand [10; 6; 10] /\ score [10; 6; 10] = 0.
Proof.
  assert (Hb : 21 < sum_hand [10; 6; 10]) by (vm_compute; reflexivity).
  split; [exact Hb |].
  apply (proj1 (proj2 (proj2 (score_spec [10; 6; 10]))) Hb).
Defined.

Lemma cmp_spec_witness : 18 < 20 /\ (cmp 20 18 == 1)%Q.
Proof.
  assert (Hlt : 18 < 20) by lia.
  split; [exact Hlt |].
  apply (proj1 (cmp_spec 20 18) Hlt).
Defined.

Lemma fresh_deck_composition_witness :
  1 <= 5 <= 9 /\ cnt (fresh_deck 6) 5 = (4 * Z.to_nat 6)%nat.
Proof.
  assert (Hr : 1 <= 5 <= 9) by lia.
  split; [exact Hr |].
  apply (proj1 (proj2 (fresh_deck_composition 6)) 5 Hr).
Defined.

Lemma single_reshuffle_books_witness :
  exists w',
    Single.reshuffle single_second_draw = (Ok tt, w') /\
    (Single.books (snd w')
     == - (if Single.done (snd single_second_draw) then 0
           else last_weight (Single.dealer (snd single_second_draw))))%Q.
Proof.
  assert (E : exists w',
            Single.reshuffle single_second_draw = (Ok tt, w'))
    by (eexists; vm_compute; reflexivity).
  destruct E as (w' & E); exists w'; split; [exact E |].
  destruct (single_reshuffle_books (fst single_second_draw)
              (snd single_second_draw) w' tt E)
    as (d' & c' & _ & _ & _ & Hb & _).
  exact Hb.
Defined.

Lemma split_reshuffle_books_witness :
  exists w',
    Split.reshuffle split_fifteen_left = (Ok tt, w') /\
    (Split.books (snd w')
     == - (if Split.done_left (snd split_fifteen_left)
              && Split.done_right (snd split_fifteen_left)
           then 0
           else last_weight (Split.dealer (snd split_fifteen_left))))%Q.
Proof.
  assert (E : exists w',
            Split.reshuffle split_fifteen_left = (Ok tt, w'))
    by (eexists; vm_compute; reflexivity).
  destruct E as (w' & E); exists w'; split; [exact E |].
  destruct (split_reshuffle_books (fst split_fifteen_left)
              (snd split_fifteen_left) w' tt E)
    as (d' & c' & _ & _ & _ & Hb & _).
  exact Hb.
Defined.

Lemma single_draw_card_spec_witness :
  exists card w',
    Single.draw_card [] single_dealt = (Ok card, w') /\
    Single.shuffle_on (snd single_dealt)
    <= Py.len (Single.deck (snd single_dealt)) /\
    Single.count (snd w') = Single.count (snd single_dealt) /\
    In card (Single.deck (snd single_dealt)) /\
    length (card :: Single.deck (snd w'))
    = length (Single.deck (snd single_dealt)).
Proof.
  assert (Hge : Single.shuffle_on (snd single_dealt)
                <= Py.len (Single.deck (snd single_dealt)))
    by (vm_compute; discriminate).
  assert (E : exists card w',
            Single.draw_card [] single_dealt = (Ok card, w'))
    by (do 2 eexists; vm_compute; reflexivity).
  destruct E as (card & w' & E); exists card, w'; split; [exact E |].
  split; [exact Hge |].
  destruct (single_draw_card_spec [] (fst single_dealt) (snd single_dealt)
              card w' E)
    as (_ & _ & Hno & _).
  destruct (Hno Hge) as (Hc & Hin & Hl & _).
  split; [exact Hc | split; [exact Hin | exact Hl]].
Defined.

Lemma split_draw_card_spec_witness :
  exists card w',
    Split.draw_card [] split_pair = (Ok card, w') /\
    Split.shuffle_on (snd split_pair)
    <= Py.len (Split.deck (snd split_pair)) /\
    Split.count (snd w') = Split.count (snd split_pair) /\
    In card (Split.deck (snd split_pair)) /\
    length (card :: Split.deck (snd w'))
    = length (Split.deck (snd split_pair)).
Proof.
  assert (Hge : Split.shuffle_on (snd split_pair)
                <= Py.len (Split.deck (snd split_pair)))
    by (vm_compute; discriminate).
  assert (E : exists card w',
            Split.draw_card [] split_pair = (Ok card, w'))
    by (do 2 eexists; vm_compute; reflexivity).
  destruct E as (card & w' & E); exists card, w'; split; [exact E |].
  split; [exact Hge |].
  destruct (split_draw_card_spec [] (fst split_pair) (snd split_pair)
              card w' E)
    as (_ & _ & Hno & _).
  destruct (Hno Hge) as (Hc & Hin & Hl & _).
  split; [exact Hc | split; [exact Hin | exact Hl]].
Defined.

Lemma single_draw_card_empty_witness :
  Single.deck single_empty = [] /\
  Single.shuffle_on single_empty <= 0 /\
  Single.draw_card [] ([], single_empty)
  = (Raise ValueError, ([], single_empty)).
Proof.
  assert (Hd : Single.deck single_empty = []) by reflexivity.
  assert (Hs : Single.shuffle_on single_empty <= 0)
    by (vm_compute; discriminate).
  split; [exact Hd | split; [exact Hs |]].
  apply (single_draw_card_empty [] [] single_empty Hd Hs).
Defined.

Lemma split_draw_card_empty_witness :
  Split.deck split_empty = [] /\
  Split.shuffle_on split_empty <= 0 /\
  Split.draw_card [] ([], split_empty)
  = (Raise ValueError, ([], split_empty)).
Proof.
  assert (Hd : Split.deck split_empty = []) by reflexivity.
  assert (Hs : Split.shuffle_on split_empty <= 0)
    by (vm_compute; discriminate).
  split; [exact Hd | split; [exact Hs |]].
  apply (split_draw_card_empty [] [] split_empty Hd Hs).
Defined.

Lemma single_hit_spec_witness :
  exists obs reward terminal w' card,
    Single.step fuel 1 single_dealt = (Ok (obs, reward, terminal), w') /\
    1 <= card <= 10 /\
    Single.player (snd w') = Single.player (snd single_dealt) ++ [card] /\
    Single.dealer (snd w') = Single.dealer (snd single_dealt) /\
    terminal = is_bust (Single.player (snd single_dealt) ++ [card]) /\
    reward = (if terminal then (-1)%Q else 0%Q).
Proof.
  assert (E : exists obs reward terminal w',
            Single.step fuel 1 single_dealt
            = (Ok (obs, reward, terminal), w'))
    by (do 4 eexists; vm_compute; reflexivity).
  destruct E as (obs & reward & terminal & w' & E).
  destruct (single_hit_spec fuel (fst single_dealt) (snd single_dealt)
              obs reward terminal w' E)
    as (card & Hc & Hp & Hd & Ht & _ & Hr & _).
  exists obs, reward, terminal, w', card.
  split; [exact E |].
  split; [exact Hc |].
  split; [exact Hp |].
  split; [exact Hd |].
  split; [exact Ht | exact Hr].
Defined.

Lemma single_double_spec_witness :
  exists obs reward terminal w' card drawn,
    Single.step fuel 2 single_dealt = (Ok (obs, reward, terminal), w') /\
    Single.player (snd w') = Single.player (snd single_dealt) ++ [card] /\
    Single.dealer (snd w') = Single.dealer (snd single_dealt) ++ drawn /\
    terminal = true /\
    (reward == -2 \/ reward == 0 \/ reward == 2)%Q.
Proof.
  assert (E : exists obs reward terminal w',
            Single.step fuel 2 single_dealt
            = (Ok (obs, reward, terminal), w'))
    by (do 4 eexists; vm_compute; reflexivity).
  destruct E as (obs & reward & terminal & w' & E).
  destruct (single_double_spec fuel (fst single_dealt) (snd single_dealt)
              obs reward terminal w' E)
    as (card & drawn & _ & Hp & Hd & Ht & _ & _ & _ & Hr).
  exists obs, reward, terminal, w', card, drawn.
  split; [exact E |].
  split; [exact Hp |].
  split; [exact Hd |].
  split; [exact Ht | exact Hr].
Defined.

Lemma single_reset_deal_witness :
  exists obs w' d1 d2 p1 p2,
    Single.reset ([], single_new) = (Ok obs, w') /\
    Single.dealer (snd w') = [d1; d2] /\
    Single.player (snd w') = [p1; p2] /\
    Single.done (snd w') = false /\
    Single.shuffle_on single_new + 3
    <= Py.len (Single.deck single_new) /\
    (length (Single.deck (snd w')) + 4
     = length (Single.deck single_new))%nat /\
    Single.count (snd w')
    = (Single.count single_new + weight d1 + weight p1 + weight p2)%Q.
Proof.
  assert (Hge : Single.shuffle_on single_new + 3
                <= Py.len (Single.deck single_new))
    by (vm_compute; discriminate).
  assert (E : exists obs w',
            Single.reset ([], single_new) = (Ok obs, w'))
    by (do 2 eexists; vm_compute; reflexivity).
  destruct E as (obs & w' & E).
  destruct (single_reset_deal [] single_new obs w' E)
    as (d1 & d2 & p1 & p2 & Hd & Hp & Hdn & _ & _ & _ & _ & Hno).
  destruct (Hno Hge) as (Hl & _ & Hc).
  exists obs, w', d1, d2, p1, p2.
  split; [exact E |].
  split; [exact Hd |].
  split; [exact Hp |].
  split; [exact Hdn |].
  split; [exact Hge |].
  split; [exact Hl | exact Hc].
Defined.

Lemma single_dealer_play_range_witness :
  exists w',
    Single.dealer_play fuel single_dealt = (Ok tt, w') /\
    sum_hand (Single.dealer (snd single_dealt)) <= 26 /\
    17 <= sum_hand (Single.dealer (snd w')) <= 26 /\
    (score (Single.dealer (snd w')) = 0 \/
     17 <= score (Single.dealer (snd w')) <= 21).
Proof.
  assert (Hb : sum_hand (Single.dealer (snd single_dealt)) <= 26)
    by (vm_compute; discriminate).
  assert (E : exists w',
            Single.dealer_play fuel single_dealt = (Ok tt, w'))
    by (eexists; vm_compute; reflexivity).
  destruct E as (w' & E); exists w'; split; [exact E |].
  split; [exact Hb |].
  apply (single_dealer_play_range fuel single_dealt w' tt E Hb).
Defined.

Lemma split_dealer_play_range_witness :
  exists w',
    Split.dealer_play fuel split_pair = (Ok tt, w') /\
    sum_hand (Split.dealer (snd split_pair)) <= 26 /\
    17 <= sum_hand (Split.dealer (snd w')) <= 26 /\
    (score (Split.dealer (snd w')) = 0 \/
     17 <= score (Split.dealer (snd w')) <= 21).
Proof.
  assert (Hb : sum_hand (Split.dealer (snd split_pair)) <= 26)
    by (vm_compute; discriminate).
  assert (E : exists w',
            Split.dealer_play fuel split_pair = (Ok tt, w'))
    by (eexists; vm_compute; reflexivity).
  destruct E as (w' & E); exists w'; split; [exact E |].
  split; [exact Hb |].
  apply (split_dealer_play_range fuel split_pair w' tt E Hb).
Defined.

Lemma split_split_spec_witness :
  exists obs reward terminal w',
    Split.step fuel 3 split_pair = (Ok (obs, reward, terminal), w') /\
    4 <= Split.action_space_n (snd split_pair) /\
    Split.done_right (snd w') = false /\
    Split.split_possible (snd w') = false /\
    Split.action_space_n (snd w') = 3 /\
    terminal = false /\
    Split.step fuel 3 w' = (Raise AssertionError, w').
Proof.
  assert (E : exists obs reward terminal w',
            Split.step fuel 3 split_pair = (Ok (obs, reward, terminal), w'))
    by (do 4 eexists; vm_compute; reflexivity).
  destruct E as (obs & reward & terminal & w' & E).
  destruct (split_split_spec fuel (fst split_pair) (snd split_pair)
              obs reward terminal w' E)
    as (Hn & _ & _ & _ & Hr & _ & _ & Hf & Hn' & _ & Ht & Hs).
  exists obs, reward, terminal, w'.
  split; [exact E |].
  split; [exact Hn |].
  split; [exact Hr |].
  split; [exact Hf |].
  split; [exact Hn' |].
  split; [exact Ht | exact (Hs fuel)].
Defined.

Lemma split_stand_left_defers_witness :
  0 < Split.action_space_n (snd split_both_open) /\
  Split.done_left (snd split_both_open) = false /\
  Split.done_right (snd split_both_open) = false /\
  snd (Split.step fuel 0 split_both_open)
  = (fst split_both_open,
     Split.with_done_left true (snd split_both_open)).
Proof.
  assert (Hn : 0 < Split.action_space_n (snd split_both_open))
    by (vm_compute; reflexivity).
  assert (Hl : Split.done_left (snd split_both_open) = false)
    by reflexivity.
  assert (Hr : Split.done_right (snd split_both_open) = false)
    by reflexivity.
  split; [exact Hn | split; [exact Hl | split; [exact Hr |]]].
  apply (proj1 (split_stand_left_defers fuel (fst split_both_open)
                  (snd split_both_open) Hn Hl Hr)).
Defined.

Lemma split_hit_left_spec_witness :
  exists obs reward terminal w' card,
    Split.done_left (snd split_pair) = false /\
    Split.step fuel 1 split_pair = (Ok (obs, reward, terminal), w') /\
    1 <= card <= 10 /\
    Split.player_left (snd w')
    = Split.player_left (snd split_pair) ++ [card] /\
    Split.dealer (snd w') = Split.dealer (snd split_pair) /\
    Split.done_left (snd w')
    = is_bust (Split.player_left (snd split_pair) ++ [card]).
Proof.
  assert (Hl : Split.done_left (snd split_pair) = false) by reflexivity.
  assert (E : exists obs reward terminal w',
            Split.step fuel 1 split_pair = (Ok (obs, reward, terminal), w'))
    by (do 4 eexists; vm_compute; reflexivity).
  destruct E as (obs & reward & terminal & w' & E).
  destruct (split_hit_left_spec fuel (fst split_pair) (snd split_pair)
              obs reward terminal w' Hl E)
    as (card & Hc & Hp & _ & Hd & _ & _ & Hdl & _).
  exists obs, reward, terminal, w', card.
  split; [exact Hl |].
  split; [exact E |].
  split; [exact Hc |].
  split; [exact Hp |].
  split; [exact Hd | exact Hdl].
Defined.

Lemma split_reset_deal_witness :
  exists obs w' d1 d2 p1 p2,
    Split.reset ([0; 0; 5; 17; 0], split_new) = (Ok obs, w') /\
    Split.dealer (snd w') = [d1; d2] /\
    Split.player_left (snd w') = [p1; p2] /\
    Split.player_right (snd w') = [] /\
    Split.done_left (snd w') = false /\
    Split.done_right (snd w') = true /\
    Split.split_possible (snd w') = (p1 =? p2) /\
    Split.action_space_n (snd w') = (if p1 =? p2 then 4 else 3).
Proof.
  assert (E : exists obs w',
            Split.reset ([0; 0; 5; 17; 0], split_new) = (Ok obs, w'))
    by (do 2 eexists; vm_compute; reflexivity).
  destruct E as (obs & w' & E).
  destruct (split_reset_deal [0; 0; 5; 17; 0] split_new obs w' E)
    as (d1 & d2 & p1 & p2 & _ & _ & _ & Hd & Hp & Hr & Hdl & Hdr & _ & _
        & Hf & Hn & _).
  exists obs, w', d1, d2, p1, p2.
  split; [exact E |].
  split; [exact Hd |].
  split; [exact Hp |].
  split; [exact Hr |].
  split; [exact Hdl |].
  split; [exact Hdr |].
  split; [exact Hf | exact Hn].
Defined.

Lemma split_action_space_follows_flag_witness :
  exists obs rs w,
    Split.reset ([0; 0; 5; 17; 0], split_new) = (Ok obs, split_pair) /\
    Split.run fuel [1; 3] split_pair = (Ok rs, w) /\
    Split.action_space_n (snd w)
    = (if Split.split_possible (snd w) then 4 else 3).
Proof.
  assert (E1 : exists obs,
            Split.reset ([0; 0; 5; 17; 0], split_new) = (Ok obs, split_pair))
    by (eexists; vm_compute; reflexivity).
  assert (E2 : exists rs w,
            Split.run fuel [1; 3] split_pair = (Ok rs, w))
    by (do 2 eexists; vm_compute; reflexivity).
  destruct E1 as (obs & E1); destruct E2 as (rs & w & E2).
  exists obs, rs, w.
  split; [exact E1 |].
  split; [exact E2 |].
  apply (proj1 (split_action_space_follows_flag fuel [1; 3]
                  ([0; 0; 5; 17; 0], split_new) split_pair w obs rs
                  E1 E2)).
Defined.

Lemma single_get_obs_spec_witness :
  Single.dealer single_empty = [] /\
  fst (Single._get_obs ([], single_empty)) = Raise IndexError.
Proof.
  assert (Hd : Single.dealer single_empty = []) by reflexivity.
  split; [exact Hd |].
  apply (proj1 (proj2 (single_get_obs_spec ([], single_empty))) Hd).
Defined.

Lemma split_get_obs_spec_witness :
  Split.dealer split_empty = [] /\
  fst (Split._get_obs ([], split_empty)) = Raise IndexError.
Proof.
  assert (Hd : Split.dealer split_empty = []) by reflexivity.
  split; [exact Hd |].
  apply (proj1 (proj2 (split_get_obs_spec ([], split_empty))) Hd).
Defined.

Lemma split_double_on_left_witness :
  exists obs reward terminal w' card drawn,
    Split.done_left (snd split_pair) = false /\
    Split.done_right (snd split_pair) = true /\
    Split.step fuel 2 split_pair = (Ok (obs, reward, terminal), w') /\
    Split.player_left (snd w')
    = Split.player_left (snd split_pair) ++ [card] /\
    Split.dealer (snd w') = Split.dealer (snd split_pair) ++ drawn /\
    17 <= sum_hand (Split.dealer (snd split_pair) ++ drawn) /\
    terminal = true /\
    Split.reward_left (snd w')
    = (2 * cmp (score (Split.player_left (snd split_pair) ++ [card]))
               (score (Split.dealer (snd split_pair) ++ drawn)))%Q.
Proof.
  assert (Hl : Split.done_left (snd split_pair) = false) by reflexivity.
  assert (Hr : Split.done_right (snd split_pair) = true) by reflexivity.
  assert (E : exists obs reward terminal w',
            Split.step fuel 2 split_pair = (Ok (obs, reward, terminal), w'))
    by (do 4 eexists; vm_compute; reflexivity).
  destruct E as (obs & reward & terminal & w' & E).
  destruct (split_double_on_left fuel (fst split_pair) (snd split_pair)
              obs reward terminal w' Hl Hr E)
    as (card & drawn & _ & Hp & _ & Hd & H17 & _ & _ & _ & Ht & Hrl & _).
  exists obs, reward, terminal, w', card, drawn.
  split; [exact Hl |].
  split; [exact Hr |].
  split; [exact E |].
  split; [exact Hp |].
  split; [exact Hd |].
  split; [exact H17 |].
  split; [exact Ht | exact Hrl].
Defined.

Lemma split_unsplit_plays_as_single_witness :
  Split.player_right (snd split_pair) = [] /\
  Split.done_right (snd split_pair) = true /\
  Split.done_left (snd split_pair) = false /\
  (1 = 0 \/ 1 = 1) /\
  1 < Split.action_space_n (snd split_pair) /\
  Single.step fuel 1 (fst split_pair, single_of_split (snd split_pair))
  = (match fst (Split.step fuel 1 split_pair) with
     | Ok (obs, _, terminal) =>
         Ok (single_obs_of_split obs,
             Split.reward_left (snd (snd (Split.step fuel 1 split_pair))),
             terminal)
     | Raise x => Raise x
     | OutOfFuel => OutOfFuel
     end,
     (fst (snd (Split.step fuel 1 split_pair)),
      single_of_split (snd (snd (Split.step fuel 1 split_pair))))).
Proof.
  assert (Hr : Split.player_right (snd split_pair) = []) by reflexivity.
  assert (Hd : Split.done_right (snd split_pair) = true) by reflexivity.
  assert (Hl : Split.done_left (snd split_pair) = false) by reflexivity.
  assert (Ha : 1 = 0 \/ 1 = 1) by (right; reflexivity).
  assert (Hn : 1 < Split.action_space_n (snd split_pair))
    by (vm_compute; reflexivity).
  repeat (split; [assumption |]).
  apply (proj1 (split_unsplit_plays_as_single fuel 1 (fst split_pair)
                  (snd split_pair) Hr Hd Hl Ha Hn)).
Defined.

End MoreWitnesses.
